(** * video_cut: detection / tracking fusion (tracker.py, video_processor.py)

    A shallow embedding of the multi-person tracker and of the frame
    pipeline that drives it, with the properties of the design document
    stated over it.

    Conventions.
    - Pixel coordinates, identities and counters are Python [int]s: [Z].
    - A Python [float] (a confidence, an IoU value, a threshold) is the
      rational [Q] it denotes.  The confidence of a track is computed in
      binary64 arithmetic, every operation rounded as IEEE 754 rounds it
      (module [Float]); the quotients ([calc_iou], the frame rates) are
      exact, and only their order is used.  Equalities between floats are
      stated with [==] (the same number).
    - A Python exception raised by the code itself is a [Raise] result.
      The external capabilities (OpenCV trackers, the detector, the video
      reader) are functions over an abstract state.  The methods are
      first given for capabilities that answer every call; module
      [Raising] gives the ones that call [tracker.init] again for an
      [init] that raises [cv2.error] on some seed regions, as OpenCV's
      does, and relates the two.  Other exceptions thrown from inside a
      capability are outside the model.
    - [self.tracked_persons] is a [dict]: an association list in insertion
      order, which is the order [items()] iterates in. *)

From Stdlib Require Import ZArith QArith Qround List String Bool Lia Lqa.
From Stdlib Require SpecFloat.
Import ListNotations.

Open Scope Z_scope.

(** ** Exceptions *)

Inductive exn : Type :=
| ZeroDivisionError
| ValueError
| cv2_error.                     (* cv2.error, raised inside OpenCV *)

Inductive result (A : Type) : Type :=
| Ok (a : A)
| Raise (e : exn).

Arguments Ok {A} a.
Arguments Raise {A} e.

Definition bind {A B : Type} (c : result A) (k : A -> result B) : result B :=
  match c with
  | Ok a => k a
  | Raise e => Raise e
  end.

Notation "x <- c ;; k" := (bind c (fun x => k))
  (at level 61, c at next level, right associativity).
Notation "' p <- c ;; k" := (bind c (fun x => let p := x in k))
  (at level 61, p pattern, c at next level, right associativity).

(** ** Python primitives used by the code *)

(** [a / b] on two ints: true division, [ZeroDivisionError] on [b = 0]. *)
Definition py_truediv (a b : Z) : result Q :=
  if b =? 0 then Raise ZeroDivisionError
  else Ok (inject_Z a / inject_Z b)%Q.

(** [a % b] on two ints: the sign follows the divisor, as [Z.modulo]. *)
Definition py_mod (a b : Z) : result Z :=
  if b =? 0 then Raise ZeroDivisionError
  else Ok (a mod b).

(** [int(v)] on a float: truncation towards zero. *)
Definition py_int (v : Q) : Z :=
  if Qle_bool 0 v then Qfloor v else Qceiling v.

(** [a > b] on floats. *)
Definition Qgtb (a b : Q) : bool :=
  match (a ?= b)%Q with
  | Gt => true
  | _ => false
  end.

(** [max(a, b)]: the first argument unless the second is strictly greater. *)
Definition py_max (a b : Q) : Q :=
  if Qgtb b a then b else a.

(** ** Python floats

    A [float] is an IEEE 754 binary64 number; a finite one is kept as the
    rational it denotes.  An operation returns the exact result rounded
    to the nearest number with 53 significant bits, ties to the even
    mantissa; a literal denotes the number nearest to its decimal, and
    [float(n)] the number nearest to the int.  The exponent is not
    bounded: nothing this program computes underflows, and a counter
    overflows the format only from [2^1024] on (where Python raises
    [OverflowError] on the conversion), that is after as many frames. *)

Module Float.

(** The integer nearest to [n / d], for [0 < d]; ties to even. *)
Definition nearest_even (n d : Z) : Z :=
  let q := n / d in
  match 2 * (n mod d) ?= d with
  | Lt => q
  | Gt => q + 1
  | Eq => if Z.even q then q else q + 1
  end.

(** [m * 2^e]. *)
Definition scaled (m e : Z) : Q :=
  Qmake (m * 2 ^ Z.max 0 e) (Z.to_pos (2 ^ Z.max 0 (- e))).

(** [n / d], for [0 < n] and [0 < d], rounded to 53 significant bits:
    the quotient is scaled into [2^52, 2^53) and rounded to an integer. *)
Definition round_pos (n d : Z) : Q :=
  let e0 := Z.log2 n - Z.log2 d - 53 in
  let n0 := n * 2 ^ Z.max 0 (- e0) in
  let d0 := d * 2 ^ Z.max 0 e0 in
  (* 2^52 < n0 / d0 < 2^54 *)
  if n0 <? 2 ^ 53 * d0
  then scaled (nearest_even n0 d0) e0
  else scaled (nearest_even n0 (2 * d0)) (e0 + 1).

Definition round (q : Q) : Q :=
  let q := Qred q in
  match Qnum q with
  | 0 => 0%Q
  | Zpos n => round_pos (Zpos n) (Zpos (Qden q))
  | Zneg n => Qopp (round_pos (Zpos n) (Zpos (Qden q)))
  end.

(** A literal, given by its decimal; [float(n)]; [a * b]; [a - b]. *)
Definition lit (q : Q) : Q := round q.
Definition of_int (n : Z) : Q := round (inject_Z n).
Definition mul (a b : Q) : Q := round (a * b).
Definition sub (a b : Q) : Q := round (a - b).

End Float.

(** ** tracker.py: geometry *)

(** A box is the tuple [(x1, y1, x2, y2)]. *)
Definition Box : Type := (Z * Z * Z * Z)%type.

Definition calc_iou (box1 box2 : Box) : result Q :=
  let '(x1_1, y1_1, x2_1, y2_1) := box1 in
  let '(x1_2, y1_2, x2_2, y2_2) := box2 in
  let xi1 := Z.max x1_1 x1_2 in
  let yi1 := Z.max y1_1 y1_2 in
  let xi2 := Z.min x2_1 x2_2 in
  let yi2 := Z.min y2_1 y2_2 in
  let inter_area := Z.max 0 (xi2 - xi1) * Z.max 0 (yi2 - yi1) in
  let box1_area := (x2_1 - x1_1) * (y2_1 - y1_1) in
  let box2_area := (x2_2 - x1_2) * (y2_2 - y1_2) in
  let union_area := box1_area + box2_area - inter_area in
  if union_area =? 0 then Ok 0%Q
  else py_truediv inter_area union_area.

(** The areas [calc_iou] computes, named for the statements below. *)
Definition box_area (b : Box) : Z :=
  let '(x1, y1, x2, y2) := b in (x2 - x1) * (y2 - y1).

Definition inter_area (box1 box2 : Box) : Z :=
  let '(x1_1, y1_1, x2_1, y2_1) := box1 in
  let '(x1_2, y1_2, x2_2, y2_2) := box2 in
  Z.max 0 (Z.min x2_1 x2_2 - Z.max x1_1 x1_2)
  * Z.max 0 (Z.min y2_1 y2_2 - Z.max y1_1 y1_2).

Definition union_area (box1 box2 : Box) : Z :=
  box_area box1 + box_area box2 - inter_area box1 box2.

(** A valid box of the data model: [x1 < x2] and [y1 < y2]. *)
Definition valid_box (b : Box) : Prop :=
  let '(x1, y1, x2, y2) := b in x1 < x2 /\ y1 < y2.

(** Two boxes that share no interior point. *)
Definition disjoint_boxes (a b : Box) : Prop :=
  let '(ax1, ay1, ax2, ay2) := a in
  let '(bx1, by1, bx2, by2) := b in
  ax2 <= bx1 \/ bx2 <= ax1 \/ ay2 <= by1 \/ by2 <= ay1.

(** ** tracker.py: capabilities

    The OpenCV tracker objects and the detector are external.  A tracker
    object is a value of an abstract type [T]; [init] and [update] return
    the object after the call next to their Python result.  The detector is
    an object of an abstract type [D] with one method. *)

Inductive TrackerType : Type := KCF | CSRT | MOSSE.

(** OpenCV's [(x, y, w, h)] box, as ints when passed to [init]. *)
Definition CvBox : Type := (Z * Z * Z * Z)%type.

(** The box [update] returns; its entries go through [int(v)]. *)
Definition CvBoxF : Type := (Q * Q * Q * Q)%type.

(** A detection is the tuple [(x1, y1, x2, y2, confidence)]. *)
Definition Detection : Type := (Z * Z * Z * Z * Q)%type.

Class Cv2 (Frame T : Type) : Type := {
  has_legacy : bool;                       (* hasattr(cv2, 'legacy') *)
  legacy_TrackerKCF_create : T;
  legacy_TrackerCSRT_create : T;
  legacy_TrackerMOSSE_create : T;
  TrackerKCF_create : T;
  TrackerCSRT_create : T;
  TrackerMOSSE_create : T;
  tracker_init : T -> Frame -> CvBox -> bool * T;
  tracker_update : T -> Frame -> (bool * CvBoxF) * T
}.

Class PersonDetector (Frame D : Type) : Type := {
  detect : D -> Frame -> list Detection * D
}.

(** ** tracker.py: dictionaries and sets *)

Section Dict.
Context {V : Type}.

Definition dict : Type := list (Z * V).

(** [d[k] = v]: in place when [k] is a key, at the end otherwise. *)
Fixpoint dict_set (k : Z) (v : V) (d : dict) : dict :=
  match d with
  | [] => [(k, v)]
  | (k', v') :: rest =>
      if k =? k' then (k', v) :: rest else (k', v') :: dict_set k v rest
  end.

(** [d[k].method(...)] for a method that mutates the object [d[k]];
    the code only does this for a key it has just read from [d]. *)
Fixpoint dict_update (k : Z) (f : V -> V) (d : dict) : dict :=
  match d with
  | [] => []
  | (k', v) :: rest =>
      if k =? k' then (k', f v) :: rest else (k', v) :: dict_update k f rest
  end.

(** [del d[k]]; the code only deletes keys it has just read from [d]. *)
Fixpoint dict_del (k : Z) (d : dict) : dict :=
  match d with
  | [] => []
  | (k', v) :: rest =>
      if k =? k' then rest else (k', v) :: dict_del k rest
  end.

Definition keys (d : dict) : list Z := map fst d.
End Dict.

Arguments dict V : clear implicits.

(** [k in s] for a set of ints. *)
Definition set_mem (k : Z) (s : list Z) : bool := existsb (Z.eqb k) s.

(** [s.add(k)]. *)
Definition set_add (k : Z) (s : list Z) : list Z :=
  if set_mem k s then s else k :: s.

(** [enumerate(l)], counting from [i]. *)
Fixpoint enumerate_from {A : Type} (i : Z) (l : list A) : list (Z * A) :=
  match l with
  | [] => []
  | a :: rest => (i, a) :: enumerate_from (i + 1) rest
  end.

Definition enumerate {A : Type} (l : list A) : list (Z * A) :=
  enumerate_from 0 l.

(** [det[:4]] and [det[4]]. *)
Definition det_box (det : Detection) : Box :=
  let '(x1, y1, x2, y2, _) := det in (x1, y1, x2, y2).

Definition det_conf (det : Detection) : Q :=
  let '(_, _, _, _, c) := det in c.

(** One entry of a frame's result: [(person_id, bbox, confidence, method)]. *)
Definition Result : Type := (Z * Box * Q * string)%type.

Definition result_id (r : Result) : Z := let '(i, _, _, _) := r in i.
Definition result_method (r : Result) : string := let '(_, _, _, m) := r in m.

(** ** tracker.py: TrackedPerson *)

Record TrackedPerson (T : Type) : Type := mkTrackedPerson {
  person_id : Z;                 (* self.id *)
  bbox : Box;
  confidence : Q;
  frames_since_detection : Z;
  lost_frames : Z;
  is_active : bool;
  tracker : T
}.

Arguments mkTrackedPerson {T}.
Arguments person_id {T}.
Arguments bbox {T}.
Arguments confidence {T}.
Arguments frames_since_detection {T}.
Arguments lost_frames {T}.
Arguments is_active {T}.
Arguments tracker {T}.

Record MultiPersonTracker (T D : Type) : Type := mkMultiPersonTracker {
  detector : D;
  tracker_type : TrackerType;
  redetect_interval : Z;
  iou_threshold : Q;
  tracked_persons : dict (TrackedPerson T);
  next_id : Z;
  frame_count : Z
}.

Arguments mkMultiPersonTracker {T D}.
Arguments detector {T D}.
Arguments tracker_type {T D}.
Arguments redetect_interval {T D}.
Arguments iou_threshold {T D}.
Arguments tracked_persons {T D}.
Arguments next_id {T D}.
Arguments frame_count {T D}.

Section Tracker.
Context {Frame T D : Type} {cv2 : Cv2 Frame T} {yolo : PersonDetector Frame D}.

Definition create_tracker (tracker_type : TrackerType) : T :=
  if has_legacy then
    match tracker_type with
    | KCF => legacy_TrackerKCF_create
    | CSRT => legacy_TrackerCSRT_create
    | MOSSE => legacy_TrackerMOSSE_create
    end
  else
    match tracker_type with
    | KCF => TrackerKCF_create
    | CSRT => TrackerCSRT_create
    | MOSSE => TrackerMOSSE_create
    end.

(** [TrackedPerson.__init__]; what [init] returns is not looked at.
    Here [init] answers; [Raising.TrackedPerson_init] is the same method
    for an [init] that may raise. *)
Definition TrackedPerson_init (person_id : Z) (bbox : Box) (frame : Frame)
    (tracker_type : TrackerType) : TrackedPerson T :=
  let tracker := create_tracker tracker_type in
  let '(x1, y1, x2, y2) := bbox in
  let cv_bbox := (x1, y1, x2 - x1, y2 - y1) in
  let '(_, tracker) := tracker_init tracker frame cv_bbox in
  mkTrackedPerson person_id bbox 1%Q 0 0 true tracker.

Definition update_with_detection (self : TrackedPerson T) (bbox : Box)
    (frame : Frame) (tracker_type : TrackerType) : TrackedPerson T :=
  let tracker := create_tracker tracker_type in
  let '(x1, y1, x2, y2) := bbox in
  let cv_bbox := (x1, y1, x2 - x1, y2 - y1) in
  let '(_, tracker) := tracker_init tracker frame cv_bbox in
  mkTrackedPerson (person_id self) bbox 1%Q 0 0 (is_active self) tracker.

Definition update_with_tracker (self : TrackedPerson T) (frame : Frame)
    : bool * TrackedPerson T :=
  let '((success, cv_bbox), tracker) := tracker_update (tracker self) frame in
  if success then
    let '(x, y, w, h) := cv_bbox in
    let x := py_int x in
    let y := py_int y in
    let w := py_int w in
    let h := py_int h in
    let frames_since_detection := frames_since_detection self + 1 in
    let confidence :=
      py_max (Float.lit (3 # 10))
        (Float.sub 1
           (Float.mul (Float.of_int frames_since_detection)
              (Float.lit (2 # 100)))) in
    (true,
     mkTrackedPerson (person_id self) (x, y, x + w, y + h) confidence
       frames_since_detection (lost_frames self) (is_active self) tracker)
  else
    let lost_frames := lost_frames self + 1 in
    let is_active := if lost_frames >? 10 then false else is_active self in
    (false,
     mkTrackedPerson (person_id self) (bbox self) (confidence self)
       (frames_since_detection self) lost_frames is_active tracker).

(** ** tracker.py: MultiPersonTracker *)

Definition MultiPersonTracker_init (detector : D) (tracker_type : TrackerType)
    (redetect_interval : Z) (iou_threshold : Q) : MultiPersonTracker T D :=
  mkMultiPersonTracker detector tracker_type redetect_interval iou_threshold
    [] 1 0.

Definition with_persons (self : MultiPersonTracker T D)
    (persons : dict (TrackedPerson T)) : MultiPersonTracker T D :=
  mkMultiPersonTracker (detector self) (tracker_type self)
    (redetect_interval self) (iou_threshold self) persons
    (next_id self) (frame_count self).

Definition with_detector (self : MultiPersonTracker T D) (d : D)
    : MultiPersonTracker T D :=
  mkMultiPersonTracker d (tracker_type self)
    (redetect_interval self) (iou_threshold self) (tracked_persons self)
    (next_id self) (frame_count self).

(** [_process_with_trackers]: the loop over [items()].  The dictionary
    keeps its keys; the person objects are updated in place. *)
Fixpoint trackers_loop (items : dict (TrackedPerson T)) (frame : Frame)
    : dict (TrackedPerson T) * list Result :=
  match items with
  | [] => ([], [])
  | (track_id, person) :: rest =>
      if is_active person then
        let '(ok, person) := update_with_tracker person frame in
        let '(rest, results) := trackers_loop rest frame in
        ((track_id, person) :: rest,
         if ok
         then (track_id, bbox person, confidence person, "tracker"%string)
              :: results
         else results)
      else
        let '(rest, results) := trackers_loop rest frame in
        ((track_id, person) :: rest, results)
  end.

Definition _process_with_trackers (self : MultiPersonTracker T D)
    (frame : Frame) : list Result * MultiPersonTracker T D :=
  let '(persons, results) := trackers_loop (tracked_persons self) frame in
  (results, with_persons self persons).

(** The inner loop of the association: the best track for one detection. *)
Fixpoint best_track_loop (items : dict (TrackedPerson T))
    (matched_track_ids : list Z) (det_bbox : Box) (iou_threshold : Q)
    (best_iou : Q) (best_track_id : option Z) : result (Q * option Z) :=
  match items with
  | [] => Ok (best_iou, best_track_id)
  | (track_id, person) :: rest =>
      if set_mem track_id matched_track_ids then
        best_track_loop rest matched_track_ids det_bbox iou_threshold
          best_iou best_track_id
      else
        iou <- calc_iou det_bbox (bbox person) ;;
        if Qgtb iou best_iou && Qgtb iou iou_threshold then
          best_track_loop rest matched_track_ids det_bbox iou_threshold
            iou (Some track_id)
        else
          best_track_loop rest matched_track_ids det_bbox iou_threshold
            best_iou best_track_id
  end.

(** The mutable state of the association loops. *)
Record Assoc : Type := mkAssoc {
  a_persons : dict (TrackedPerson T);
  a_matched_track_ids : list Z;
  a_matched_det_indices : list Z;
  a_results : list Result
}.

(** The outer loop of the association, over [enumerate(detections)]. *)
Fixpoint match_loop (dets : list (Z * Detection)) (frame : Frame)
    (tracker_type : TrackerType) (iou_threshold : Q) (st : Assoc)
    : result Assoc :=
  match dets with
  | [] => Ok st
  | (det_idx, det) :: rest =>
      let det_bbox := det_box det in
      '(_, best_track_id) <-
        best_track_loop (a_persons st) (a_matched_track_ids st) det_bbox
          iou_threshold 0%Q None ;;
      match best_track_id with
      | Some best_track_id =>
          match_loop rest frame tracker_type iou_threshold
            (mkAssoc
               (dict_update best_track_id
                  (fun p => update_with_detection p det_bbox frame
                              tracker_type)
                  (a_persons st))
               (set_add best_track_id (a_matched_track_ids st))
               (set_add det_idx (a_matched_det_indices st))
               (a_results st
                ++ [(best_track_id, det_bbox, det_conf det, "yolo"%string)]))
      | None => match_loop rest frame tracker_type iou_threshold st
      end
  end.

(** The loop that creates a track for every unmatched detection. *)
Fixpoint create_loop (dets : list (Z * Detection)) (frame : Frame)
    (tracker_type : TrackerType) (matched_det_indices : list Z)
    (persons : dict (TrackedPerson T)) (next_id : Z) (results : list Result)
    : dict (TrackedPerson T) * Z * list Result :=
  match dets with
  | [] => (persons, next_id, results)
  | (det_idx, det) :: rest =>
      if negb (set_mem det_idx matched_det_indices) then
        let det_bbox := det_box det in
        let new_id := next_id in
        let next_id := next_id + 1 in
        create_loop rest frame tracker_type matched_det_indices
          (dict_set new_id
             (TrackedPerson_init new_id det_bbox frame tracker_type) persons)
          next_id
          (results ++ [(new_id, det_bbox, det_conf det, "yolo"%string)])
      else
        create_loop rest frame tracker_type matched_det_indices
          persons next_id results
  end.

(** The loop that advances every track no detection was matched to. *)
Fixpoint unmatched_loop (items : dict (TrackedPerson T))
    (matched_track_ids : list Z) (frame : Frame)
    : dict (TrackedPerson T) * list Result :=
  match items with
  | [] => ([], [])
  | (track_id, person) :: rest =>
      if negb (set_mem track_id matched_track_ids) then
        let '(ok, person) := update_with_tracker person frame in
        let '(rest, results) := unmatched_loop rest matched_track_ids frame in
        ((track_id, person) :: rest,
         if ok
         then (track_id, bbox person, confidence person, "tracker"%string)
              :: results
         else results)
      else
        let '(rest, results) := unmatched_loop rest matched_track_ids frame in
        ((track_id, person) :: rest, results)
  end.

Definition is_empty {A : Type} (l : list A) : bool :=
  match l with [] => true | _ => false end.

Definition _process_with_yolo (self : MultiPersonTracker T D) (frame : Frame)
    : result (list Result * MultiPersonTracker T D) :=
  let '(detections, d) := detect (detector self) frame in
  let self := with_detector self d in
  if is_empty detections then
    Ok (_process_with_trackers self frame)
  else
    st <- (if negb (is_empty (tracked_persons self)) then
             match_loop (enumerate detections) frame (tracker_type self)
               (iou_threshold self)
               (mkAssoc (tracked_persons self) [] [] [])
           else Ok (mkAssoc (tracked_persons self) [] [] [])) ;;
    let '(persons, next_id, results) :=
      create_loop (enumerate detections) frame (tracker_type self)
        (a_matched_det_indices st) (a_persons st) (next_id self)
        (a_results st) in
    let '(persons, tracked) :=
      unmatched_loop persons (a_matched_track_ids st) frame in
    Ok (results ++ tracked,
        mkMultiPersonTracker (detector self) (tracker_type self)
          (redetect_interval self) (iou_threshold self) persons next_id
          (frame_count self)).

Definition _cleanup_inactive (self : MultiPersonTracker T D)
    : MultiPersonTracker T D :=
  let inactive_ids :=
    map fst (filter (fun '(tid, p) => negb (is_active p))
               (tracked_persons self)) in
  with_persons self
    (fold_left (fun d tid => dict_del tid d) inactive_ids
       (tracked_persons self)).

(** The test [need_yolo] of [process_frame], on the incremented counter;
    [or] evaluates its operands from the left and stops at the first true
    one. *)
Definition need_yolo (self : MultiPersonTracker T D) : result bool :=
  if frame_count self =? 1 then Ok true
  else
    r <- py_mod (frame_count self) (redetect_interval self) ;;
    if r =? 0 then Ok true
    else Ok (Z.of_nat (List.length (tracked_persons self)) =? 0).

Definition process_frame (self : MultiPersonTracker T D) (frame : Frame)
    : result (list Result * MultiPersonTracker T D) :=
  let self :=
    mkMultiPersonTracker (detector self) (tracker_type self)
      (redetect_interval self) (iou_threshold self) (tracked_persons self)
      (next_id self) (frame_count self + 1) in
  need_yolo <- need_yolo self ;;
  '(results, self) <-
    (if need_yolo : bool then _process_with_yolo self frame
     else Ok (_process_with_trackers self frame)) ;;
  Ok (results, _cleanup_inactive self).

Definition reset (self : MultiPersonTracker T D) : MultiPersonTracker T D :=
  mkMultiPersonTracker (detector self) (tracker_type self)
    (redetect_interval self) (iou_threshold self) [] 1 0.

End Tracker.

(** ** tracker.py: when [init] raises

    OpenCV's trackers do not always answer: on some seed regions, a
    region without extent among them, [tracker.init] raises [cv2.error].
    Neither tracker.py nor video_processor.py catches it.  [raises frame
    cv_bbox] says whether [init] raises on this frame and region; the
    methods that call [init], and their callers, are given again with
    this exit.  On the frames where [init] raises on no seed they are the
    methods above. *)

(** The region [TrackedPerson] seeds its tracker with, for a box. *)
Definition cv_seed (bbox : Box) : CvBox :=
  let '(x1, y1, x2, y2) := bbox in (x1, y1, x2 - x1, y2 - y1).

Module Raising.
Section Methods.
Context {Frame T D : Type} {cv2 : Cv2 Frame T} {yolo : PersonDetector Frame D}.
Variable raises : Frame -> CvBox -> bool.

(** [tracker.init(frame, cv_bbox)]. *)
Definition init (tracker : T) (frame : Frame) (cv_bbox : CvBox)
    : result (bool * T) :=
  if raises frame cv_bbox then Raise cv2_error
  else Ok (tracker_init tracker frame cv_bbox).

Definition TrackedPerson_init (person_id : Z) (bbox : Box) (frame : Frame)
    (tracker_type : TrackerType) : result (TrackedPerson T) :=
  let tracker := create_tracker tracker_type in
  let '(x1, y1, x2, y2) := bbox in
  let cv_bbox := (x1, y1, x2 - x1, y2 - y1) in
  '(_, tracker) <- init tracker frame cv_bbox ;;
  Ok (mkTrackedPerson person_id bbox 1%Q 0 0 true tracker).

Definition update_with_detection (self : TrackedPerson T) (bbox : Box)
    (frame : Frame) (tracker_type : TrackerType) : result (TrackedPerson T) :=
  let tracker := create_tracker tracker_type in
  let '(x1, y1, x2, y2) := bbox in
  let cv_bbox := (x1, y1, x2 - x1, y2 - y1) in
  '(_, tracker) <- init tracker frame cv_bbox ;;
  Ok (mkTrackedPerson (person_id self) bbox 1%Q 0 0 (is_active self) tracker).

(** [d[k].method(...)] for a method that may raise. *)
Fixpoint dict_update (k : Z)
    (f : TrackedPerson T -> result (TrackedPerson T))
    (d : dict (TrackedPerson T)) : result (dict (TrackedPerson T)) :=
  match d with
  | [] => Ok []
  | (k', v) :: rest =>
      if k =? k' then v <- f v ;; Ok ((k', v) :: rest)
      else rest <- dict_update k f rest ;; Ok ((k', v) :: rest)
  end.

Fixpoint match_loop (dets : list (Z * Detection)) (frame : Frame)
    (tracker_type : TrackerType) (iou_threshold : Q) (st : Assoc)
    : result Assoc :=
  match dets with
  | [] => Ok st
  | (det_idx, det) :: rest =>
      let det_bbox := det_box det in
      '(_, best_track_id) <-
        best_track_loop (a_persons st) (a_matched_track_ids st) det_bbox
          iou_threshold 0%Q None ;;
      match best_track_id with
      | Some best_track_id =>
          persons <-
            dict_update best_track_id
              (fun p => update_with_detection p det_bbox frame tracker_type)
              (a_persons st) ;;
          match_loop rest frame tracker_type iou_threshold
            (mkAssoc persons
               (set_add best_track_id (a_matched_track_ids st))
               (set_add det_idx (a_matched_det_indices st))
               (a_results st
                ++ [(best_track_id, det_bbox, det_conf det, "yolo"%string)]))
      | None => match_loop rest frame tracker_type iou_threshold st
      end
  end.

Fixpoint create_loop (dets : list (Z * Detection)) (frame : Frame)
    (tracker_type : TrackerType) (matched_det_indices : list Z)
    (persons : dict (TrackedPerson T)) (next_id : Z) (results : list Result)
    : result (dict (TrackedPerson T) * Z * list Result) :=
  match dets with
  | [] => Ok (persons, next_id, results)
  | (det_idx, det) :: rest =>
      if negb (set_mem det_idx matched_det_indices) then
        let det_bbox := det_box det in
        let new_id := next_id in
        let next_id := next_id + 1 in
        person <- TrackedPerson_init new_id det_bbox frame tracker_type ;;
        create_loop rest frame tracker_type matched_det_indices
          (dict_set new_id person persons)
          next_id
          (results ++ [(new_id, det_bbox, det_conf det, "yolo"%string)])
      else
        create_loop rest frame tracker_type matched_det_indices
          persons next_id results
  end.

Definition _process_with_yolo (self : MultiPersonTracker T D) (frame : Frame)
    : result (list Result * MultiPersonTracker T D) :=
  let '(detections, d) := detect (detector self) frame in
  let self := with_detector self d in
  if is_empty detections then
    Ok (_process_with_trackers self frame)
  else
    st <- (if negb (is_empty (tracked_persons self)) then
             match_loop (enumerate detections) frame (tracker_type self)
               (iou_threshold self)
               (mkAssoc (tracked_persons self) [] [] [])
           else Ok (mkAssoc (tracked_persons self) [] [] [])) ;;
    '(persons, next_id, results) <-
      create_loop (enumerate detections) frame (tracker_type self)
        (a_matched_det_indices st) (a_persons st) (next_id self)
        (a_results st) ;;
    let '(persons, tracked) :=
      unmatched_loop persons (a_matched_track_ids st) frame in
    Ok (results ++ tracked,
        mkMultiPersonTracker (detector self) (tracker_type self)
          (redetect_interval self) (iou_threshold self) persons next_id
          (frame_count self)).

Definition process_frame (self : MultiPersonTracker T D) (frame : Frame)
    : result (list Result * MultiPersonTracker T D) :=
  let self :=
    mkMultiPersonTracker (detector self) (tracker_type self)
      (redetect_interval self) (iou_threshold self) (tracked_persons self)
      (next_id self) (frame_count self + 1) in
  need_yolo <- need_yolo self ;;
  '(results, self) <-
    (if need_yolo : bool then _process_with_yolo self frame
     else Ok (_process_with_trackers self frame)) ;;
  Ok (results, _cleanup_inactive self).

End Methods.
End Raising.

(** ** video_processor.py

    The video file is read through [cv2.VideoCapture]: a capture is the
    list of what successive [read()] calls meet.  Each entry carries the
    frame together with what the surroundings do while that frame is
    handled: whether some context calls [stop()], and the wall-clock time
    elapsed when the progress callback is reached.  The annotated frame
    [_draw_results] paints is kept as the data it paints. *)

Record Stats : Type := mkStats {
  total_frames : Z;
  yolo_frames : Z;
  tracker_frames : Z;
  total_persons : Z;
  avg_fps : Q
}.

Record VideoProcessor (T D : Type) : Type := mkVideoProcessor {
  multi_tracker : MultiPersonTracker T D;
  is_processing : bool;
  should_stop : bool;
  stats : Stats
}.

Arguments mkVideoProcessor {T D}.
Arguments multi_tracker {T D}.
Arguments is_processing {T D}.
Arguments should_stop {T D}.
Arguments stats {T D}.

Record Tick (Frame : Type) : Type := mkTick {
  tick_frame : Frame;     (* what cap.read() returns, with ret = True *)
  tick_stop : bool;       (* stop() is called while this frame is handled *)
  tick_elapsed : Q        (* time.time() - start_time, at the callback *)
}.

Arguments mkTick {Frame}.
Arguments tick_frame {Frame}.
Arguments tick_stop {Frame}.
Arguments tick_elapsed {Frame}.

Record VideoCapture (Frame : Type) : Type := mkVideoCapture {
  isOpened : bool;
  CAP_PROP_FPS : Q;
  CAP_PROP_FRAME_COUNT : Z;
  reads : list (Tick Frame)
}.

Arguments mkVideoCapture {Frame}.
Arguments isOpened {Frame}.
Arguments CAP_PROP_FPS {Frame}.
Arguments CAP_PROP_FRAME_COUNT {Frame}.
Arguments reads {Frame}.

(** What [_draw_results] paints on a copy of the frame. *)
Record Annotated (Frame : Type) : Type := mkAnnotated {
  drawn_on : Frame;
  drawn_results : list Result;
  drawn_total_ids : Z;
  drawn_fps : Q
}.

Arguments mkAnnotated {Frame}.
Arguments drawn_on {Frame}.
Arguments drawn_results {Frame}.
Arguments drawn_total_ids {Frame}.
Arguments drawn_fps {Frame}.

(** What the writer and the two callbacks have received, oldest first. *)
Record Sinks (Frame : Type) : Type := mkSinks {
  written : list (Annotated Frame);
  previewed : list (Annotated Frame);
  progress : list (Z * Z * Stats)
}.

Arguments mkSinks {Frame}.
Arguments written {Frame}.
Arguments previewed {Frame}.
Arguments progress {Frame}.

(** How a call of [process_video] ends. *)
(** How a call of [process_video] ends: what it returns (with the object
    and what the sinks received, when it returns) or raises, and whether
    the capture and the writer were released. *)
Record Outcome (Frame T D : Type) : Type := mkOutcome {
  returned : result (Stats * VideoProcessor T D * Sinks Frame);
  cap_released : bool;
  writer_released : option bool     (* [None]: no writer was made *)
}.

Arguments mkOutcome {Frame T D}.
Arguments returned {Frame T D}.
Arguments cap_released {Frame T D}.
Arguments writer_released {Frame T D}.

(** [a / b] for a float and an int. *)
Definition py_fdiv (a : Q) (b : Z) : result Q :=
  if b =? 0 then Raise ZeroDivisionError
  else Ok (a / inject_Z b)%Q.

(** [sum(1 for r in results if r[3] == m)]. *)
Definition count_method (m : string) (results : list Result) : Z :=
  Z.of_nat (List.length (filter (fun r => String.eqb (result_method r) m)
                           results)).

Section Pipeline.
Context {Frame T D : Type} {cv2 : Cv2 Frame T} {yolo : PersonDetector Frame D}.

Definition VideoProcessor_init (detector : D) (tracker_type : TrackerType)
    (redetect_interval : Z) : VideoProcessor T D :=
  mkVideoProcessor
    (MultiPersonTracker_init detector tracker_type redetect_interval (3 # 10))
    false false (mkStats 0 0 0 0 0%Q).

Definition stop (self : VideoProcessor T D) : VideoProcessor T D :=
  mkVideoProcessor (multi_tracker self) (is_processing self) true
    (stats self).

Definition _draw_results (self : VideoProcessor T D) (frame : Frame)
    (results : list Result) : Annotated Frame :=
  mkAnnotated frame results (total_persons (stats self))
    (avg_fps (stats self)).

(** The [while not self.should_stop] loop; [frame_count] is the local
    counter of frames read. *)
Fixpoint frames_loop (cap : list (Tick Frame)) (frame_count : Z)
    (total : Z) (writer progress_callback preview_callback : bool)
    (skip_frames : Z) (self : VideoProcessor T D) (out : Sinks Frame)
    : result (VideoProcessor T D * Sinks Frame) :=
  if should_stop self then Ok (self, out)
  else
    match cap with
    | [] => Ok (self, out)                       (* ret is False: break *)
    | tk :: cap =>
        let self := if tick_stop tk then stop self else self in
        let frame := tick_frame tk in
        let frame_count := frame_count + 1 in
        skipped <-
          (if skip_frames >? 0 then
             r <- py_mod (frame_count - 1) (skip_frames + 1) ;;
             Ok (negb (r =? 0))
           else Ok false) ;;
        if skipped : bool then
          frames_loop cap frame_count total writer progress_callback
            preview_callback skip_frames self out
        else
          let st := stats self in
          let st :=
            mkStats (total_frames st + 1) (yolo_frames st)
              (tracker_frames st) (total_persons st) (avg_fps st) in
          '(results, mt) <- process_frame (multi_tracker self) frame ;;
          let yolo_count := count_method "yolo" results in
          let tracker_count := count_method "tracker" results in
          let st :=
            mkStats (total_frames st)
              (yolo_frames st + (if yolo_count >? 0 then 1 else 0))
              (tracker_frames st
               + (if (tracker_count >? 0) && (yolo_count =? 0)
                  then 1 else 0))
              (next_id mt - 1) (avg_fps st) in
          let self :=
            mkVideoProcessor mt (is_processing self) (should_stop self) st in
          let output_frame := _draw_results self frame results in
          let out :=
            if writer
            then mkSinks (written out ++ [output_frame]) (previewed out)
                   (progress out)
            else out in
          let out :=
            if preview_callback
            then mkSinks (written out) (previewed out ++ [output_frame])
                   (progress out)
            else out in
          if progress_callback then
            let elapsed := tick_elapsed tk in
            let st :=
              if Qgtb elapsed 0
              then mkStats (total_frames st) (yolo_frames st)
                     (tracker_frames st) (total_persons st)
                     (inject_Z (total_frames st) / elapsed)%Q
              else st in
            let self :=
              mkVideoProcessor mt (is_processing self) (should_stop self)
                st in
            let out :=
              mkSinks (written out) (previewed out)
                (progress out ++ [(frame_count, total, st)]) in
            frames_loop cap frame_count total writer progress_callback
              preview_callback skip_frames self out
          else
            frames_loop cap frame_count total writer progress_callback
              preview_callback skip_frames self out
    end.

(** [process_video].  [output_path], [progress_callback] and
    [preview_callback] say whether the argument was given; [stop_early]
    says whether some context calls [stop()] after the flag was cleared
    and before the loop tests it for the first time. *)
Definition process_video (self : VideoProcessor T D)
    (cap : VideoCapture Frame)
    (output_path progress_callback preview_callback : bool)
    (skip_frames : Z) (stop_early : bool) : Outcome Frame T D :=
  let self :=
    mkVideoProcessor (reset (multi_tracker self)) true false
      (mkStats 0 0 0 0 0%Q) in
  let no_output := mkSinks [] [] [] in
  if negb (isOpened cap) then
    mkOutcome (Raise ValueError) false None
  else
    let fps := CAP_PROP_FPS cap in
    let total_frames := CAP_PROP_FRAME_COUNT cap in
    match (if output_path then
             effective_fps <- py_fdiv fps (skip_frames + 1) ;; Ok true
           else Ok false) with
    | Raise e => mkOutcome (Raise e) false None
    | Ok writer =>
        let self := if stop_early then stop self else self in
        (* try: ... finally: release the capture and the writer *)
        match frames_loop (reads cap) 0 total_frames writer
                progress_callback preview_callback skip_frames self
                no_output with
        | Ok (self, out) =>
            let self :=
              mkVideoProcessor (multi_tracker self) false (should_stop self)
                (stats self) in
            mkOutcome (Ok (stats self, self, out)) true
              (if writer then Some true else None)
        | Raise e =>
            mkOutcome (Raise e) true (if writer then Some true else None)
        end
    end.

End Pipeline.

(** ** Runs, and what the statements below are about *)

(** The identities [start], [start + 1], ... ([n] of them). *)
Fixpoint ids_from (start : Z) (n : nat) : list Z :=
  match n with
  | O => []
  | S n => start :: ids_from (start + 1) n
  end.

(** The confidence [update_with_tracker] computes from the counter [n]:
    [max(0.3, 1.0 - n * 0.02)], in float arithmetic. *)
Definition decayed (n : Z) : Q :=
  py_max (Float.lit (3 # 10))
    (Float.sub 1 (Float.mul (Float.of_int n) (Float.lit (2 # 100)))).

Section Runs.
Context {Frame T D : Type} {cv2 : Cv2 Frame T} {yolo : PersonDetector Frame D}.

(** A track that is advanced on each of [frames] in turn, every update
    succeeding; [None] as soon as one fails. *)
Fixpoint advances (p : TrackedPerson T) (frames : list Frame)
    : option (TrackedPerson T) :=
  match frames with
  | [] => Some p
  | frame :: rest =>
      let '(ok, p) := update_with_tracker p frame in
      if ok then advances p rest else None
  end.

(** [process_frame] called on each frame in turn; the results of every
    frame, oldest first. *)
Fixpoint run_frames (self : MultiPersonTracker T D) (frames : list Frame)
    : result (list (list Result) * MultiPersonTracker T D) :=
  match frames with
  | [] => Ok ([], self)
  | frame :: rest =>
      '(results, self) <- process_frame self frame ;;
      '(more, self) <- run_frames self rest ;;
      Ok (results :: more, self)
  end.

(** The tracker after [self.frame_count += 1]. *)
Definition counted (self : MultiPersonTracker T D) : MultiPersonTracker T D :=
  mkMultiPersonTracker (detector self) (tracker_type self)
    (redetect_interval self) (iou_threshold self) (tracked_persons self)
    (next_id self) (frame_count self + 1).

(** The association of [_process_with_yolo], from its empty sets. *)
Definition associate (self : MultiPersonTracker T D) (frame : Frame)
    (detections : list Detection) : result Assoc :=
  if negb (is_empty (tracked_persons self)) then
    match_loop (enumerate detections) frame (tracker_type self)
      (iou_threshold self) (mkAssoc (tracked_persons self) [] [] [])
  else Ok (mkAssoc (tracked_persons self) [] [] []).

(** The identities for which [process_frame], called on [frame], builds a
    [TrackedPerson]: those of the entries its creation loop appends, in
    the order it appends them. *)
Definition created_in_frame (self : MultiPersonTracker T D) (frame : Frame)
    : list Z :=
  let self := counted self in
  match need_yolo self with
  | Ok true =>
      let '(detections, d) := detect (detector self) frame in
      if is_empty detections then []
      else
        match associate (with_detector self d) frame detections with
        | Ok st =>
            let '(_, _, created) :=
              create_loop (enumerate detections) frame (tracker_type self)
                (a_matched_det_indices st) (a_persons st) (next_id self) []
            in map result_id created
        | Raise _ => []
        end
  | _ => []
  end.

(** The identities created along [run_frames self frames]. *)
Fixpoint created_in_run (self : MultiPersonTracker T D) (frames : list Frame)
    : list Z :=
  match frames with
  | [] => []
  | frame :: rest =>
      created_in_frame self frame
      ++ match process_frame self frame with
         | Ok (_, self) => created_in_run self rest
         | Raise _ => []
         end
  end.

(** The two loops that advance tracks differ in their guard only. *)
Fixpoint advance_loop (guard : Z -> TrackedPerson T -> bool)
    (items : dict (TrackedPerson T)) (frame : Frame)
    : dict (TrackedPerson T) * list Result :=
  match items with
  | [] => ([], [])
  | (track_id, person) :: rest =>
      if guard track_id person then
        let '(ok, person) := update_with_tracker person frame in
        let '(rest, results) := advance_loop guard rest frame in
        ((track_id, person) :: rest,
         if ok
         then (track_id, bbox person, confidence person, "tracker"%string)
              :: results
         else results)
      else
        let '(rest, results) := advance_loop guard rest frame in
        ((track_id, person) :: rest, results)
  end.

(** A live set as the session keeps it between frames: a well-formed
    dictionary (no key twice) of active tracks, every key an identity
    already issued, the next identity to issue at least 1. *)
Definition live_ok (self : MultiPersonTracker T D) : Prop :=
  NoDup (keys (tracked_persons self)) /\
  Forall (fun kp => is_active (snd kp) = true) (tracked_persons self) /\
  Forall (fun k => 1 <= k < next_id self) (keys (tracked_persons self)) /\
  1 <= next_id self.

(** What one pass of [advance_loop] does to one track, and what it
    reports for it. *)
Definition advanced (guard : Z -> TrackedPerson T -> bool) (frame : Frame)
    (kp : Z * TrackedPerson T) : Z * TrackedPerson T :=
  (fst kp,
   if guard (fst kp) (snd kp)
   then snd (update_with_tracker (snd kp) frame)
   else snd kp).

Definition reported (guard : Z -> TrackedPerson T -> bool) (frame : Frame)
    (kp : Z * TrackedPerson T) : list Result :=
  if guard (fst kp) (snd kp) then
    if fst (update_with_tracker (snd kp) frame) then
      let p := snd (update_with_tracker (snd kp) frame) in
      [(fst kp, bbox p, confidence p, "tracker"%string)]
    else []
  else [].

Definition active_entry (kp : Z * TrackedPerson T) : bool :=
  is_active (snd kp).

(** The key of an entry and whether its track is active. *)
Definition shape (kp : Z * TrackedPerson T) : Z * bool :=
  (fst kp, is_active (snd kp)).

(** The detections the creation loop makes tracks for. *)
Definition unmatched_dets (dets : list (Z * Detection))
    (matched_det_indices : list Z) : list (Z * Detection) :=
  filter (fun e => negb (set_mem (fst e) matched_det_indices)) dets.

(** The entry and the result the creation loop makes for a detection
    that comes with its new identity. *)
Definition new_track (frame : Frame) (tracker_type : TrackerType)
    (e : Z * (Z * Detection)) : Z * TrackedPerson T :=
  (fst e,
   TrackedPerson_init (fst e) (det_box (snd (snd e))) frame tracker_type).

Definition new_result (e : Z * (Z * Detection)) : Result :=
  (fst e, det_box (snd (snd e)), det_conf (snd (snd e)), "yolo"%string).


(** What the association loop keeps true of its state, for the
    dictionary [d0] it started from and the detections [dets0] it goes
    through: the keys and the [is_active] flags are those of [d0]; the
    matched tracks are tracks of [d0]; every result so far is a detector
    result for a matched track; every matched detection has its result. *)
Definition assoc_inv (d0 : dict (TrackedPerson T))
    (dets0 : list (Z * Detection)) (st : Assoc) : Prop :=
  map shape (a_persons st) = map shape d0 /\
  incl (a_matched_track_ids st) (keys d0) /\
  Forall (fun r => result_method r = "yolo"%string /\
                   In (result_id r) (a_matched_track_ids st))
    (a_results st) /\
  (forall i det, In (i, det) dets0 -> In i (a_matched_det_indices st) ->
     exists k,
       In (k, det_box det, det_conf det, "yolo"%string) (a_results st)).


(** The three reasons for which [process_frame] goes through the
    detector, on the counter it is about to increment. *)
Definition redetection_due (self : MultiPersonTracker T D) : bool :=
  (frame_count self + 1 =? 1)
  || ((frame_count self + 1) mod redetect_interval self =? 0)
  || is_empty (tracked_persons self).

(** Whether some entry of a frame's result has provenance [m]. *)
Definition has_method (m : string) (results : list Result) : bool :=
  existsb (fun r => String.eqb (result_method r) m) results.

(** A frame that counts as a detector frame, and one that counts as a
    tracker frame. *)
Definition detector_frame (results : list Result) : bool :=
  has_method "yolo" results.

Definition tracker_frame (results : list Result) : bool :=
  has_method "tracker" results && negb (has_method "yolo" results).

(** The frames [frames_loop] hands to [process_frame], given the reads
    that are left, the number of frames read so far and whether the stop
    flag is set. *)
Fixpoint handed_frames (cap : list (Tick Frame)) (frame_count : Z)
    (skip_frames : Z) (stopped : bool) : list Frame :=
  if stopped then []
  else
    match cap with
    | [] => []
    | tk :: cap =>
        let stopped := tick_stop tk in
        let frame_count := frame_count + 1 in
        if (skip_frames >? 0)
           && negb ((frame_count - 1) mod (skip_frames + 1) =? 0)
        then handed_frames cap frame_count skip_frames stopped
        else tick_frame tk
             :: handed_frames cap frame_count skip_frames stopped
    end.

(** The reads up to the first one during which [stop()] is called. *)
Fixpoint until_stop (cap : list (Tick Frame)) : list (Tick Frame) :=
  match cap with
  | [] => []
  | tk :: cap => if tick_stop tk then [tk] else tk :: until_stop cap
  end.

End Runs.

(** ** Test doubles

    A synthetic video: every frame carries its position in the stream, the
    detections the detector double finds in it and whether the tracker
    doubles can follow their subject in it. *)

Module Synthetic.

Record SynFrame : Type := mkSynFrame {
  index : Z;
  seen : list Detection;
  trackable : bool
}.

(** A tracker double for a scene without motion: it remembers the box it
    was seeded with, rejects a seed without positive width and height,
    and on a trackable frame reports the seeded box. *)
Definition StillTracker : Type := CvBox.

Definition still_init (t : StillTracker) (frame : SynFrame) (box : CvBox)
    : bool * StillTracker :=
  let '(x, y, w, h) := box in ((0 <? w) && (0 <? h), box).

Definition still_update (t : StillTracker) (frame : SynFrame)
    : (bool * CvBoxF) * StillTracker :=
  let '(x, y, w, h) := t in
  ((trackable frame, (inject_Z x, inject_Z y, inject_Z w, inject_Z h)), t).

#[global] Instance still_cv2 : Cv2 SynFrame StillTracker := {|
  has_legacy := true;
  legacy_TrackerKCF_create := (0, 0, 0, 0);
  legacy_TrackerCSRT_create := (0, 0, 0, 0);
  legacy_TrackerMOSSE_create := (0, 0, 0, 0);
  TrackerKCF_create := (0, 0, 0, 0);
  TrackerCSRT_create := (0, 0, 0, 0);
  TrackerMOSSE_create := (0, 0, 0, 0);
  tracker_init := still_init;
  tracker_update := still_update
|}.

(** A detector double that returns what the frame carries and logs the
    position of every frame it is called on. *)
Definition LoggingDetector : Type := list Z.

#[global] Instance logging_detector : PersonDetector SynFrame LoggingDetector := {|
  detect := fun log frame => (seen frame, log ++ [index frame])
|}.

Definition subject : Detection := (10, 10, 50, 50, 9 # 10).

(** Frame [i] of a video that shows [subject], standing still. *)
Definition still_frame (i : Z) : SynFrame := mkSynFrame i [subject] true.

(** A frame the detector finds nothing in and no tracker can follow. *)
Definition blank_frame (i : Z) : SynFrame := mkSynFrame i [] false.

(** Frames [i], [i+1], ... ([n] of them) of the still video. *)
Fixpoint still_video (i : Z) (n : nat) : list SynFrame :=
  match n with
  | O => []
  | S n => still_frame i :: still_video (i + 1) n
  end.

(** A frame the detector finds nothing in, while the trackers follow. *)
Definition empty_frame (i : Z) : SynFrame := mkSynFrame i [] true.

(** A frame that shows one detection without width; no tracker follows. *)
Definition thin : Detection := (5, 5, 5, 20, 9 # 10).

Definition thin_frame (i : Z) : SynFrame := mkSynFrame i [thin] false.

(** Frames [i], [i+1], ... ([n] of them), all blank. *)
Fixpoint blank_video (i : Z) (n : nat) : list SynFrame :=
  match n with
  | O => []
  | S n => blank_frame i :: blank_video (i + 1) n
  end.

Definition fresh_tracker (redetect_interval : Z)
    : MultiPersonTracker StillTracker LoggingDetector :=
  MultiPersonTracker_init [] CSRT redetect_interval (3 # 10).

(** The tracker after it has processed [frames], from a fresh start. *)
Definition tracker_after (redetect_interval : Z) (frames : list SynFrame)
    : MultiPersonTracker StillTracker LoggingDetector :=
  match run_frames (fresh_tracker redetect_interval) frames with
  | Ok (_, self) => self
  | Raise _ => fresh_tracker redetect_interval
  end.

Definition fresh_processor (redetect_interval : Z)
    : VideoProcessor StillTracker LoggingDetector :=
  VideoProcessor_init [] CSRT redetect_interval.

(** Reads [i], [i+1], ... ([n] of them) of the still video; some context
    calls [stop()] while frame [stop_at] is handled; the clock shows one
    second per frame. *)
Fixpoint still_reads (i : Z) (n : nat) (stop_at : Z) : list (Tick SynFrame) :=
  match n with
  | O => []
  | S n =>
      mkTick (still_frame i) (i =? stop_at) (inject_Z i)
      :: still_reads (i + 1) n stop_at
  end.

(** A capture of [n] frames of the still video; [stop_at = 0]: nobody
    calls [stop()]. *)
Definition still_capture (n : nat) (stop_at : Z) : VideoCapture SynFrame :=
  mkVideoCapture true 25 (Z.of_nat n) (still_reads 1 n stop_at).

(** A track that lost its subject on three frames. *)
Definition lost_thrice : TrackedPerson StillTracker :=
  let p := TrackedPerson_init 1 (10, 10, 50, 50) (still_frame 1) CSRT in
  let p := snd (update_with_tracker p (blank_frame 2)) in
  let p := snd (update_with_tracker p (blank_frame 3)) in
  snd (update_with_tracker p (blank_frame 4)).

End Synthetic.

(** ** tracker.py: LightweightTracker and HybridTracker

    The two classes kept for the old interface.  [None] is [None]. *)

(** [a < b] on floats. *)
Definition Qltb (a b : Q) : bool :=
  match (a ?= b)%Q with
  | Lt => true
  | _ => false
  end.

(** What the statements below say of [decayed n], decided for one [n]:
    it is at most [1.0], at most [0.98] from the first advance on, and
    below [0.5] from the 26th advance on. *)
Definition decayed_check (n : Z) : bool :=
  Qle_bool (decayed n) 1
  && ((n <? 1) || Qle_bool (decayed n) (Float.lit (98 # 100)))
  && Bool.eqb (Qltb (decayed n) (1 # 2)) (26 <=? n).

(** The same expression in the binary64 format as the Standard Library
    specifies it ([prec = 53], [emax = 1024]), to compare [Float] with. *)
Definition binary64_of_int (n : Z) : SpecFloat.spec_float :=
  SpecFloat.binary_normalize 53 1024 n 0 false.

Definition binary64_lit (n d : Z) : SpecFloat.spec_float :=
  SpecFloat.SFdiv 53 1024 (binary64_of_int n) (binary64_of_int d).

Definition binary64_decayed (n : Z) : SpecFloat.spec_float :=
  let x :=
    SpecFloat.SFsub 53 1024 (binary64_of_int 1)
      (SpecFloat.SFmul 53 1024 (binary64_of_int n) (binary64_lit 2 100)) in
  if SpecFloat.SFltb (binary64_lit 3 10) x then x else binary64_lit 3 10.

Definition binary64_value (f : SpecFloat.spec_float) : option Q :=
  match f with
  | SpecFloat.S754_zero _ => Some 0%Q
  | SpecFloat.S754_finite s m e =>
      Some (Float.scaled (if s then Zneg m else Zpos m) e)
  | _ => None
  end.

Definition binary64_agrees (n : Z) : bool :=
  match binary64_value (binary64_decayed n) with
  | Some q => Qeq_bool q (decayed n)
  | None => false
  end.

Module LightweightTracker.

Record self (T : Type) : Type := mk {
  tracker_type : TrackerType;
  tracker : option T;
  bbox : option Box;
  is_initialized : bool;
  frames_since_init : Z;
  confidence : Q
}.

Arguments mk {T}.
Arguments tracker_type {T}.
Arguments tracker {T}.
Arguments bbox {T}.
Arguments is_initialized {T}.
Arguments frames_since_init {T}.
Arguments confidence {T}.

Section Methods.
Context {Frame T : Type} {cv2 : Cv2 Frame T}.

Definition __init__ (tracker_type : TrackerType) : self T :=
  mk tracker_type None None false 0 1%Q.

Definition _create_tracker (s : self T) : T :=
  create_tracker (tracker_type s).

Definition init (s : self T) (frame : Frame) (box : Box) : bool * self T :=
  let '(x1, y1, x2, y2) := box in
  let cv_bbox := (x1, y1, x2 - x1, y2 - y1) in
  if (x2 - x1 <=? 0) || (y2 - y1 <=? 0) then (false, s)
  else
    let '(success, t) := tracker_init (_create_tracker s) frame cv_bbox in
    if success then
      (success, mk (tracker_type s) (Some t) (Some box) true 0 1%Q)
    else
      (success,
       mk (tracker_type s) (Some t) (bbox s) (is_initialized s)
         (frames_since_init s) (confidence s)).

(** [update] returns [(success, bbox, confidence)]. *)
Definition update (s : self T) (frame : Frame)
    : (bool * option Box * Q) * self T :=
  match is_initialized s, tracker s with
  | true, Some t =>
      let '((success, cv_bbox), t) := tracker_update t frame in
      if success then
        let '(x, y, w, h) := cv_bbox in
        let x := py_int x in
        let y := py_int y in
        let w := py_int w in
        let h := py_int h in
        let box := (x, y, x + w, y + h) in
        let frames_since_init := frames_since_init s + 1 in
        let confidence :=
          py_max (Float.lit (3 # 10))
            (Float.sub 1
               (Float.mul (Float.of_int frames_since_init)
                  (Float.lit (2 # 100)))) in
        ((true, Some box, confidence),
         mk (tracker_type s) (Some t) (Some box) true frames_since_init
           confidence)
      else
        ((false, None, 0%Q),
         mk (tracker_type s) (Some t) (bbox s) false (frames_since_init s)
           (confidence s))
  | _, _ => ((false, None, 0%Q), s)
  end.

Definition reset (s : self T) : self T :=
  mk (tracker_type s) None None false 0 1%Q.

Definition should_redetect (s : self T) (redetect_interval : Z) : bool :=
  if negb (is_initialized s) then true
  else if Qltb (confidence s) (1 # 2) then true
  else if frames_since_init s >=? redetect_interval then true
  else false.

Definition get_bbox (s : self T) : option Box :=
  if is_initialized s then bbox s else None.

(** [update] on each frame in turn; what the calls returned, oldest
    first. *)
Fixpoint updates (s : self T) (frames : list Frame)
    : list (bool * option Box * Q) * self T :=
  match frames with
  | [] => ([], s)
  | frame :: rest =>
      let '(r, s) := update s frame in
      let '(rs, s) := updates s rest in
      (r :: rs, s)
  end.

End Methods.
End LightweightTracker.

Module HybridTracker.

Record self (T D : Type) : Type := mk {
  multi_tracker : MultiPersonTracker T D
}.

Arguments mk {T D}.
Arguments multi_tracker {T D}.

Section Methods.
Context {Frame T D : Type} {cv2 : Cv2 Frame T} {yolo : PersonDetector Frame D}.

Definition __init__ (detector : D) (tracker_type : TrackerType)
    (redetect_interval : Z) : self T D :=
  mk (MultiPersonTracker_init detector tracker_type redetect_interval (3 # 10)).

(** [process_frame] returns [(bbox, method, confidence)]. *)
Definition process_frame (s : self T D) (frame : Frame)
    : result ((option Box * string * Q) * self T D) :=
  '(results, mt) <- process_frame (multi_tracker s) frame ;;
  match results with
  | (pid, box, conf, method) :: _ => Ok ((Some box, method, conf), mk mt)
  | [] => Ok ((None, "none"%string, 0%Q), mk mt)
  end.

Definition reset (s : self T D) : self T D :=
  mk (reset (multi_tracker s)).

End Methods.
End HybridTracker.

(** ** yolo_detector.py: detect_largest_person *)

Definition det_area (d : Detection) : Z :=
  let '(x1, y1, x2, y2, _) := d in (x2 - x1) * (y2 - y1).

(** [max(results, key=area)] once the first element is taken as the best
    so far: a later element replaces it only if its key is greater. *)
Fixpoint max_by_area (best : Detection) (results : list Detection) : Detection :=
  match results with
  | [] => best
  | d :: rest =>
      if det_area d >? det_area best then max_by_area d rest
      else max_by_area best rest
  end.

Definition detect_largest_person {Frame D : Type}
    {yolo : PersonDetector Frame D} (self : D) (image : Frame)
    : option Detection * D :=
  let '(results, self) := detect self image in
  match results with
  | [] => (None, self)
  | first :: rest => (Some (max_by_area first rest), self)
  end.

(** ** More of what the statements below are about *)

Section MoreRuns.
Context {Frame T D : Type} {cv2 : Cv2 Frame T} {yolo : PersonDetector Frame D}.

(** A track updated on each frame in turn, whatever the outcome, with the
    numbers of updates that succeeded and that failed. *)
Fixpoint tracked_over (p : TrackedPerson T) (frames : list Frame)
    : TrackedPerson T * (nat * nat) :=
  match frames with
  | [] => (p, (O, O))
  | frame :: rest =>
      let '(ok, p) := update_with_tracker p frame in
      let '(p, (won, lost)) := tracked_over p rest in
      (p, if ok then (S won, lost) else (won, S lost))
  end.

(** What holds of every track of a live set between two frames: it is
    filed under its own identity, its counters are in range and its
    confidence is the one its counter gives. *)
Definition track_ok (kp : Z * TrackedPerson T) : Prop :=
  person_id (snd kp) = fst kp /\
  0 <= frames_since_detection (snd kp) /\
  0 <= lost_frames (snd kp) <= 10 /\
  (confidence (snd kp) ==
   if frames_since_detection (snd kp) =? 0 then 1
   else decayed (frames_since_detection (snd kp)))%Q.

(** The same without the bound on [lost_frames], which holds of active
    tracks only; this is what the loops keep of every track they touch. *)
Definition track_kept (kp : Z * TrackedPerson T) : Prop :=
  person_id (snd kp) = fst kp /\
  0 <= frames_since_detection (snd kp) /\
  0 <= lost_frames (snd kp) /\
  (is_active (snd kp) = true -> lost_frames (snd kp) <= 10) /\
  (confidence (snd kp) ==
   if frames_since_detection (snd kp) =? 0 then 1
   else decayed (frames_since_detection (snd kp)))%Q.

(** The entries with detector provenance. *)
Definition is_yolo (r : Result) : bool :=
  String.eqb (result_method r) "yolo".

(** The confidence of a result entry. *)
Definition result_conf (r : Result) : Q := let '(_, _, c, _) := r in c.

(** The reads [frames_loop] does not skip, by their position. *)
Definition kept (skip_frames : Z) (position : Z) : bool :=
  negb ((skip_frames >? 0) && negb (position mod (skip_frames + 1) =? 0)).

End MoreRuns.

(** ** More test doubles *)

Module MoreSynthetic.
Import Synthetic.

(** A second person, away from [subject]. *)
Definition other : Detection := (100, 20, 130, 90, 8 # 10).

(** Frame [i] of a video that shows [subject] and [other], standing
    still. *)
Definition crowd_frame (i : Z) : SynFrame :=
  mkSynFrame i [subject; other] true.

(** An [init] that raises on a seed region without extent, as OpenCV's
    trackers do. *)
Definition no_extent_raises (frame : SynFrame) (cv_bbox : CvBox) : bool :=
  let '(x, y, w, h) := cv_bbox in (w <=? 0) || (h <=? 0).


(** A [LightweightTracker] as [__init__] leaves it, and after [init] on
    [subject] in frame 1. *)
Definition lightweight_new : LightweightTracker.self StillTracker :=
  LightweightTracker.__init__ CSRT.

Definition lightweight_started : LightweightTracker.self StillTracker :=
  snd (LightweightTracker.init lightweight_new (still_frame 1)
         (10, 10, 50, 50)).

Definition hybrid_new : HybridTracker.self StillTracker LoggingDetector :=
  HybridTracker.__init__ [] CSRT 30.

(** A processor after a run: it holds a track, statistics and a raised
    stop flag; its detector is a new one. *)
Definition used_processor : VideoProcessor StillTracker LoggingDetector :=
  mkVideoProcessor
    (with_detector (tracker_after 30 (still_video 1 3)) [])
    false true (mkStats 3 1 2 1 0%Q).

End MoreSynthetic.

(** ** Geometry: lemmas *)

Lemma calc_iou_unfold (a b : Box) :
  calc_iou a b =
  if union_area a b =? 0 then Ok 0%Q
  else py_truediv (inter_area a b) (union_area a b).
Proof.
  destruct a as [[[ax1 ay1] ax2] ay2], b as [[[bx1 by1] bx2] by2].
  reflexivity.
Qed.

Lemma calc_iou_value (a b : Box) :
  calc_iou a b =
  Ok (if union_area a b =? 0 then 0%Q
      else (inject_Z (inter_area a b) / inject_Z (union_area a b))%Q).
Proof.
  rewrite calc_iou_unfold. unfold py_truediv.
  destruct (union_area a b =? 0); reflexivity.
Qed.

Lemma inter_area_comm (a b : Box) : inter_area a b = inter_area b a.
Proof.
  destruct a as [[[ax1 ay1] ax2] ay2], b as [[[bx1 by1] bx2] by2].
  unfold inter_area.
  rewrite (Z.min_comm ax2 bx2), (Z.max_comm ax1 bx1).
  rewrite (Z.min_comm ay2 by2), (Z.max_comm ay1 by1).
  reflexivity.
Qed.

Lemma union_area_comm (a b : Box) : union_area a b = union_area b a.
Proof. unfold union_area. rewrite inter_area_comm. lia. Qed.

Lemma inter_area_nonneg (a b : Box) : 0 <= inter_area a b.
Proof.
  destruct a as [[[ax1 ay1] ax2] ay2], b as [[[bx1 by1] bx2] by2].
  unfold inter_area. apply Z.mul_nonneg_nonneg; lia.
Qed.

Lemma inter_area_self (a : Box) : valid_box a -> inter_area a a = box_area a.
Proof.
  destruct a as [[[x1 y1] x2] y2]. unfold valid_box, inter_area, box_area.
  intros [Hx Hy]. rewrite !Z.min_id, !Z.max_id.
  rewrite !Z.max_r by lia. reflexivity.
Qed.

Lemma box_area_pos (a : Box) : valid_box a -> 0 < box_area a.
Proof.
  destruct a as [[[x1 y1] x2] y2]. unfold valid_box, box_area.
  intros [Hx Hy]. apply Z.mul_pos_pos; lia.
Qed.

Lemma inter_area_le_l (a b : Box) :
  valid_box a -> inter_area a b <= box_area a.
Proof.
  destruct a as [[[ax1 ay1] ax2] ay2], b as [[[bx1 by1] bx2] by2].
  unfold valid_box, inter_area, box_area. intros [Hx Hy].
  apply Z.mul_le_mono_nonneg; lia.
Qed.

Lemma inter_area_le_r (a b : Box) :
  valid_box b -> inter_area a b <= box_area b.
Proof. rewrite inter_area_comm. apply inter_area_le_l. Qed.

Lemma inter_area_disjoint (a b : Box) :
  disjoint_boxes a b -> inter_area a b = 0.
Proof.
  destruct a as [[[ax1 ay1] ax2] ay2], b as [[[bx1 by1] bx2] by2].
  unfold disjoint_boxes, inter_area. intros H.
  destruct H as [H | [H | [H | H]]].
  - rewrite (Z.max_l 0 (Z.min ax2 bx2 - Z.max ax1 bx1)) by lia. lia.
  - rewrite (Z.max_l 0 (Z.min ax2 bx2 - Z.max ax1 bx1)) by lia. lia.
  - rewrite (Z.max_l 0 (Z.min ay2 by2 - Z.max ay1 by1)) by lia. lia.
  - rewrite (Z.max_l 0 (Z.min ay2 by2 - Z.max ay1 by1)) by lia. lia.
Qed.

Lemma union_area_pos (a b : Box) :
  valid_box a -> valid_box b -> 0 < union_area a b.
Proof.
  intros Ha Hb. unfold union_area.
  pose proof (box_area_pos a Ha). pose proof (inter_area_le_r a b Hb). lia.
Qed.

(** ** Geometry: the claim *)

(** C6. [calc_iou] is symmetric for all boxes; a valid box has IoU 1 with
    itself; two valid boxes that do not overlap have IoU 0; when the union
    area is 0 the function returns 0 and never raises; on valid boxes the
    value lies in [0, 1]. *)
Theorem calc_iou_properties :
  (forall a b : Box, calc_iou a b = calc_iou b a) /\
  (forall a : Box, valid_box a ->
     exists q, calc_iou a a = Ok q /\ (q == 1)%Q) /\
  (forall a b : Box, valid_box a -> valid_box b -> disjoint_boxes a b ->
     exists q, calc_iou a b = Ok q /\ (q == 0)%Q) /\
  (forall a b : Box, union_area a b = 0 -> calc_iou a b = Ok 0%Q) /\
  (forall a b : Box, exists q, calc_iou a b = Ok q) /\
  (forall a b : Box, valid_box a -> valid_box b ->
     exists q, calc_iou a b = Ok q /\ (0 <= q)%Q /\ (q <= 1)%Q).
Proof.
  repeat split.
  - intros a b. rewrite !calc_iou_unfold.
    rewrite (union_area_comm a b), (inter_area_comm a b). reflexivity.
  - intros a Ha. rewrite calc_iou_value. eexists; split; [reflexivity|].
    pose proof (union_area_pos a a Ha Ha) as Hu.
    destruct (Z.eqb_spec (union_area a a) 0) as [E | _]; [lia|].
    assert (Hi : inter_area a a = union_area a a).
    { unfold union_area. rewrite (inter_area_self a Ha). lia. }
    rewrite Hi. apply Qmult_inv_r.
    unfold Qeq; simpl. lia.
  - intros a b Ha Hb Hd. rewrite calc_iou_value.
    eexists; split; [reflexivity|].
    destruct (union_area a b =? 0); [reflexivity|].
    rewrite (inter_area_disjoint a b Hd). unfold Qdiv.
    apply Qmult_0_l.
  - intros a b Hu. rewrite calc_iou_unfold, Hu. reflexivity.
  - intros a b. rewrite calc_iou_value. eexists; reflexivity.
  - intros a b Ha Hb. rewrite calc_iou_value.
    eexists; split; [reflexivity|].
    pose proof (union_area_pos a b Ha Hb) as Hu.
    pose proof (inter_area_nonneg a b) as Hi.
    pose proof (inter_area_le_l a b Ha) as Hl.
    pose proof (inter_area_le_r a b Hb) as Hr.
    destruct (Z.eqb_spec (union_area a b) 0) as [E | _]; [lia|].
    assert (Hq : (0 < inject_Z (union_area a b))%Q).
    { unfold Qlt; simpl. lia. }
    split.
    + apply Qle_shift_div_l; [exact Hq|].
      rewrite Qmult_0_l. unfold Qle; simpl. lia.
    + apply Qle_shift_div_r; [exact Hq|].
      rewrite Qmult_1_l. unfold Qle; simpl.
      unfold union_area. lia.
Qed.

Lemma calc_iou_properties_witness :
  valid_box (0, 0, 10, 10) /\ valid_box (20, 20, 30, 30) /\
  disjoint_boxes (0, 0, 10, 10) (20, 20, 30, 30) /\
  (exists q, calc_iou (0, 0, 10, 10) (0, 0, 10, 10) = Ok q /\ (q == 1)%Q) /\
  (exists q, calc_iou (0, 0, 10, 10) (20, 20, 30, 30) = Ok q /\ (q == 0)%Q) /\
  (exists q, calc_iou (0, 0, 10, 10) (5, 0, 15, 10) = Ok q
             /\ (0 <= q)%Q /\ (q <= 1)%Q).
Proof.
  assert (Ha : valid_box (0, 0, 10, 10)) by (simpl; lia).
  assert (Hb : valid_box (20, 20, 30, 30)) by (simpl; lia).
  assert (Hc : valid_box (5, 0, 15, 10)) by (simpl; lia).
  assert (Hd : disjoint_boxes (0, 0, 10, 10) (20, 20, 30, 30))
    by (simpl; lia).
  destruct calc_iou_properties as (_ & Hself & Hdis & _ & _ & Hrange).
  repeat split; try assumption.
  - exact (Hself _ Ha).
  - exact (Hdis _ _ Ha Hb Hd).
  - exact (Hrange _ _ Ha Hc).
Defined.

(** ** Python primitives: lemmas *)

Lemma Qgtb_comp (a a' b b' : Q) :
  (a == a')%Q -> (b == b')%Q -> Qgtb a b = Qgtb a' b'.
Proof. intros Ha Hb. unfold Qgtb. rewrite Ha, Hb. reflexivity. Qed.

Lemma py_max_comp (a b b' : Q) :
  (b == b')%Q -> (py_max a b == py_max a b')%Q.
Proof.
  intros Hb. unfold py_max.
  rewrite (Qgtb_comp b b' a a Hb (Qeq_refl a)).
  destruct (Qgtb b' a); [exact Hb | reflexivity].
Qed.

Lemma Qgtb_lt (a b : Q) : Qgtb a b = true <-> (b < a)%Q.
Proof.
  unfold Qgtb. rewrite Qgt_alt.
  destruct (a ?= b)%Q; split; congruence.
Qed.

Lemma Qgtb_le (a b : Q) : Qgtb a b = false <-> (a <= b)%Q.
Proof.
  unfold Qgtb. rewrite Qle_alt.
  destruct (a ?= b)%Q; split; congruence.
Qed.

Lemma Qltb_lt (a b : Q) : Qltb a b = true <-> (a < b)%Q.
Proof.
  unfold Qltb. rewrite Qlt_alt.
  destruct (a ?= b)%Q; split; congruence.
Qed.

(** ** Python floats: lemmas *)

Module FloatFacts.
Import Float.

Lemma nearest_even_floor (n d : Z) : 0 < d -> n / d <= nearest_even n d.
Proof.
  intros Hd. unfold nearest_even.
  destruct (2 * (n mod d) ?= d); [destruct (Z.even (n / d))| |]; lia.
Qed.

Lemma scaled_nonneg (m e : Z) : 0 <= m -> (0 <= scaled m e)%Q.
Proof.
  intros Hm. unfold scaled, Qle. cbn [Qnum Qden].
  assert (0 < 2 ^ Z.max 0 e) by (apply Z.pow_pos_nonneg; lia). nia.
Qed.

(** [2^k <= m * 2^e] when [2^52 <= m] and [k - 52 <= e]. *)
Lemma scaled_lower (m e k : Z) :
  0 <= k -> 2 ^ 52 <= m -> k - 52 <= e ->
  (inject_Z (2 ^ k) <= scaled m e)%Q.
Proof.
  intros Hk Hm He. unfold scaled, Qle. cbn [Qnum Qden inject_Z].
  rewrite Z.mul_1_r.
  assert (Hp : 0 < 2 ^ Z.max 0 (- e)) by (apply Z.pow_pos_nonneg; lia).
  rewrite Z2Pos.id by exact Hp.
  destruct (Z.le_ge_cases 0 e) as [H0 | H0].
  - rewrite (Z.max_l 0 (- e)), (Z.max_r 0 e) by lia.
    rewrite Z.pow_0_r, Z.mul_1_r.
    apply Z.le_trans with (2 ^ 52 * 2 ^ e).
    + rewrite <- Z.pow_add_r by lia. apply Z.pow_le_mono_r; lia.
    + apply Z.mul_le_mono_nonneg_r; [apply Z.pow_nonneg; lia | exact Hm].
  - rewrite (Z.max_r 0 (- e)), (Z.max_l 0 e) by lia.
    rewrite Z.pow_0_r, Z.mul_1_r.
    rewrite <- Z.pow_add_r by lia.
    apply Z.le_trans with (2 ^ 52); [apply Z.pow_le_mono_r; lia | exact Hm].
Qed.

Lemma pow2_lt_cancel (a b c : Z) :
  0 <= a -> 0 <= b -> 0 < c -> 2 ^ a * c < 2 ^ b * c -> a < b.
Proof.
  intros Ha Hb Hc H. apply Z.mul_lt_mono_pos_r in H; [|exact Hc].
  apply Z.pow_lt_mono_r_iff in H; lia.
Qed.

(** Rounding does not cross a power of two from above. *)
Lemma round_pos_lower (n d k : Z) :
  0 < n -> 0 < d -> 0 <= k -> 2 ^ k * d <= n ->
  (inject_Z (2 ^ k) <= round_pos n d)%Q.
Proof.
  intros Hn Hd Hk Hkn. unfold round_pos.
  set (e0 := Z.log2 n - Z.log2 d - 53).
  set (P := Z.max 0 (- e0)). set (N := Z.max 0 e0).
  destruct (Z.log2_spec n Hn) as [Hn1 Hn2].
  destruct (Z.log2_spec d Hd) as [Hd1 Hd2].
  pose proof (Z.log2_nonneg n) as Hln. pose proof (Z.log2_nonneg d) as Hld.
  assert (HP : 0 <= P) by (unfold P; lia).
  assert (HN : 0 <= N) by (unfold N; lia).
  assert (HPN : Z.log2 n + P = Z.log2 d + 53 + N) by (unfold P, N, e0; lia).
  assert (H2P : 0 < 2 ^ P) by (apply Z.pow_pos_nonneg; lia).
  assert (H2N : 0 < 2 ^ N) by (apply Z.pow_pos_nonneg; lia).
  assert (Hd0 : 0 < d * 2 ^ N) by nia.
  (* 2^52 * d0 < n0 < 2^54 * d0 *)
  assert (Hlow : 2 ^ 52 * (d * 2 ^ N) < n * 2 ^ P).
  { apply Z.lt_le_trans with (2 ^ (Z.log2 n + P)).
    - rewrite HPN.
      replace (Z.log2 d + 53 + N) with (52 + (Z.succ (Z.log2 d) + N)) by lia.
      rewrite !Z.pow_add_r by lia.
      apply Z.mul_lt_mono_pos_l; [apply Z.pow_pos_nonneg; lia|].
      apply Z.mul_lt_mono_pos_r; assumption.
    - rewrite Z.pow_add_r by lia.
      apply Z.mul_le_mono_nonneg_r; [lia | exact Hn1]. }
  assert (Hhigh : n * 2 ^ P < 2 ^ 54 * (d * 2 ^ N)).
  { apply Z.lt_le_trans with (2 ^ (Z.succ (Z.log2 n) + P)).
    - rewrite Z.pow_add_r by lia.
      apply Z.mul_lt_mono_pos_r; assumption.
    - replace (Z.succ (Z.log2 n) + P) with (54 + (Z.log2 d + N)) by lia.
      rewrite !Z.pow_add_r by lia.
      apply Z.mul_le_mono_nonneg_l; [apply Z.pow_nonneg; lia|].
      apply Z.mul_le_mono_nonneg_r; [lia | exact Hd1]. }
  assert (Hk2 : 2 ^ (k + P) * d <= n * 2 ^ P).
  { rewrite Z.pow_add_r by lia.
    replace (2 ^ k * 2 ^ P * d) with (2 ^ k * d * 2 ^ P) by ring.
    apply Z.mul_le_mono_nonneg_r; [lia | exact Hkn]. }
  destruct (Z.ltb_spec (n * 2 ^ P) (2 ^ 53 * (d * 2 ^ N))) as [Hb | Hb].
  - apply scaled_lower; [exact Hk | |].
    + eapply Z.le_trans; [|apply nearest_even_floor; exact Hd0].
      apply Z.div_le_lower_bound; [exact Hd0 | lia].
    + assert (k + P < 53 + N).
      { apply (pow2_lt_cancel _ _ d); [lia | lia | exact Hd |].
        eapply Z.le_lt_trans; [exact Hk2|].
        eapply Z.lt_le_trans; [exact Hb|].
        rewrite Z.pow_add_r by lia. apply Z.eq_le_incl. ring. }
      unfold P, N in *. lia.
  - apply scaled_lower; [exact Hk | |].
    + eapply Z.le_trans; [|apply nearest_even_floor; lia].
      apply Z.div_le_lower_bound; [lia|].
      replace (2 * (d * 2 ^ N) * 2 ^ 52) with (2 ^ 53 * (d * 2 ^ N)).
      * exact Hb.
      * change (2 ^ 53) with (2 * 2 ^ 52). ring.
    + assert (k + P < 54 + N).
      { apply (pow2_lt_cancel _ _ d); [lia | lia | exact Hd |].
        eapply Z.le_lt_trans; [exact Hk2|].
        eapply Z.lt_le_trans; [exact Hhigh|].
        rewrite Z.pow_add_r by lia. apply Z.eq_le_incl. ring. }
      unfold P, N in *. lia.
Qed.

Lemma round_pos_nonneg (n d : Z) : 0 < n -> 0 < d -> (0 <= round_pos n d)%Q.
Proof.
  intros Hn Hd. unfold round_pos.
  assert (H2 : forall x, 0 < 2 ^ Z.max 0 x)
    by (intros x; apply Z.pow_pos_nonneg; lia).
  pose proof (H2 (- (Z.log2 n - Z.log2 d - 53))) as HP.
  pose proof (H2 (Z.log2 n - Z.log2 d - 53)) as HN.
  assert (Hq : forall a b e, 0 <= a -> 0 < b ->
                 (0 <= scaled (nearest_even a b) e)%Q).
  { intros a b e Ha Hb. apply scaled_nonneg.
    eapply Z.le_trans; [|apply nearest_even_floor; exact Hb].
    apply Z.div_pos; assumption. }
  destruct (_ <? _); apply Hq; nia.
Qed.

Lemma round_comp (x y : Q) : (x == y)%Q -> round x = round y.
Proof. intros H. unfold round. rewrite (Qred_complete x y H). reflexivity. Qed.

Lemma round_nonpos (q : Q) : (q <= 0)%Q -> (round q <= 0)%Q.
Proof.
  intros H. unfold round. rewrite <- (Qred_correct q) in H.
  destruct (Qred q) as [num den]. cbn [Qnum Qden].
  destruct num as [| p | p].
  - apply Qle_refl.
  - unfold Qle in H. cbn in H. lia.
  - apply (Qopp_le_compat 0). apply round_pos_nonneg; lia.
Qed.

Lemma round_lower (q : Q) (k : Z) :
  0 <= k -> (inject_Z (2 ^ k) <= q)%Q -> (inject_Z (2 ^ k) <= round q)%Q.
Proof.
  intros Hk H. unfold round. rewrite <- (Qred_correct q) in H.
  destruct (Qred q) as [num den]. cbn [Qnum Qden].
  assert (H2 : 0 < 2 ^ k) by (apply Z.pow_pos_nonneg; lia).
  unfold Qle in H. cbn [Qnum Qden inject_Z] in H.
  destruct num as [| p | p]; try lia.
  apply round_pos_lower; lia.
Qed.

End FloatFacts.

(** ** The confidence as a function of the counter *)

(** From the 128th advance on the product is at least 2, the difference
    is not positive, and the floor [0.3] is returned. *)
Lemma decayed_large (n : Z) : 128 <= n -> decayed n = Float.lit (3 # 10).
Proof.
  intros Hn. unfold decayed, py_max.
  assert (Ha : (inject_Z (2 ^ 7) <= Float.of_int n)%Q).
  { apply FloatFacts.round_lower; [lia|]. rewrite <- Zle_Qle. exact Hn. }
  assert (Hc : (1 # 64 <= Float.lit (2 # 100))%Q)
    by (apply Qle_bool_imp_le; vm_compute; reflexivity).
  assert (Hy : (inject_Z (2 ^ 0) <= Float.mul (Float.of_int n) (Float.lit (2 # 100)))%Q).
  { apply FloatFacts.round_lower; [lia|].
    apply Qle_trans with (inject_Z (2 ^ 7) * Float.lit (2 # 100))%Q.
    - apply Qle_trans with (inject_Z (2 ^ 7) * (1 # 64))%Q;
        [apply Qle_bool_imp_le; vm_compute; reflexivity|].
      rewrite !(Qmult_comm (inject_Z (2 ^ 7))).
      apply Qmult_le_compat_r; [exact Hc | discriminate].
    - apply Qmult_le_compat_r; [exact Ha|].
      apply Qle_trans with (1 # 64)%Q; [discriminate | exact Hc]. }
  assert (Hz : (Float.sub 1 (Float.mul (Float.of_int n) (Float.lit (2 # 100))) <= 0)%Q).
  { apply FloatFacts.round_nonpos. change (inject_Z (2 ^ 0)) with 1%Q in Hy. lra. }
  destruct (Qgtb _ _) eqn:E; [|reflexivity].
  apply Qgtb_lt in E.
  assert (H3 : (0 < Float.lit (3 # 10))%Q) by (vm_compute; reflexivity).
  lra.
Qed.

Lemma decayed_table :
  forallb decayed_check (map Z.of_nat (seq 0 128)) = true.
Proof. vm_compute. reflexivity. Qed.

Lemma decayed_checked (n : Z) : 0 <= n -> decayed_check n = true.
Proof.
  intros Hn. destruct (Z.lt_ge_cases n 128) as [H | H].
  - pose proof decayed_table as Ht. rewrite forallb_forall in Ht.
    apply Ht. apply in_map_iff. exists (Z.to_nat n).
    split; [lia | apply in_seq; lia].
  - unfold decayed_check. rewrite (decayed_large n) by lia.
    replace (n <? 1) with false by (symmetry; apply Z.ltb_ge; lia).
    replace (26 <=? n) with true by (symmetry; apply Z.leb_le; lia).
    vm_compute. reflexivity.
Qed.

Lemma decayed_bounds (n : Z) :
  (Float.lit (3 # 10) <= decayed n)%Q /\
  (0 <= n -> (decayed n <= 1)%Q) /\
  (1 <= n -> (decayed n <= Float.lit (98 # 100))%Q).
Proof.
  split; [|split].
  - unfold decayed, py_max. destruct (Qgtb _ _) eqn:E.
    + apply Qgtb_lt in E. apply Qlt_le_weak. exact E.
    + apply Qle_refl.
  - intros Hn. pose proof (decayed_checked n Hn) as H.
    unfold decayed_check in H.
    apply andb_prop in H. destruct H as [H _].
    apply andb_prop in H. destruct H as [H _].
    apply Qle_bool_imp_le. exact H.
  - intros Hn. pose proof (decayed_checked n ltac:(lia)) as H.
    unfold decayed_check in H.
    apply andb_prop in H. destruct H as [H _].
    apply andb_prop in H. destruct H as [_ H].
    replace (n <? 1) with false in H by (symmetry; apply Z.ltb_ge; lia).
    apply Qle_bool_imp_le. exact H.
Qed.

Lemma decayed_below_half (n : Z) :
  0 <= n -> Qltb (decayed n) (1 # 2) = (26 <=? n).
Proof.
  intros Hn. pose proof (decayed_checked n Hn) as H.
  unfold decayed_check in H. apply andb_prop in H. destruct H as [_ H].
  apply eqb_prop in H. exact H.
Qed.

(** The values agree with binary64 arithmetic as the Standard Library
    specifies it, for the first four hundred values of the counter and
    for some counters that [float(n)] has to round. *)
Lemma decayed_is_binary64 :
  forallb binary64_agrees
    (map Z.of_nat (seq 0 400)
     ++ [2 ^ 53 - 1; 2 ^ 53 + 1; 2 ^ 53 + 3; 2 ^ 54 + 2; 2 ^ 54 + 6;
         2 ^ 60 + 1; 3 ^ 40; 10 ^ 30; 10 ^ 300]) = true.
Proof. vm_compute. reflexivity. Qed.

(** After nine advances the confidence is [0.8200000000000001], which is
    neither 82/100 nor the float [0.82]. *)
Lemma decayed_9 :
  (decayed 9 == 3692951694443807 # 4503599627370496)%Q /\
  ~ (decayed 9 == 82 # 100)%Q /\ ~ (decayed 9 == Float.lit (82 # 100))%Q.
Proof.
  split; [vm_compute; reflexivity|]. split; vm_compute; discriminate.
Qed.

(** ** TrackedPerson: lemmas *)

Section TrackFacts.
Context {Frame T D : Type} {cv2 : Cv2 Frame T} {yolo : PersonDetector Frame D}.

Lemma update_with_tracker_ok (self : TrackedPerson T) (frame : Frame)
    (x y w h : Q) (t : T) :
  tracker_update (tracker self) frame = ((true, (x, y, w, h)), t) ->
  update_with_tracker self frame =
  (true,
   mkTrackedPerson (person_id self)
     (py_int x, py_int y, py_int x + py_int w, py_int y + py_int h)
     (decayed (frames_since_detection self + 1))
     (frames_since_detection self + 1) (lost_frames self)
     (is_active self) t).
Proof. intros H. unfold update_with_tracker. rewrite H. reflexivity. Qed.

Lemma update_with_tracker_fail (self : TrackedPerson T) (frame : Frame)
    (b : CvBoxF) (t : T) :
  tracker_update (tracker self) frame = ((false, b), t) ->
  update_with_tracker self frame =
  (false,
   mkTrackedPerson (person_id self) (bbox self) (confidence self)
     (frames_since_detection self) (lost_frames self + 1)
     (if lost_frames self + 1 >? 10 then false else is_active self) t).
Proof. intros H. unfold update_with_tracker. rewrite H. reflexivity. Qed.

(** Whatever the capability answers, [update_with_tracker] is one of the
    two cases above. *)
Lemma update_with_tracker_cases (self : TrackedPerson T) (frame : Frame) :
  (exists x y w h t,
      tracker_update (tracker self) frame = ((true, (x, y, w, h)), t)) \/
  (exists b t, tracker_update (tracker self) frame = ((false, b), t)).
Proof.
  destruct (tracker_update (tracker self) frame) as [[[] b] t].
  - left. destruct b as [[[x y] w] h]. exists x, y, w, h, t. reflexivity.
  - right. exists b, t. reflexivity.
Qed.

Lemma advances_count (frames : list Frame) :
  forall p p' : TrackedPerson T,
    advances p frames = Some p' ->
    frames_since_detection p' =
      frames_since_detection p + Z.of_nat (List.length frames) /\
    (frames <> [] -> confidence p' = decayed (frames_since_detection p')).
Proof.
  induction frames as [| frame rest IH]; intros p p' H.
  - simpl in H. injection H as <-. split; [simpl; lia | congruence].
  - cbn [advances] in H.
    destruct (update_with_tracker_cases p frame)
      as [(x & y & w & h & t & E) | (b & t & E)].
    + rewrite (update_with_tracker_ok _ _ _ _ _ _ _ E) in H.
      destruct (IH _ _ H) as [Hn Hc]. cbn [frames_since_detection] in Hn.
      split.
      * rewrite Hn. cbn [List.length]. lia.
      * intros _. destruct rest as [| frame' rest'].
        -- simpl in H. injection H as <-. reflexivity.
        -- apply Hc. discriminate.
    + rewrite (update_with_tracker_fail _ _ _ _ E) in H. discriminate.
Qed.

Lemma TrackedPerson_init_fields (i : Z) (b : Box) (frame : Frame)
    (ty : TrackerType) :
  let p := TrackedPerson_init i b frame ty in
  person_id p = i /\ bbox p = b /\ confidence p = 1%Q /\
  frames_since_detection p = 0 /\ lost_frames p = 0 /\ is_active p = true.
Proof.
  unfold TrackedPerson_init. destruct b as [[[x1 y1] x2] y2].
  destruct (tracker_init _ _ _) as [ok t]. cbn. repeat split.
Qed.

Lemma update_with_detection_fields (p : TrackedPerson T) (b : Box)
    (frame : Frame) (ty : TrackerType) :
  let p' := update_with_detection p b frame ty in
  person_id p' = person_id p /\ bbox p' = b /\ confidence p' = 1%Q /\
  frames_since_detection p' = 0 /\ lost_frames p' = 0 /\
  is_active p' = is_active p.
Proof.
  unfold update_with_detection. destruct b as [[[x1 y1] x2] y2].
  destruct (tracker_init _ _ _) as [ok t]. cbn. repeat split.
Qed.

(** C1. When the capability reports success, [update_with_tracker]
    returns true, takes the box from the capability's output, adds one to
    [frames_since_detection] and recomputes the confidence as
    [max(0.3, 1.0 - frames_since_detection * 0.02)], in float arithmetic;
    [lost_frames] is left as it was: the code does not reset it to 0. *)
Theorem update_with_tracker_on_success (self p : TrackedPerson T)
    (frame : Frame) (x y w h : Q) (t : T) (ok : bool) :
  tracker_update (tracker self) frame = ((true, (x, y, w, h)), t) ->
  update_with_tracker self frame = (ok, p) ->
  ok = true /\
  bbox p = (py_int x, py_int y, py_int x + py_int w, py_int y + py_int h) /\
  frames_since_detection p = frames_since_detection self + 1 /\
  confidence p =
    py_max (Float.lit (3 # 10))
      (Float.sub 1
         (Float.mul (Float.of_int (frames_since_detection p))
            (Float.lit (2 # 100)))) /\
  lost_frames p = lost_frames self.
Proof.
  intros E H. rewrite (update_with_tracker_ok _ _ _ _ _ _ _ E) in H.
  injection H as <- <-. cbn. repeat split.
Qed.

(** C5. A track that has been advanced successfully [n] times since it
    was created, with no detection in between, has the confidence that
    the expression [max(0.3, 1.0 - 0.02 * n)] evaluates to: the float
    product is subtracted from [1.0] in float arithmetic, each operation
    rounded, and the result is compared with the float [0.3]. *)
Theorem confidence_after_advances (i : Z) (b : Box) (frame : Frame)
    (ty : TrackerType) (frames : list Frame) (p : TrackedPerson T) :
  advances (TrackedPerson_init i b frame ty) frames = Some p ->
  (confidence p ==
   py_max (Float.lit (3 # 10))
     (Float.sub 1
        (Float.mul (Float.lit (2 # 100))
           (Float.of_int (Z.of_nat (List.length frames))))))%Q.
Proof.
  intros H.
  destruct (TrackedPerson_init_fields i b frame ty)
    as (_ & _ & Hc & Hn & _ & _).
  destruct frames as [| f rest].
  - simpl in H. injection H as <-. rewrite Hc. vm_compute. reflexivity.
  - destruct (advances_count _ _ _ H) as [Hfsd Hconf].
    rewrite Hconf by discriminate. rewrite Hfsd, Hn, Z.add_0_l.
    unfold decayed, Float.mul.
    rewrite (FloatFacts.round_comp _ _ (Qmult_comm (Float.of_int _) _)).
    reflexivity.
Qed.

End TrackFacts.

(** ** TrackedPerson: the claims on the synthetic video *)

Module TrackExamples.
Import Synthetic.

Lemma update_with_tracker_on_success_witness :
  lost_frames lost_thrice = 3 /\
  exists p,
    update_with_tracker lost_thrice (still_frame 5) = (true, p) /\
    bbox p = (10, 10, 50, 50) /\
    frames_since_detection p = 1 /\
    lost_frames p = 3.
Proof.
  split; [reflexivity|].
  exists (snd (update_with_tracker lost_thrice (still_frame 5))).
  split; [reflexivity|].
  assert (H := update_with_tracker_on_success lost_thrice
                 (snd (update_with_tracker lost_thrice (still_frame 5)))
                 (still_frame 5) 10 10 40 40 (10, 10, 40, 40) true).
  destruct H as (_ & Hb & Hn & _ & Hl).
  - vm_compute. reflexivity.
  - vm_compute. reflexivity.
  - split; [exact Hb|]. split; [exact Hn | exact Hl].
Defined.

(** Nine advances: the confidence is the float [0.8200000000000001],
    that is 3692951694443807 / 2^52. *)
Lemma confidence_after_advances_witness :
  exists p,
    advances (TrackedPerson_init 1 (10, 10, 50, 50) (still_frame 1) CSRT)
      (still_video 2 9) = Some p /\
    (confidence p == 3692951694443807 # 4503599627370496)%Q.
Proof.
  eexists. split; [vm_compute; reflexivity|].
  eapply Qeq_trans.
  - apply (confidence_after_advances 1 (10, 10, 50, 50) (still_frame 1) CSRT
             (still_video 2 9)).
    vm_compute. reflexivity.
  - vm_compute. reflexivity.
Defined.

End TrackExamples.

(** ** Dictionaries and sets: lemmas *)

Section DictFacts.
Context {V : Type}.

Lemma set_mem_In (k : Z) (s : list Z) : set_mem k s = true <-> In k s.
Proof.
  unfold set_mem. rewrite existsb_exists. split.
  - intros (x & Hin & E). apply Z.eqb_eq in E. subst. exact Hin.
  - intros Hin. exists k. split; [exact Hin | apply Z.eqb_refl].
Qed.

Lemma set_mem_false (k : Z) (s : list Z) : set_mem k s = false <-> ~ In k s.
Proof.
  rewrite <- set_mem_In. destruct (set_mem k s); split; congruence.
Qed.

Lemma set_add_In (k x : Z) (s : list Z) :
  In x (set_add k s) <-> x = k \/ In x s.
Proof.
  unfold set_add. destruct (set_mem k s) eqn:E.
  - apply set_mem_In in E. split; [tauto|]. intros [-> | H]; assumption.
  - simpl. split; intros [H | H]; auto.
Qed.

Lemma dict_set_fresh (k : Z) (v : V) (d : dict V) :
  ~ In k (keys d) -> dict_set k v d = d ++ [(k, v)].
Proof.
  induction d as [| [k' v'] rest IH]; intros Hk; [reflexivity|].
  simpl in *. destruct (Z.eqb_spec k k') as [-> | Hne].
  - exfalso. apply Hk. left. reflexivity.
  - rewrite IH by tauto. reflexivity.
Qed.

Lemma dict_del_app_fresh (k : Z) (v : V) (d1 d2 : dict V) :
  ~ In k (keys d1) -> dict_del k (d1 ++ (k, v) :: d2) = d1 ++ d2.
Proof.
  induction d1 as [| [k' v'] rest IH]; intros Hk; simpl.
  - rewrite Z.eqb_refl. reflexivity.
  - simpl in Hk. destruct (Z.eqb_spec k k') as [-> | Hne].
    + exfalso. apply Hk. left. reflexivity.
    + rewrite IH by tauto. reflexivity.
Qed.

End DictFacts.

(** ** MultiPersonTracker: the loops, one by one *)

Section LoopFacts.
Context {Frame T D : Type} {cv2 : Cv2 Frame T} {yolo : PersonDetector Frame D}.

Lemma trackers_loop_advance (items : dict (TrackedPerson T)) (frame : Frame) :
  trackers_loop items frame =
  advance_loop (fun _ p => is_active p) items frame.
Proof.
  induction items as [| [k p] rest IH]; [reflexivity|].
  cbn [trackers_loop advance_loop]. rewrite IH. reflexivity.
Qed.

Lemma unmatched_loop_advance (items : dict (TrackedPerson T))
    (matched : list Z) (frame : Frame) :
  unmatched_loop items matched frame =
  advance_loop (fun k _ => negb (set_mem k matched)) items frame.
Proof.
  induction items as [| [k p] rest IH]; [reflexivity|].
  cbn [unmatched_loop advance_loop]. rewrite IH. reflexivity.
Qed.

Lemma advance_loop_spec (guard : Z -> TrackedPerson T -> bool)
    (items : dict (TrackedPerson T)) (frame : Frame) :
  advance_loop guard items frame =
  (map (advanced guard frame) items, flat_map (reported guard frame) items).
Proof.
  induction items as [| [k p] rest IH]; [reflexivity|].
  cbn [advance_loop map flat_map]. rewrite IH.
  unfold advanced, reported. cbn [fst snd].
  destruct (guard k p); [|reflexivity].
  destruct (update_with_tracker p frame) as [[] p']; reflexivity.
Qed.

Lemma keys_map_advanced (guard : Z -> TrackedPerson T -> bool)
    (frame : Frame) (items : dict (TrackedPerson T)) :
  keys (map (advanced guard frame) items) = keys items.
Proof.
  unfold keys. rewrite map_map. apply map_ext. intros [k p]. reflexivity.
Qed.

(** A successful update leaves [is_active] alone; a failed one can only
    clear it, and does on the eleventh loss. *)
Lemma update_with_tracker_active (p : TrackedPerson T) (frame : Frame) :
  fst (update_with_tracker p frame) = true ->
  is_active (snd (update_with_tracker p frame)) = is_active p.
Proof.
  destruct (update_with_tracker_cases p frame)
    as [(x & y & w & h & t & E) | (b & t & E)].
  - rewrite (update_with_tracker_ok _ _ _ _ _ _ _ E). reflexivity.
  - rewrite (update_with_tracker_fail _ _ _ _ E). discriminate.
Qed.

Lemma update_with_tracker_lost (p : TrackedPerson T) (frame : Frame) :
  fst (update_with_tracker p frame) = false ->
  lost_frames (snd (update_with_tracker p frame)) = lost_frames p + 1 /\
  is_active (snd (update_with_tracker p frame)) =
    (if lost_frames p + 1 >? 10 then false else is_active p).
Proof.
  destruct (update_with_tracker_cases p frame)
    as [(x & y & w & h & t & E) | (b & t & E)].
  - rewrite (update_with_tracker_ok _ _ _ _ _ _ _ E). discriminate.
  - rewrite (update_with_tracker_fail _ _ _ _ E). intros _. split; reflexivity.
Qed.

Lemma update_with_tracker_young (p : TrackedPerson T) (frame : Frame) :
  is_active p = true -> lost_frames p < 10 ->
  is_active (snd (update_with_tracker p frame)) = true.
Proof.
  intros Ha Hl. destruct (fst (update_with_tracker p frame)) eqn:E.
  - rewrite update_with_tracker_active by exact E. exact Ha.
  - destruct (update_with_tracker_lost p frame E) as [_ ->].
    destruct (Z.gtb_spec (lost_frames p + 1) 10); [lia | exact Ha].
Qed.

(** ** Cleanup *)

Lemma cleanup_fold (d2 : dict (TrackedPerson T)) :
  forall d1 : dict (TrackedPerson T),
    NoDup (keys (d1 ++ d2)) ->
    fold_left (fun d tid => dict_del tid d)
      (map fst (filter (fun '(tid, p) => negb (is_active p)) d2)) (d1 ++ d2)
    = d1 ++ filter active_entry d2.
Proof.
  induction d2 as [| [k p] rest IH]; intros d1 Hnd; [reflexivity|].
  cbn [filter]. unfold active_entry at 1. cbn [snd].
  destruct (is_active p) eqn:Ea; cbn [negb map fold_left fst].
  - change (d1 ++ (k, p) :: rest) with (d1 ++ [(k, p)] ++ rest) in *.
    rewrite app_assoc in *. rewrite IH by exact Hnd.
    rewrite <- app_assoc. reflexivity.
  - rewrite dict_del_app_fresh.
    + apply IH. unfold keys in *. rewrite map_app in *. cbn [map fst] in Hnd.
      apply NoDup_remove_1 in Hnd. exact Hnd.
    + unfold keys in *. rewrite map_app in Hnd. cbn [map fst] in Hnd.
      apply NoDup_remove_2 in Hnd. intros Hin. apply Hnd.
      apply in_or_app. left. exact Hin.
Qed.

Lemma _cleanup_inactive_filter (self : MultiPersonTracker T D) :
  NoDup (keys (tracked_persons self)) ->
  _cleanup_inactive self =
  with_persons self (filter active_entry (tracked_persons self)).
Proof.
  intros Hnd. unfold _cleanup_inactive.
  pose proof (cleanup_fold (tracked_persons self) [] Hnd) as H.
  cbn [app] in H. rewrite H. reflexivity.
Qed.

End LoopFacts.

(** ** Enumerations and identities: lemmas *)

Lemma ids_from_length (n : nat) : forall start, List.length (ids_from start n) = n.
Proof. induction n as [| n IH]; intros; simpl; [reflexivity | now rewrite IH]. Qed.

Lemma ids_from_In (n : nat) :
  forall start k, In k (ids_from start n) <-> start <= k < start + Z.of_nat n.
Proof.
  induction n as [| n IH]; intros start k.
  - simpl. lia.
  - cbn [ids_from In]. rewrite IH. lia.
Qed.

Lemma ids_from_NoDup (n : nat) : forall start, NoDup (ids_from start n).
Proof.
  induction n as [| n IH]; intros start; simpl; constructor.
  - rewrite ids_from_In. lia.
  - apply IH.
Qed.

Lemma ids_from_app (n m : nat) :
  forall start,
    ids_from start (n + m) = ids_from start n ++ ids_from (start + Z.of_nat n) m.
Proof.
  induction n as [| n IH]; intros start.
  - simpl. now rewrite Z.add_0_r.
  - cbn [Nat.add ids_from app]. rewrite IH. do 3 f_equal. lia.
Qed.

Lemma ids_from_seq (n : nat) :
  forall s : nat, ids_from (Z.of_nat s) n = map Z.of_nat (seq s n).
Proof.
  induction n as [| n IH]; intros s; [reflexivity|].
  cbn [ids_from seq map]. f_equal. rewrite <- IH. f_equal. lia.
Qed.

Lemma enumerate_from_keys {A : Type} (l : list A) :
  forall i, map fst (enumerate_from i l) = ids_from i (List.length l).
Proof.
  induction l as [| a rest IH]; intros i; [reflexivity|].
  cbn [enumerate_from map fst List.length ids_from]. now rewrite IH.
Qed.

Lemma enumerate_from_length {A : Type} (l : list A) :
  forall i, List.length (enumerate_from i l) = List.length l.
Proof.
  intros i. rewrite <- (length_map fst), enumerate_from_keys.
  apply ids_from_length.
Qed.

Lemma enumerate_from_In {A : Type} (l : list A) :
  forall i a, In a l <-> exists k, In (k, a) (enumerate_from i l).
Proof.
  induction l as [| b rest IH]; intros i a.
  - simpl. split; [tauto | intros [k []]].
  - cbn [enumerate_from In]. rewrite (IH (i + 1) a). split.
    + intros [-> | [k H]].
      * exists i. left. reflexivity.
      * exists k. right. exact H.
    + intros [k [E | H]].
      * left. congruence.
      * right. exists k. exact H.
Qed.

Lemma NoDup_fst_functional {A B : Type} (l : list (A * B)) (k : A) (x y : B) :
  NoDup (map fst l) -> In (k, x) l -> In (k, y) l -> x = y.
Proof.
  induction l as [| [k' z] rest IH]; intros Hnd Hx Hy; [destruct Hx|].
  cbn [map fst] in Hnd. inversion Hnd as [| ? ? Hnot Hnd']; subst.
  destruct Hx as [Ex | Hx], Hy as [Ey | Hy].
  - congruence.
  - injection Ex as -> ->. exfalso. apply Hnot.
    apply (in_map fst) in Hy. exact Hy.
  - injection Ey as -> ->. exfalso. apply Hnot.
    apply (in_map fst) in Hx. exact Hx.
  - apply IH; assumption.
Qed.

(** ** MultiPersonTracker: the association *)

Section AssocFacts.
Context {Frame T D : Type} {cv2 : Cv2 Frame T} {yolo : PersonDetector Frame D}.

Lemma keys_shape (d : dict (TrackedPerson T)) : map fst (map shape d) = keys d.
Proof. unfold keys. rewrite map_map. reflexivity. Qed.

Lemma shape_keys (d d' : dict (TrackedPerson T)) :
  map shape d = map shape d' -> keys d = keys d'.
Proof. intros H. rewrite <- !keys_shape, H. reflexivity. Qed.

Lemma shape_dict_update (k : Z) (f : TrackedPerson T -> TrackedPerson T)
    (d : dict (TrackedPerson T)) :
  (forall v, is_active (f v) = is_active v) ->
  map shape (dict_update k f d) = map shape d.
Proof.
  intros Hf. induction d as [| [k' v] rest IH]; [reflexivity|].
  cbn [dict_update]. destruct (k =? k'); cbn [map].
  - unfold shape at 1 3. cbn [fst snd]. rewrite Hf. reflexivity.
  - rewrite IH. reflexivity.
Qed.

Lemma best_track_loop_spec (items : dict (TrackedPerson T))
    (matched : list Z) (box : Box) (thr : Q) :
  forall (best_iou : Q) (best : option Z),
  exists q o,
    best_track_loop items matched box thr best_iou best = Ok (q, o) /\
    (o = best \/
     exists k, o = Some k /\ In k (keys items) /\ ~ In k matched).
Proof.
  induction items as [| [k p] rest IH]; intros best_iou best.
  - exists best_iou, best. split; [reflexivity | left; reflexivity].
  - cbn [best_track_loop]. destruct (set_mem k matched) eqn:Em.
    + destruct (IH best_iou best) as (q & o & H & Ho).
      exists q, o. split; [exact H|].
      destruct Ho as [-> | (k' & -> & Hin & Hm)]; [left; reflexivity|].
      right. exists k'. repeat split; [right; exact Hin | exact Hm].
    + apply set_mem_false in Em.
      rewrite calc_iou_value. cbn [bind].
      match goal with |- context [if ?c then _ else _] => destruct c end.
      * match goal with
        | |- context [best_track_loop rest matched box thr ?q0 (Some k)] =>
            destruct (IH q0 (Some k)) as (q & o & H & Ho)
        end.
        exists q, o. split; [exact H|]. right.
        destruct Ho as [-> | (k' & -> & Hin & Hm)].
        -- exists k. repeat split; [left; reflexivity | exact Em].
        -- exists k'. repeat split; [right; exact Hin | exact Hm].
      * destruct (IH best_iou best) as (q & o & H & Ho).
        exists q, o. split; [exact H|].
        destruct Ho as [-> | (k' & -> & Hin & Hm)]; [left; reflexivity|].
        right. exists k'. repeat split; [right; exact Hin | exact Hm].
Qed.

Lemma match_loop_spec (frame : Frame) (ty : TrackerType) (thr : Q)
    (d0 : dict (TrackedPerson T)) (dets0 : list (Z * Detection)) :
  NoDup (map fst dets0) ->
  forall (dets : list (Z * Detection)) (st : Assoc),
    incl dets dets0 ->
    assoc_inv d0 dets0 st ->
    exists st',
      match_loop dets frame ty thr st = Ok st' /\ assoc_inv d0 dets0 st'.
Proof.
  intros Hnd. induction dets as [| [i det] rest IH]; intros st Hsub Hinv.
  - exists st. split; [reflexivity | exact Hinv].
  - cbn [match_loop].
    destruct (best_track_loop_spec (a_persons st) (a_matched_track_ids st)
                (det_box det) thr 0%Q None) as (q & o & Hb & Ho).
    rewrite Hb. cbn [bind].
    assert (Hrest : incl rest dets0).
    { intros e He. apply Hsub. right. exact He. }
    destruct Ho as [-> | (k & -> & Hk & Hm)]; [apply IH; assumption|].
    apply IH; [exact Hrest|].
    destruct Hinv as (Hshape & Hmatched & Hres & Hdet).
    unfold assoc_inv. cbn [a_persons a_matched_track_ids
                             a_matched_det_indices a_results].
    repeat split.
    + rewrite shape_dict_update; [exact Hshape|].
      intros v. apply (update_with_detection_fields v (det_box det) frame ty).
    + intros x Hx. apply set_add_In in Hx. destruct Hx as [-> | Hx].
      * rewrite <- (shape_keys _ _ Hshape). exact Hk.
      * apply Hmatched. exact Hx.
    + apply Forall_app. split.
      * eapply Forall_impl; [|exact Hres]. intros r [Hy Hr].
        split; [exact Hy|]. apply set_add_In. right. exact Hr.
      * constructor; [|constructor]. split; [reflexivity|].
        apply set_add_In. left. reflexivity.
    + intros i' det' Hin Hi'. apply set_add_In in Hi'.
      destruct Hi' as [-> | Hi'].
      * assert (det' = det).
        { apply (NoDup_fst_functional dets0 i); try assumption.
          apply Hsub. left. reflexivity. }
        subst det'. exists k. apply in_or_app. right. left. reflexivity.
      * destruct (Hdet i' det' Hin Hi') as [k' Hk'].
        exists k'. apply in_or_app. left. exact Hk'.
Qed.

(** The creation loop, when every key is below the next identity: the
    unmatched detections get the identities [next], [next + 1], ... in
    their order, one new entry at the end of the dictionary and one
    detector result each. *)
Lemma create_loop_spec (frame : Frame) (ty : TrackerType) (matched : list Z) :
  forall (dets : list (Z * Detection)) (persons : dict (TrackedPerson T))
         (next : Z) (results : list Result),
    Forall (fun k => k < next) (keys persons) ->
    let news := enumerate_from next (unmatched_dets dets matched) in
    create_loop dets frame ty matched persons next results =
    (persons ++ map (new_track frame ty) news,
     next + Z.of_nat (List.length (unmatched_dets dets matched)),
     results ++ map new_result news).
Proof.
  induction dets as [| [i det] rest IH]; intros persons next results Hk.
  - cbn. rewrite !app_nil_r, Z.add_0_r. reflexivity.
  - cbn [create_loop unmatched_dets filter fst].
    destruct (set_mem i matched); cbn [negb].
    + apply IH. exact Hk.
    + fold (unmatched_dets rest matched).
      rewrite dict_set_fresh.
      * rewrite IH.
        -- cbn [enumerate_from map List.length].
           unfold new_track, new_result. cbn [fst snd].
           rewrite <- !app_assoc. cbn [app].
           replace (next + Z.of_nat (S (List.length (unmatched_dets rest matched))))
             with (next + 1 + Z.of_nat (List.length (unmatched_dets rest matched)))
             by lia.
           reflexivity.
        -- unfold keys. rewrite map_app. apply Forall_app. split.
           ++ eapply Forall_impl; [|exact Hk]. cbn. intros; lia.
           ++ cbn. constructor; [lia | constructor].
      * intros Hin. rewrite Forall_forall in Hk. specialize (Hk _ Hin). lia.
Qed.

End AssocFacts.

(** ** MultiPersonTracker: one frame *)

Section StepFacts.
Context {Frame T D : Type} {cv2 : Cv2 Frame T} {yolo : PersonDetector Frame D}.

Lemma filter_keys_incl (f : Z * TrackedPerson T -> bool)
    (d : dict (TrackedPerson T)) :
  incl (keys (filter f d)) (keys d).
Proof.
  intros k Hk. unfold keys in *. apply in_map_iff in Hk.
  destruct Hk as (kp & <- & Hin). apply filter_In in Hin.
  apply in_map. tauto.
Qed.

Lemma filter_keys_NoDup (f : Z * TrackedPerson T -> bool)
    (d : dict (TrackedPerson T)) :
  NoDup (keys d) -> NoDup (keys (filter f d)).
Proof.
  unfold keys. induction d as [| [k p] rest IH]; intros Hnd; [constructor|].
  cbn [map fst] in Hnd. inversion Hnd as [| ? ? Hnot Hnd']; subst.
  cbn [filter]. destruct (f (k, p)).
  - cbn [map fst]. constructor; [|apply IH; exact Hnd'].
    intros Hin. apply Hnot. apply (filter_keys_incl f rest). exact Hin.
  - apply IH. exact Hnd'.
Qed.

(** After a pass of [advance_loop] and the cleanup, a track that was
    active before the pass is still in the dictionary if the pass skipped
    it, if its update succeeded, or if it had lost fewer than 10 frames. *)
Lemma advanced_survives (guard : Z -> TrackedPerson T -> bool) (frame : Frame)
    (d : dict (TrackedPerson T)) (k : Z) (p : TrackedPerson T) :
  In (k, p) d -> is_active p = true ->
  guard k p = false \/ fst (update_with_tracker p frame) = true
  \/ lost_frames p < 10 ->
  In k (keys (filter active_entry (map (advanced guard frame) d))).
Proof.
  intros Hin Ha Hwhy. unfold keys.
  apply in_map_iff. exists (advanced guard frame (k, p)).
  split; [reflexivity|]. apply filter_In. split.
  - apply in_map. exact Hin.
  - unfold active_entry, advanced. cbn [fst snd].
    destruct (guard k p) eqn:Eg; [|exact Ha].
    destruct Hwhy as [Hg | [Hok | Hl]].
    + discriminate.
    + rewrite update_with_tracker_active by exact Hok. exact Ha.
    + apply update_with_tracker_young; assumption.
Qed.

Lemma reported_survive (guard : Z -> TrackedPerson T -> bool) (frame : Frame)
    (d : dict (TrackedPerson T)) :
  Forall (fun kp => is_active (snd kp) = true) d ->
  forall r, In r (flat_map (reported guard frame) d) ->
    result_method r = "tracker"%string /\
    In (result_id r) (keys (filter active_entry (map (advanced guard frame) d))).
Proof.
  intros Hact r Hr. apply in_flat_map in Hr. destruct Hr as ([k p] & Hin & Hr).
  unfold reported in Hr. cbn [fst snd] in Hr.
  destruct (guard k p) eqn:Eg; [|destruct Hr].
  destruct (fst (update_with_tracker p frame)) eqn:Eok; [|destruct Hr].
  destruct Hr as [<- | []]. split; [reflexivity|]. cbn [result_id].
  apply (advanced_survives guard frame d k p Hin).
  - rewrite Forall_forall in Hact. apply (Hact _ Hin).
  - right. left. exact Eok.
Qed.

Lemma shape_active (d d0 : dict (TrackedPerson T)) :
  map shape d = map shape d0 ->
  Forall (fun kp => is_active (snd kp) = true) d0 ->
  Forall (fun kp => is_active (snd kp) = true) d.
Proof.
  revert d0. induction d as [| [k p] rest IH]; intros d0 Hs Ha; [constructor|].
  destruct d0 as [| [k0 p0] rest0]; [discriminate|].
  cbn [map] in Hs. injection Hs as Hk Hp Hrest.
  inversion Ha as [| ? ? Hp0 Hrest0]; subst.
  constructor; [cbn [snd] in *; congruence | eapply IH; eassumption].
Qed.

Lemma associate_spec (self : MultiPersonTracker T D) (frame : Frame)
    (dets : list Detection) :
  exists st,
    associate self frame dets = Ok st /\
    assoc_inv (tracked_persons self) (enumerate dets) st.
Proof.
  assert (Hinit : assoc_inv (tracked_persons self) (enumerate dets)
                    (mkAssoc (tracked_persons self) [] [] [])).
  { unfold assoc_inv. cbn [a_persons a_matched_track_ids
                            a_matched_det_indices a_results].
    split; [reflexivity|]. split; [intros x []|].
    split; [constructor|]. intros i det _ []. }
  unfold associate. destruct (negb (is_empty (tracked_persons self))).
  - apply match_loop_spec.
    + unfold enumerate. rewrite enumerate_from_keys. apply ids_from_NoDup.
    + apply incl_refl.
    + exact Hinit.
  - eexists. split; [reflexivity | exact Hinit].
Qed.

Lemma _process_with_trackers_spec (self : MultiPersonTracker T D)
    (frame : Frame) :
  _process_with_trackers self frame =
  (flat_map (reported (fun _ p => is_active p) frame) (tracked_persons self),
   with_persons self
     (map (advanced (fun _ p => is_active p) frame) (tracked_persons self))).
Proof.
  unfold _process_with_trackers.
  rewrite trackers_loop_advance, advance_loop_spec. reflexivity.
Qed.

(** [_process_with_yolo] on a non-empty detection list, when every key is
    below the next identity. *)
Lemma _process_with_yolo_spec (self : MultiPersonTracker T D) (frame : Frame)
    (dets : list Detection) (d : D) :
  detect (detector self) frame = (dets, d) ->
  is_empty dets = false ->
  Forall (fun k => k < next_id self) (keys (tracked_persons self)) ->
  exists st,
    associate (with_detector self d) frame dets = Ok st /\
    assoc_inv (tracked_persons self) (enumerate dets) st /\
    let news :=
      enumerate_from (next_id self)
        (unmatched_dets (enumerate dets) (a_matched_det_indices st)) in
    let persons := a_persons st ++ map (new_track frame (tracker_type self)) news in
    let guard := fun (k : Z) (_ : TrackedPerson T) =>
                   negb (set_mem k (a_matched_track_ids st)) in
    _process_with_yolo self frame =
    Ok ((a_results st ++ map new_result news)
        ++ flat_map (reported guard frame) persons,
        mkMultiPersonTracker d (tracker_type self) (redetect_interval self)
          (iou_threshold self) (map (advanced guard frame) persons)
          (next_id self + Z.of_nat (List.length news)) (frame_count self)).
Proof.
  intros Hdet Hne Hkeys.
  destruct (associate_spec (with_detector self d) frame dets)
    as (st & Hst & Hinv).
  exists st. split; [exact Hst|]. split; [exact Hinv|].
  intros news persons guard.
  unfold _process_with_yolo. rewrite Hdet, Hne.
  unfold associate in Hst. cbn [tracked_persons with_detector tracker_type
                                  iou_threshold] in Hst.
  cbn [tracked_persons with_detector tracker_type iou_threshold next_id
         detector redetect_interval frame_count].
  rewrite Hst. cbn [bind].
  rewrite create_loop_spec.
  - rewrite unmatched_loop_advance, advance_loop_spec.
    subst news. rewrite enumerate_from_length. reflexivity.
  - destruct Hinv as (Hshape & _). rewrite (shape_keys _ _ Hshape).
    exact Hkeys.
Qed.

End StepFacts.

Section FrameFacts.
Context {Frame T D : Type} {cv2 : Cv2 Frame T} {yolo : PersonDetector Frame D}.

Lemma process_frame_unfold (self : MultiPersonTracker T D) (frame : Frame) :
  process_frame self frame =
  (b <- need_yolo (counted self) ;;
   '(results, s) <-
     (if b : bool then _process_with_yolo (counted self) frame
      else Ok (_process_with_trackers (counted self) frame)) ;;
   Ok (results, _cleanup_inactive s)).
Proof. reflexivity. Qed.

(** The state a pass over the dictionary [ps] followed by the cleanup
    leaves. *)
Lemma pass_cleanup (guard : Z -> TrackedPerson T -> bool) (frame : Frame)
    (d : D) (ty : TrackerType) (iv : Z) (thr : Q)
    (ps : dict (TrackedPerson T)) (nx fc : Z) :
  NoDup (keys ps) ->
  Forall (fun k => 1 <= k < nx) (keys ps) ->
  1 <= nx ->
  let s := _cleanup_inactive
             (mkMultiPersonTracker d ty iv thr (map (advanced guard frame) ps)
                nx fc) in
  s = mkMultiPersonTracker d ty iv thr
        (filter active_entry (map (advanced guard frame) ps)) nx fc /\
  live_ok s /\
  incl (keys (tracked_persons s)) (keys ps).
Proof.
  intros Hnd Hk Hnx s.
  assert (Hs : s = mkMultiPersonTracker d ty iv thr
                     (filter active_entry (map (advanced guard frame) ps))
                     nx fc).
  { subst s. rewrite _cleanup_inactive_filter; [reflexivity|].
    cbn [tracked_persons]. rewrite keys_map_advanced. exact Hnd. }
  assert (Hincl : incl (keys (filter active_entry (map (advanced guard frame) ps)))
                    (keys ps)).
  { intros k Hin. apply filter_keys_incl in Hin.
    rewrite keys_map_advanced in Hin. exact Hin. }
  rewrite Hs. cbn [tracked_persons]. split; [reflexivity|]. split.
  - unfold live_ok. cbn [tracked_persons next_id]. repeat split.
    + apply filter_keys_NoDup. rewrite keys_map_advanced. exact Hnd.
    + apply Forall_forall. intros kp Hin. apply filter_In in Hin.
      destruct Hin as [_ Ha]. exact Ha.
    + apply Forall_forall. intros k Hin. rewrite Forall_forall in Hk.
      apply Hk. apply Hincl. exact Hin.
    + exact Hnx.
  - exact Hincl.
Qed.

(** Where [need_yolo] of the counted state is decided from. *)
Lemma need_yolo_counted (self : MultiPersonTracker T D) :
  need_yolo (counted self) =
  if frame_count self + 1 =? 1 then Ok true
  else
    r <- py_mod (frame_count self + 1) (redetect_interval self) ;;
    if r =? 0 then Ok true
    else Ok (Z.of_nat (List.length (tracked_persons self)) =? 0).
Proof. reflexivity. Qed.

Lemma live_ok_keys_lt (self : MultiPersonTracker T D) :
  live_ok self ->
  Forall (fun k => k < next_id self) (keys (tracked_persons self)).
Proof.
  intros (_ & _ & Hk & _). eapply Forall_impl; [|exact Hk]. cbn. intros; lia.
Qed.

(** The tracker-only pass, followed by the cleanup. *)
Lemma trackers_step (self : MultiPersonTracker T D) (frame : Frame)
    (results : list Result) (s : MultiPersonTracker T D) :
  live_ok self ->
  _process_with_trackers self frame = (results, s) ->
  live_ok (_cleanup_inactive s) /\
  next_id (_cleanup_inactive s) = next_id self /\
  frame_count (_cleanup_inactive s) = frame_count self /\
  redetect_interval (_cleanup_inactive s) = redetect_interval self /\
  detector (_cleanup_inactive s) = detector self /\
  incl (map result_id results) (keys (tracked_persons (_cleanup_inactive s))) /\
  incl (keys (tracked_persons (_cleanup_inactive s)))
    (keys (tracked_persons self)).
Proof.
  intros Hlive H. rewrite _process_with_trackers_spec in H.
  injection H as <- <-.
  destruct Hlive as (Hnd & Hact & Hk & Hnx).
  unfold with_persons.
  destruct (pass_cleanup (fun _ p => is_active p) frame (detector self)
              (tracker_type self) (redetect_interval self)
              (iou_threshold self) (tracked_persons self) (next_id self)
              (frame_count self) Hnd Hk Hnx) as (Hs & Hlive' & Hincl).
  cbv zeta in Hs, Hlive', Hincl. split; [exact Hlive'|].
  rewrite Hs in *. cbn [next_id frame_count redetect_interval detector
                          tracked_persons] in *.
  repeat split; try exact Hincl.
  intros k Hin. apply in_map_iff in Hin. destruct Hin as (r & <- & Hr).
  apply (reported_survive _ frame _ Hact r Hr).
Qed.

Lemma keys_new_tracks (frame : Frame) (ty : TrackerType)
    (news : list (Z * (Z * Detection))) :
  keys (map (new_track frame ty) news) = map fst news.
Proof. unfold keys. rewrite map_map. reflexivity. Qed.

Lemma In_keys (d : dict (TrackedPerson T)) (k : Z) :
  In k (keys d) -> exists p, In (k, p) d.
Proof.
  unfold keys. intros Hin. apply in_map_iff in Hin.
  destruct Hin as ([k' p] & E & Hin). cbn in E. subst. exists p. exact Hin.
Qed.

(** The detector pass on a non-empty detection list, followed by the
    cleanup; [n] tracks are created. *)
Lemma yolo_step (self : MultiPersonTracker T D) (frame : Frame)
    (dets : list Detection) (d : D) (st : Assoc)
    (results : list Result) (s : MultiPersonTracker T D) :
  live_ok self ->
  detect (detector self) frame = (dets, d) ->
  is_empty dets = false ->
  associate (with_detector self d) frame dets = Ok st ->
  _process_with_yolo self frame = Ok (results, s) ->
  let n := List.length (unmatched_dets (enumerate dets)
                          (a_matched_det_indices st)) in
  live_ok (_cleanup_inactive s) /\
  next_id (_cleanup_inactive s) = next_id self + Z.of_nat n /\
  frame_count (_cleanup_inactive s) = frame_count self /\
  redetect_interval (_cleanup_inactive s) = redetect_interval self /\
  detector (_cleanup_inactive s) = d /\
  incl (map result_id results) (keys (tracked_persons (_cleanup_inactive s))) /\
  incl (keys (tracked_persons (_cleanup_inactive s)))
    (keys (tracked_persons self) ++ ids_from (next_id self) n) /\
  (forall det, In det dets ->
     exists k, In (k, det_box det, det_conf det, "yolo"%string) results).
Proof.
  intros Hlive Hdet Hne Hst H n.
  destruct (_process_with_yolo_spec self frame dets d Hdet Hne
              (live_ok_keys_lt self Hlive)) as (st' & Hst' & Hinv & Heq).
  rewrite Hst in Hst'. injection Hst' as <-.
  cbv zeta in Heq. rewrite Heq in H. injection H as <- <-. clear Heq.
  destruct Hlive as (Hnd & Hact & Hk & Hnx).
  destruct Hinv as (Hshape & Hmatched & Hres & Hmdet).
  set (news := enumerate_from (next_id self)
                 (unmatched_dets (enumerate dets) (a_matched_det_indices st))).
  set (persons := a_persons st ++ map (new_track frame (tracker_type self)) news).
  set (guard := fun (k : Z) (_ : TrackedPerson T) =>
                  negb (set_mem k (a_matched_track_ids st))).
  assert (Hlen : List.length news = n).
  { subst news n. apply enumerate_from_length. }
  assert (Hnews : map fst news = ids_from (next_id self) n).
  { subst news n. apply enumerate_from_keys. }
  assert (Hkeys : keys persons
                  = keys (tracked_persons self) ++ ids_from (next_id self) n).
  { subst persons. unfold keys at 1. rewrite map_app.
    fold (keys (a_persons st)).
    fold (keys (map (new_track frame (tracker_type self)) news)).
    rewrite keys_new_tracks, Hnews, (shape_keys _ _ Hshape). reflexivity. }
  assert (Hnd' : NoDup (keys persons)).
  { rewrite Hkeys. apply NoDup_app; [exact Hnd | apply ids_from_NoDup|].
    intros k Hin Hin'. rewrite Forall_forall in Hk. specialize (Hk _ Hin).
    apply ids_from_In in Hin'. lia. }
  assert (Hk' : Forall (fun k => 1 <= k < next_id self + Z.of_nat (List.length news))
                  (keys persons)).
  { rewrite Hkeys, Hlen. apply Forall_app. split.
    - eapply Forall_impl; [|exact Hk]. cbn. intros; lia.
    - apply Forall_forall. intros k Hin. apply ids_from_In in Hin. lia. }
  assert (Hact' : Forall (fun kp => is_active (snd kp) = true) persons).
  { subst persons. apply Forall_app. split.
    - apply (shape_active _ _ Hshape Hact).
    - apply Forall_forall. intros kp Hin. apply in_map_iff in Hin.
      destruct Hin as (e & <- & _). unfold new_track. cbn [snd].
      apply (TrackedPerson_init_fields (fst e) (det_box (snd (snd e))) frame
               (tracker_type self)). }
  assert (Hnx' : 1 <= next_id self + Z.of_nat (List.length news)) by lia.
  destruct (pass_cleanup guard frame d (tracker_type self)
              (redetect_interval self) (iou_threshold self) persons
              (next_id self + Z.of_nat (List.length news)) (frame_count self)
              Hnd' Hk' Hnx') as (Hs & Hlive' & Hincl).
  cbv zeta in Hs, Hlive', Hincl. split; [exact Hlive'|].
  rewrite Hs in *. cbn [next_id frame_count redetect_interval detector
                          tracked_persons] in *.
  split; [rewrite Hlen; reflexivity|].
  split; [reflexivity|]. split; [reflexivity|]. split; [reflexivity|].
  split; [|split].
  - intros k Hin. apply in_map_iff in Hin. destruct Hin as (r & <- & Hr).
    apply in_app_or in Hr. destruct Hr as [Hr | Hr].
    + apply in_app_or in Hr. destruct Hr as [Hr | Hr].
      * rewrite Forall_forall in Hres. destruct (Hres r Hr) as [_ Hm].
        assert (Hin : In (result_id r) (keys (a_persons st))).
        { rewrite (shape_keys _ _ Hshape). apply Hmatched. exact Hm. }
        apply In_keys in Hin. destruct Hin as [p Hp].
        apply (advanced_survives guard frame persons (result_id r) p).
        -- subst persons. apply in_or_app. left. exact Hp.
        -- pose proof (shape_active _ _ Hshape Hact) as Ha.
           rewrite Forall_forall in Ha. apply (Ha _ Hp).
        -- left. subst guard. cbn. apply set_mem_In in Hm. rewrite Hm.
           reflexivity.
      * apply in_map_iff in Hr. destruct Hr as (e & <- & He).
        cbn [new_result result_id].
        apply (advanced_survives guard frame persons (fst e)
                 (TrackedPerson_init (fst e) (det_box (snd (snd e))) frame
                    (tracker_type self))).
        -- subst persons. apply in_or_app. right.
           apply (in_map (new_track frame (tracker_type self))) in He.
           exact He.
        -- apply (TrackedPerson_init_fields (fst e) (det_box (snd (snd e)))
                    frame (tracker_type self)).
        -- right. right.
           destruct (TrackedPerson_init_fields (fst e) (det_box (snd (snd e)))
                       frame (tracker_type self)) as (_ & _ & _ & _ & Hl & _).
           rewrite Hl. lia.
    + apply (reported_survive guard frame persons Hact' r Hr).
  - intros k Hin. rewrite <- Hkeys. apply Hincl. exact Hin.
  - intros det Hin.
    apply (enumerate_from_In dets 0 det) in Hin. destruct Hin as [i Hi].
    fold (enumerate dets) in Hi.
    destruct (set_mem i (a_matched_det_indices st)) eqn:Em.
    + apply set_mem_In in Em. destruct (Hmdet i det Hi Em) as [k Hk0].
      exists k. apply in_or_app. left. apply in_or_app. left. exact Hk0.
    + assert (Hu : In (i, det) (unmatched_dets (enumerate dets)
                                  (a_matched_det_indices st))).
      { unfold unmatched_dets. apply filter_In. split; [exact Hi|].
        cbn [fst]. rewrite Em. reflexivity. }
      apply (enumerate_from_In _ (next_id self) (i, det)) in Hu.
      destruct Hu as [k Hk0]. exists k.
      apply in_or_app. left. apply in_or_app. right.
      apply (in_map new_result) in Hk0. exact Hk0.
Qed.

Lemma live_ok_counted (self : MultiPersonTracker T D) :
  live_ok self -> live_ok (counted self).
Proof. intros H. exact H. Qed.

Lemma live_ok_with_detector (self : MultiPersonTracker T D) (d : D) :
  live_ok self -> live_ok (with_detector self d).
Proof. intros H. exact H. Qed.

Lemma created_in_frame_trackers (self : MultiPersonTracker T D) (frame : Frame) :
  need_yolo (counted self) = Ok false -> created_in_frame self frame = [].
Proof. intros Hn. unfold created_in_frame. rewrite Hn. reflexivity. Qed.

Lemma created_in_frame_empty (self : MultiPersonTracker T D) (frame : Frame)
    (dets : list Detection) (d : D) :
  need_yolo (counted self) = Ok true ->
  detect (detector self) frame = (dets, d) ->
  is_empty dets = true ->
  created_in_frame self frame = [].
Proof.
  intros Hn Hd He. unfold created_in_frame. rewrite Hn.
  cbn [detector counted]. rewrite Hd, He. reflexivity.
Qed.

Lemma created_in_frame_yolo (self : MultiPersonTracker T D) (frame : Frame)
    (dets : list Detection) (d : D) (st : Assoc) :
  live_ok self ->
  need_yolo (counted self) = Ok true ->
  detect (detector self) frame = (dets, d) ->
  is_empty dets = false ->
  associate (with_detector (counted self) d) frame dets = Ok st ->
  created_in_frame self frame =
  ids_from (next_id self)
    (List.length (unmatched_dets (enumerate dets) (a_matched_det_indices st))).
Proof.
  intros Hlive Hn Hd He Hst. unfold created_in_frame. rewrite Hn.
  cbn [detector counted]. rewrite Hd, He.
  change (mkMultiPersonTracker (detector self) (tracker_type self)
            (redetect_interval self) (iou_threshold self)
            (tracked_persons self) (next_id self) (frame_count self + 1))
    with (counted self).
  rewrite Hst. cbn [tracker_type next_id counted].
  destruct (associate_spec (with_detector (counted self) d) frame dets)
    as (st' & Hst' & Hinv).
  rewrite Hst in Hst'. injection Hst' as <-.
  destruct Hinv as (Hshape & _).
  rewrite create_loop_spec.
  - cbn [app]. rewrite map_map.
    rewrite <- (enumerate_from_keys
                  (unmatched_dets (enumerate dets) (a_matched_det_indices st))
                  (next_id self)).
    apply map_ext. intros e. reflexivity.
  - rewrite (shape_keys _ _ Hshape). apply (live_ok_keys_lt self Hlive).
Qed.

(** One call of [process_frame] from a well-formed live set. *)
Lemma process_frame_step (self : MultiPersonTracker T D) (frame : Frame)
    (results : list Result) (self' : MultiPersonTracker T D) :
  live_ok self ->
  process_frame self frame = Ok (results, self') ->
  live_ok self' /\
  created_in_frame self frame =
    ids_from (next_id self) (List.length (created_in_frame self frame)) /\
  next_id self' =
    next_id self + Z.of_nat (List.length (created_in_frame self frame)) /\
  frame_count self' = frame_count self + 1 /\
  redetect_interval self' = redetect_interval self /\
  incl (map result_id results) (keys (tracked_persons self')) /\
  incl (keys (tracked_persons self'))
    (keys (tracked_persons self) ++ created_in_frame self frame).
Proof.
  intros Hlive H. rewrite process_frame_unfold in H.
  destruct (need_yolo (counted self)) as [b | e] eqn:Hn;
    cbn [bind] in H; [|discriminate].
  destruct b.
  - destruct (_process_with_yolo (counted self) frame) as [[r s] | e] eqn:Hy;
      cbn [bind] in H; [|discriminate].
    injection H as <- <-.
    destruct (detect (detector self) frame) as [dets d] eqn:Hd.
    destruct (is_empty dets) eqn:He.
    + unfold _process_with_yolo in Hy. cbn [detector counted] in Hy.
      rewrite Hd, He in Hy. injection Hy as Hy.
      rewrite (created_in_frame_empty self frame dets d Hn Hd He).
      destruct (trackers_step _ frame r s
                  (live_ok_with_detector _ d (live_ok_counted self Hlive)) Hy)
        as (H1 & H2 & H3 & H4 & _ & H5 & H6).
      cbn [next_id frame_count redetect_interval tracked_persons
             with_detector counted] in *.
      rewrite app_nil_r. cbn [List.length]. rewrite Z.add_0_r.
      exact (conj H1 (conj eq_refl (conj H2 (conj H3 (conj H4 (conj H5 H6)))))).
    + destruct (associate_spec (with_detector (counted self) d) frame dets)
        as (st & Hst & _).
      rewrite (created_in_frame_yolo self frame dets d st Hlive Hn Hd He Hst).
      rewrite ids_from_length.
      destruct (yolo_step (counted self) frame dets d st r s
                  (live_ok_counted self Hlive) Hd He Hst Hy)
        as (H1 & H2 & H3 & H4 & _ & H5 & H6 & _).
      cbn [next_id frame_count redetect_interval tracked_persons counted] in *.
      exact (conj H1 (conj eq_refl (conj H2 (conj H3 (conj H4 (conj H5 H6)))))).
  - cbn [bind] in H.
    destruct (_process_with_trackers (counted self) frame) as [r s] eqn:Hy.
    injection H as <- <-.
    rewrite (created_in_frame_trackers self frame Hn).
    destruct (trackers_step _ frame r s (live_ok_counted self Hlive) Hy)
      as (H1 & H2 & H3 & H4 & _ & H5 & H6).
    cbn [next_id frame_count redetect_interval tracked_persons counted] in *.
    rewrite app_nil_r. cbn [List.length]. rewrite Z.add_0_r.
    exact (conj H1 (conj eq_refl (conj H2 (conj H3 (conj H4 (conj H5 H6)))))).
Qed.

(** [process_frame] raises only where [need_yolo] does: on a zero
    redetection interval, on a frame that is not the first. *)
Lemma process_frame_total (self : MultiPersonTracker T D) (frame : Frame) :
  frame_count self = 0 \/ redetect_interval self <> 0 ->
  exists results self', process_frame self frame = Ok (results, self').
Proof.
  intros Hcfg. rewrite process_frame_unfold, need_yolo_counted.
  assert (Hy : exists rs, _process_with_yolo (counted self) frame = Ok rs).
  { unfold _process_with_yolo.
    destruct (detect (detector (counted self)) frame) as [dets d].
    destruct (is_empty dets); [eexists; reflexivity|].
    destruct (associate_spec (with_detector (counted self) d) frame dets)
      as (st & Hst & _).
    unfold associate in Hst. rewrite Hst. cbn [bind].
    destruct (create_loop _ _ _ _ _ _ _) as [[ps nx] rs].
    destruct (unmatched_loop _ _ _) as [ps' tr].
    eexists. reflexivity. }
  destruct Hy as [[r s] Hy].
  destruct (Z.eqb_spec (frame_count self + 1) 1) as [E | E].
  - cbn [bind]. rewrite Hy. cbn [bind]. eexists _, _. reflexivity.
  - destruct Hcfg as [Hc | Hc]; [lia|].
    unfold py_mod. destruct (Z.eqb_spec (redetect_interval self) 0) as [E0 | _];
      [contradiction|].
    cbn [bind].
    destruct (_ mod _ =? 0).
    + cbn [bind]. rewrite Hy. cbn [bind]. eexists _, _. reflexivity.
    + cbn [bind].
      destruct (Z.of_nat (List.length (tracked_persons self)) =? 0).
      * rewrite Hy. cbn [bind]. eexists _, _. reflexivity.
      * cbn [bind].
        destruct (_process_with_trackers (counted self) frame) as [r' s'].
        eexists _, _. reflexivity.
Qed.

End FrameFacts.

(** ** MultiPersonTracker: runs *)

Section RunFacts.
Context {Frame T D : Type} {cv2 : Cv2 Frame T} {yolo : PersonDetector Frame D}.

Lemma run_frames_cons (self : MultiPersonTracker T D) (frame : Frame)
    (rest : list Frame) (res : list (list Result))
    (self' : MultiPersonTracker T D) :
  run_frames self (frame :: rest) = Ok (res, self') ->
  exists results s more,
    process_frame self frame = Ok (results, s) /\
    run_frames s rest = Ok (more, self') /\
    res = results :: more.
Proof.
  cbn [run_frames]. destruct (process_frame self frame) as [[results s] | e];
    cbn [bind]; [|discriminate].
  destruct (run_frames s rest) as [[more s'] | e] eqn:Hr; cbn [bind];
    [|discriminate].
  intros H. injection H as <- <-. exists results, s, more.
  split; [reflexivity|]. split; [exact Hr | reflexivity].
Qed.

(** Along a run the live set stays well formed, the identities created
    are consecutive from the next identity of the start, and the counters
    advance with them. *)
Lemma run_frames_spec (frames : list Frame) :
  forall (self : MultiPersonTracker T D) (res : list (list Result))
         (self' : MultiPersonTracker T D),
    live_ok self ->
    run_frames self frames = Ok (res, self') ->
    live_ok self' /\
    created_in_run self frames =
      ids_from (next_id self) (List.length (created_in_run self frames)) /\
    next_id self' =
      next_id self + Z.of_nat (List.length (created_in_run self frames)) /\
    frame_count self' = frame_count self + Z.of_nat (List.length frames) /\
    redetect_interval self' = redetect_interval self /\
    List.length res = List.length frames.
Proof.
  induction frames as [| frame rest IH]; intros self res self' Hlive H.
  - cbn in H. injection H as <- <-. cbn. rewrite !Z.add_0_r.
    repeat split; try reflexivity; apply Hlive.
  - destruct (run_frames_cons _ _ _ _ _ H) as (results & s & more & Hp & Hr & ->).
    destruct (process_frame_step self frame results s Hlive Hp)
      as (Hlive1 & Hc1 & Hn1 & Hf1 & Hi1 & _ & _).
    destruct (IH s more self' Hlive1 Hr) as (Hlive2 & Hc2 & Hn2 & Hf2 & Hi2 & Hl2).
    cbn [created_in_run]. rewrite Hp.
    rewrite length_app, ids_from_app, <- Hc1, <- Hn1, <- Hc2.
    split; [exact Hlive2|]. split; [reflexivity|].
    split; [rewrite Hn2, Hn1; lia|].
    split; [rewrite Hf2, Hf1; cbn [List.length]; lia|].
    split; [congruence|]. cbn [List.length]. congruence.
Qed.

(** An identity that was issued and is not in the live set never shows in
    a later result, nor in a later live set. *)
Lemma absent_stays_absent (frames : list Frame) :
  forall (self : MultiPersonTracker T D) (res : list (list Result))
         (self' : MultiPersonTracker T D) (k : Z),
    live_ok self ->
    run_frames self frames = Ok (res, self') ->
    k < next_id self ->
    ~ In k (keys (tracked_persons self)) ->
    Forall (fun results => ~ In k (map result_id results)) res /\
    ~ In k (keys (tracked_persons self')).
Proof.
  induction frames as [| frame rest IH]; intros self res self' k Hlive H Hk Hout.
  - cbn in H. injection H as <- <-. split; [constructor | exact Hout].
  - destruct (run_frames_cons _ _ _ _ _ H) as (results & s & more & Hp & Hr & ->).
    destruct (process_frame_step self frame results s Hlive Hp)
      as (Hlive1 & Hc1 & Hn1 & _ & _ & Hres & Hkeys).
    assert (Hout1 : ~ In k (keys (tracked_persons s))).
    { intros Hin. apply Hkeys in Hin. apply in_app_or in Hin.
      destruct Hin as [Hin | Hin]; [exact (Hout Hin)|].
      rewrite Hc1 in Hin. apply ids_from_In in Hin. lia. }
    destruct (IH s more self' k Hlive1 Hr ltac:(lia) Hout1) as [Hmore Hfinal].
    split; [|exact Hfinal].
    constructor; [|exact Hmore].
    intros Hin. apply Hout1. apply Hres. exact Hin.
Qed.

Lemma live_ok_reset (self : MultiPersonTracker T D) : live_ok (reset self).
Proof.
  unfold live_ok, reset. cbn. repeat split; try constructor. lia.
Qed.

Lemma live_ok_init (d : D) (ty : TrackerType) (iv : Z) (thr : Q) :
  live_ok (MultiPersonTracker_init (T := T) d ty iv thr).
Proof.
  unfold live_ok, MultiPersonTracker_init. cbn.
  repeat split; try constructor. lia.
Qed.

End RunFacts.

(** ** MultiPersonTracker: the claims *)

Section TrackerClaims.
Context {Frame T D : Type} {cv2 : Cv2 Frame T} {yolo : PersonDetector Frame D}.

Lemma _process_with_trackers_detector (self : MultiPersonTracker T D)
    (d : D) (frame : Frame) :
  _process_with_trackers (with_detector self d) frame =
  (fst (_process_with_trackers self frame),
   with_detector (snd (_process_with_trackers self frame)) d).
Proof. rewrite !_process_with_trackers_spec. reflexivity. Qed.

Lemma _process_with_yolo_detector (self : MultiPersonTracker T D)
    (frame : Frame) (results : list Result) (s : MultiPersonTracker T D) :
  _process_with_yolo self frame = Ok (results, s) ->
  detector s = snd (detect (detector self) frame).
Proof.
  unfold _process_with_yolo.
  destruct (detect (detector self) frame) as [dets d].
  destruct (is_empty dets).
  - rewrite _process_with_trackers_spec. intros H. injection H as _ <-.
    reflexivity.
  - match goal with
    | |- context [bind ?c _] => destruct c as [st | e]
    end; cbn [bind]; [|discriminate].
    destruct (create_loop _ _ _ _ _ _ _) as [[ps nx] rs].
    destruct (unmatched_loop _ _ _) as [ps' tr].
    intros H. injection H as _ <-. reflexivity.
Qed.

Lemma is_empty_length {A : Type} (l : list A) :
  (Z.of_nat (List.length l) =? 0) = is_empty l.
Proof. destruct l; reflexivity. Qed.

(** When the detector returns no detection, [_process_with_yolo] is the
    tracker-only pass: [process_frame] yields the results and the live
    set of a tracker-only frame, and a track whose update succeeds, or
    that had lost fewer than 10 frames, stays in the live set. *)
Lemma empty_detection_branch (self : MultiPersonTracker T D)
    (frame : Frame) (d : D) :
  detect (detector self) frame = ([], d) ->
  _process_with_yolo self frame =
    Ok (_process_with_trackers (with_detector self d) frame) /\
  (need_yolo (counted self) = Ok true ->
   process_frame self frame =
     Ok (fst (_process_with_trackers (counted self) frame),
         with_detector
           (_cleanup_inactive (snd (_process_with_trackers (counted self) frame)))
           d)) /\
  (need_yolo (counted self) = Ok true ->
   live_ok self ->
   forall results self',
     process_frame self frame = Ok (results, self') ->
     forall k p,
       In (k, p) (tracked_persons self) ->
       fst (update_with_tracker p frame) = true \/ lost_frames p < 10 ->
       In k (keys (tracked_persons self'))).
Proof.
  intros Hd.
  assert (Hy : forall s : MultiPersonTracker T D,
             detector s = detector self ->
             _process_with_yolo s frame =
             Ok (_process_with_trackers (with_detector s d) frame)).
  { intros s Hs. unfold _process_with_yolo. rewrite Hs, Hd. reflexivity. }
  assert (Hp : need_yolo (counted self) = Ok true ->
               process_frame self frame =
               Ok (fst (_process_with_trackers (counted self) frame),
                   with_detector
                     (_cleanup_inactive
                        (snd (_process_with_trackers (counted self) frame)))
                     d)).
  { intros Hn. rewrite process_frame_unfold, Hn. cbn [bind].
    rewrite (Hy (counted self) eq_refl). cbn [bind].
    rewrite _process_with_trackers_detector. reflexivity. }
  split; [apply Hy; reflexivity|]. split; [exact Hp|].
  intros Hn Hlive results self' H k p Hin Hwhy.
  rewrite (Hp Hn) in H. injection H as _ <-.
  rewrite _process_with_trackers_spec. cbn [snd].
  destruct Hlive as (Hnd & Hact & _).
  rewrite _cleanup_inactive_filter.
  - cbn [tracked_persons with_detector with_persons counted].
    apply (advanced_survives _ frame _ k p Hin).
    + rewrite Forall_forall in Hact. apply (Hact _ Hin).
    + right. exact Hwhy.
  - cbn [tracked_persons with_persons counted].
    rewrite keys_map_advanced. exact Hnd.
Qed.

(** On a live set of active tracks the tracker-only pass advances every
    track. *)
Lemma tracker_pass_all (frame : Frame) (ps : dict (TrackedPerson T)) :
  Forall (fun kp => is_active (snd kp) = true) ps ->
  flat_map (reported (fun _ p => is_active p) frame) ps
  = flat_map
      (fun kp =>
         if fst (update_with_tracker (snd kp) frame)
         then [(fst kp, bbox (snd (update_with_tracker (snd kp) frame)),
                confidence (snd (update_with_tracker (snd kp) frame)),
                "tracker"%string)]
         else []) ps /\
  map (advanced (fun _ p => is_active p) frame) ps
  = map (fun kp => (fst kp, snd (update_with_tracker (snd kp) frame))) ps.
Proof.
  induction 1 as [| kp rest Ha _ [IH1 IH2]]; [split; reflexivity|].
  cbn [flat_map map]. rewrite IH1, IH2.
  unfold reported, advanced. rewrite Ha. split; reflexivity.
Qed.

Lemma tracker_only_pass (self : MultiPersonTracker T D) (frame : Frame) :
  live_ok self ->
  fst (_process_with_trackers (counted self) frame)
  = flat_map
      (fun kp =>
         if fst (update_with_tracker (snd kp) frame)
         then [(fst kp, bbox (snd (update_with_tracker (snd kp) frame)),
                confidence (snd (update_with_tracker (snd kp) frame)),
                "tracker"%string)]
         else []) (tracked_persons self) /\
  tracked_persons
    (_cleanup_inactive (snd (_process_with_trackers (counted self) frame)))
  = filter (fun kp => is_active (snd kp))
      (map (fun kp => (fst kp, snd (update_with_tracker (snd kp) frame)))
         (tracked_persons self)) /\
  next_id
    (_cleanup_inactive (snd (_process_with_trackers (counted self) frame)))
  = next_id self.
Proof.
  intros (Hnd & Hact & _).
  destruct (tracker_pass_all frame (tracked_persons self) Hact) as [H1 H2].
  rewrite _process_with_trackers_spec. cbn [fst snd tracked_persons counted].
  split; [exact H1|].
  rewrite _cleanup_inactive_filter.
  - cbn [tracked_persons with_persons counted next_id]. rewrite H2.
    split; reflexivity.
  - cbn [tracked_persons with_persons counted]. rewrite keys_map_advanced.
    exact Hnd.
Qed.

(** C7. When the detector path is taken and the detector returns no
    detection, [process_frame] does not raise and does what it does on a
    tracker-only frame: every track of the live set is advanced by its
    own tracker ([update_with_tracker]), the result has one tracker entry
    for each track whose update succeeded, with the box and confidence
    after that update, and no other entry; the live set afterwards holds
    the advanced tracks that are still active, so that a track is gone
    only if its own update failed for the eleventh time; no identity is
    issued.  A tracker-only frame on the same live set gives the same
    result and the same live set. *)
Theorem empty_detection_falls_through (self : MultiPersonTracker T D)
    (frame : Frame) (d : D) :
  detect (detector self) frame = ([], d) ->
  _process_with_yolo self frame =
    Ok (_process_with_trackers (with_detector self d) frame) /\
  (need_yolo (counted self) = Ok true ->
   process_frame self frame =
     Ok (fst (_process_with_trackers (counted self) frame),
         with_detector
           (_cleanup_inactive (snd (_process_with_trackers (counted self) frame)))
           d)) /\
  (need_yolo (counted self) = Ok true ->
   live_ok self ->
   forall results self',
     process_frame self frame = Ok (results, self') ->
     forall k p,
       In (k, p) (tracked_persons self) ->
       fst (update_with_tracker p frame) = true \/ lost_frames p < 10 ->
       In k (keys (tracked_persons self'))) /\
  (need_yolo (counted self) = Ok true ->
   live_ok self ->
   exists results self',
     process_frame self frame = Ok (results, self') /\
     results
     = flat_map
         (fun kp =>
            if fst (update_with_tracker (snd kp) frame)
            then [(fst kp, bbox (snd (update_with_tracker (snd kp) frame)),
                   confidence (snd (update_with_tracker (snd kp) frame)),
                   "tracker"%string)]
            else []) (tracked_persons self) /\
     tracked_persons self'
     = filter (fun kp => is_active (snd kp))
         (map (fun kp => (fst kp, snd (update_with_tracker (snd kp) frame)))
            (tracked_persons self)) /\
     next_id self' = next_id self /\
     forall (other : MultiPersonTracker T D) other_results other',
       tracked_persons other = tracked_persons self ->
       need_yolo (counted other) = Ok false ->
       process_frame other frame = Ok (other_results, other') ->
       other_results = results /\
       tracked_persons other' = tracked_persons self').
Proof.
  intros Hd.
  destruct (empty_detection_branch self frame d Hd) as (H1 & H2 & H3).
  split; [exact H1|]. split; [exact H2|]. split; [exact H3|].
  intros Hn Hlive.
  destruct (tracker_only_pass self frame Hlive) as (Hr & Hp & Hnx).
  eexists _, _. split; [apply (H2 Hn)|].
  split; [exact Hr|].
  split; [exact Hp|]. split; [exact Hnx|].
  intros other r' other' Hsame Hno Hrun.
  assert (Hlive' : NoDup (keys (tracked_persons other))
                   /\ Forall (fun kp => is_active (snd kp) = true)
                        (tracked_persons other)).
  { rewrite Hsame. destruct Hlive as (Hnd & Hact & _). split; assumption. }
  destruct Hlive' as [Hnd' Hact'].
  rewrite process_frame_unfold, Hno in Hrun. cbn [bind] in Hrun.
  rewrite _process_with_trackers_spec in Hrun. injection Hrun as <- <-.
  destruct (tracker_pass_all frame (tracked_persons other) Hact') as [E1 E2].
  cbn [tracked_persons with_detector counted]. rewrite Hr, Hp. split.
  - rewrite E1, Hsame. reflexivity.
  - rewrite _cleanup_inactive_filter.
    + cbn [tracked_persons with_persons counted]. rewrite E2, Hsame.
      reflexivity.
    + cbn [tracked_persons with_persons counted]. rewrite keys_map_advanced.
      exact Hnd'.
Qed.

(** C4. A failed update that takes [lost_frames] above 10 clears
    [is_active]; after every [process_frame], on either path, the live
    set holds active tracks only; every entry of the frame's result is
    for a track of that live set; and a track that left the live set in
    this step is in no result of any later frame. *)
Theorem terminated_tracks_are_never_emitted (self : MultiPersonTracker T D)
    (frame : Frame) (results : list Result) (self' : MultiPersonTracker T D) :
  live_ok self ->
  process_frame self frame = Ok (results, self') ->
  (forall (p : TrackedPerson T) (f : Frame),
     fst (update_with_tracker p f) = false ->
     lost_frames (snd (update_with_tracker p f)) > 10 ->
     is_active (snd (update_with_tracker p f)) = false) /\
  Forall (fun kp => is_active (snd kp) = true) (tracked_persons self') /\
  (forall r, In r results ->
     exists p, In (result_id r, p) (tracked_persons self') /\
               is_active p = true) /\
  (forall k,
     In k (keys (tracked_persons self)) ->
     ~ In k (keys (tracked_persons self')) ->
     forall frames res self'',
       run_frames self' frames = Ok (res, self'') ->
       Forall (fun later => ~ In k (map result_id later)) res).
Proof.
  intros Hlive H.
  destruct (process_frame_step self frame results self' Hlive H)
    as (Hlive' & _ & Hn & _ & _ & Hres & _).
  split; [|split; [|split]].
  - intros p f Hfail Hlost.
    destruct (update_with_tracker_lost p f Hfail) as [Hl ->].
    rewrite Hl in Hlost.
    destruct (Z.gtb_spec (lost_frames p + 1) 10); [reflexivity | lia].
  - apply Hlive'.
  - intros r Hr.
    assert (Hin : In (result_id r) (keys (tracked_persons self'))).
    { apply Hres. apply in_map. exact Hr. }
    apply In_keys in Hin. destruct Hin as [p Hp]. exists p.
    split; [exact Hp|].
    destruct Hlive' as (_ & Hact & _). rewrite Forall_forall in Hact.
    apply (Hact _ Hp).
  - intros k Hin Hout frames res self'' Hrun.
    apply (absent_stays_absent frames self' res self'' k Hlive' Hrun);
      [|exact Hout].
    destruct Hlive as (_ & _ & Hk & _). rewrite Forall_forall in Hk.
    specialize (Hk _ Hin). lia.
Qed.

(** When [init] answers, what it answers is discarded.  On a frame that
    goes through the detector, [process_frame] does not raise and drops
    no detection: each one has a detector entry in the frame's result,
    for a track that is in the live set after the frame, whether or not
    the capability accepted its seed region. *)
Lemma every_detection_is_registered (self : MultiPersonTracker T D)
    (frame : Frame) (dets : list Detection) (d : D) :
  live_ok self ->
  need_yolo (counted self) = Ok true ->
  detect (detector self) frame = (dets, d) ->
  exists results self',
    process_frame self frame = Ok (results, self') /\
    forall det, In det dets ->
      exists k p,
        In (k, det_box det, det_conf det, "yolo"%string) results /\
        In (k, p) (tracked_persons self') /\
        is_active p = true.
Proof.
  intros Hlive Hn Hd.
  rewrite process_frame_unfold, Hn. cbn [bind].
  destruct (is_empty dets) eqn:He.
  - destruct dets; [|discriminate].
    unfold _process_with_yolo. cbn [detector counted]. rewrite Hd.
    cbn [is_empty bind].
    destruct (_process_with_trackers _ frame) as [r s].
    eexists _, _. split; [reflexivity|]. intros det [].
  - destruct (associate_spec (with_detector (counted self) d) frame dets)
      as (st & Hst & _).
    destruct (_process_with_yolo_spec (counted self) frame dets d Hd He
                (live_ok_keys_lt self Hlive)) as (st' & _ & _ & Heq).
    cbv zeta in Heq.
    destruct (_process_with_yolo (counted self) frame) as [[r s] | e] eqn:Hy;
      [|discriminate].
    clear Heq st'. cbn [bind].
    exists r, (_cleanup_inactive s). split; [reflexivity|].
    intros det Hin.
    destruct (yolo_step (counted self) frame dets d st r s
                (live_ok_counted self Hlive) Hd He Hst Hy)
      as (Hlive' & _ & _ & _ & _ & Hres & _ & Hall).
    destruct (Hall det Hin) as [k Hk]. exists k.
    assert (Hkin : In k (keys (tracked_persons (_cleanup_inactive s)))).
    { apply Hres. apply (in_map result_id) in Hk. exact Hk. }
    apply In_keys in Hkin. destruct Hkin as [p Hp]. exists p.
    split; [exact Hk|]. split; [exact Hp|].
    destruct Hlive' as (_ & Hact & _). rewrite Forall_forall in Hact.
    apply (Hact _ Hp).
Qed.

End TrackerClaims.

(** ** MultiPersonTracker: the claims on the synthetic video *)

Module TrackerExamples.
Import Synthetic.

Lemma live_ok_tracker_after (iv : Z) (frames : list SynFrame) :
  live_ok (tracker_after iv frames).
Proof.
  unfold tracker_after.
  destruct (run_frames (fresh_tracker iv) frames) as [[res s] | e] eqn:H.
  - apply (run_frames_spec frames (fresh_tracker iv) res s).
    + apply live_ok_init.
    + exact H.
  - apply live_ok_init.
Qed.

(** The tracker holds track 1; frame 2 is a redetection frame on which the
    detector finds nothing and the tracker follows: the track is advanced
    a second time. *)
Lemma empty_detection_falls_through_witness :
  exists results self',
    process_frame (tracker_after 2 [still_frame 1]) (empty_frame 2)
      = Ok (results, self') /\
    map result_method results = ["tracker"%string] /\
    map (fun kp => (fst kp, frames_since_detection (snd kp)))
      (tracked_persons (tracker_after 2 [still_frame 1])) = [(1, 1)] /\
    map (fun kp => (fst kp, frames_since_detection (snd kp)))
      (tracked_persons self') = [(1, 2)].
Proof.
  destruct (empty_detection_falls_through
              (tracker_after 2 [still_frame 1]) (empty_frame 2) [1; 2])
    as (_ & _ & _ & Hadv).
  - vm_compute. reflexivity.
  - destruct Hadv as (results & self' & Hp & Hr & Ht & _).
    + vm_compute. reflexivity.
    + apply live_ok_tracker_after.
    + exists results, self'. split; [exact Hp|].
      split; [rewrite Hr; vm_compute; reflexivity|].
      split; [vm_compute; reflexivity|].
      rewrite Ht. vm_compute. reflexivity.
Defined.

(** Track 1 has lost its subject on ten frames; frame 12 is the eleventh
    loss. *)
Lemma terminated_tracks_are_never_emitted_witness :
  keys (tracked_persons (tracker_after 30 (still_frame 1 :: blank_video 2 10)))
    = [1] /\
  exists results self',
    process_frame (tracker_after 30 (still_frame 1 :: blank_video 2 10))
      (blank_frame 12) = Ok (results, self') /\
    tracked_persons self' = [] /\
    forall res self'',
      run_frames self' (still_video 13 20) = Ok (res, self'') ->
      Forall (fun later => ~ In 1 (map result_id later)) res.
Proof.
  split; [reflexivity|].
  eexists _, _. split; [vm_compute; reflexivity|].
  split; [reflexivity|].
  intros res self'' Hrun.
  edestruct (terminated_tracks_are_never_emitted
               (tracker_after 30 (still_frame 1 :: blank_video 2 10))
               (blank_frame 12)) as (_ & _ & _ & Hlater).
  - apply live_ok_tracker_after.
  - vm_compute. reflexivity.
  - apply (Hlater 1) with (frames := still_video 13 20) (self'' := self'').
    + vm_compute. left. reflexivity.
    + vm_compute. intros [].
    + exact Hrun.
Defined.

End TrackerExamples.

(** ** The redetection decision *)

Section Cadence.
Context {Frame T D : Type} {cv2 : Cv2 Frame T} {yolo : PersonDetector Frame D}.

Lemma need_yolo_due (self : MultiPersonTracker T D) :
  frame_count self = 0 \/ redetect_interval self <> 0 ->
  need_yolo (counted self) = Ok (redetection_due self).
Proof.
  intros Hcfg. rewrite need_yolo_counted. unfold redetection_due.
  destruct (Z.eqb_spec (frame_count self + 1) 1) as [E | E]; [reflexivity|].
  destruct Hcfg as [Hc | Hc]; [lia|].
  unfold py_mod. destruct (Z.eqb_spec (redetect_interval self) 0) as [E0 | _];
    [contradiction|].
  cbn [bind orb].
  destruct (_ mod _ =? 0); [reflexivity|].
  cbn [orb]. rewrite is_empty_length. reflexivity.
Qed.

Lemma process_frame_detector (self : MultiPersonTracker T D) (frame : Frame)
    (results : list Result) (self' : MultiPersonTracker T D) :
  frame_count self = 0 \/ redetect_interval self <> 0 ->
  process_frame self frame = Ok (results, self') ->
  detector self' =
  if redetection_due self then snd (detect (detector self) frame)
  else detector self.
Proof.
  intros Hcfg H. rewrite process_frame_unfold, (need_yolo_due self Hcfg) in H.
  cbn [bind] in H. destruct (redetection_due self).
  - destruct (_process_with_yolo (counted self) frame) as [[r s] | e] eqn:Hy;
      cbn [bind] in H; [|discriminate].
    injection H as _ <-.
    apply _process_with_yolo_detector in Hy. exact Hy.
  - cbn [bind] in H. rewrite _process_with_trackers_spec in H.
    injection H as _ <-. reflexivity.
Qed.

End Cadence.

(** C3. [process_frame] goes through the detector exactly when the frame
    is the first since the start or the last reset, or the incremented
    counter is a multiple of [redetect_interval], or the live set is empty;
    otherwise it takes the tracker-only pass, which leaves the detector
    alone.  On the still video of 90 frames, with an interval of 30, the
    detector is called on frames 1, 30, 60 and 90 and on no other, and
    these are the frames whose result has a detector entry. *)
Theorem detector_cadence :
  (forall (Frame T D : Type) (cv2 : Cv2 Frame T)
          (yolo : PersonDetector Frame D)
          (self : MultiPersonTracker T D) (frame : Frame),
     frame_count self = 0 \/ redetect_interval self <> 0 ->
     need_yolo (counted self) = Ok (redetection_due self) /\
     process_frame self frame =
       (if redetection_due self then
          '(r, s) <- _process_with_yolo (counted self) frame ;;
          Ok (r, _cleanup_inactive s)
        else
          Ok (fst (_process_with_trackers (counted self) frame),
              _cleanup_inactive
                (snd (_process_with_trackers (counted self) frame)))) /\
     exists results self',
       process_frame self frame = Ok (results, self') /\
       detector self' =
         if redetection_due self then snd (detect (detector self) frame)
         else detector self) /\
  (exists res self',
     run_frames (Synthetic.fresh_tracker 30) (Synthetic.still_video 1 90)
       = Ok (res, self') /\
     detector self' = [1; 30; 60; 90] /\
     map fst (filter (fun ir => detector_frame (snd ir)) (enumerate_from 1 res))
       = [1; 30; 60; 90] /\
     keys (tracked_persons self') = [1]).
Proof.
  split.
  - intros Frame T D cv2 yolo self frame Hcfg.
    split; [apply need_yolo_due; exact Hcfg|]. split.
    + rewrite process_frame_unfold, (need_yolo_due self Hcfg). cbn [bind].
      destruct (redetection_due self); [reflexivity|]. cbn [bind].
      destruct (_process_with_trackers (counted self) frame). reflexivity.
    + destruct (process_frame_total self frame Hcfg) as (results & self' & H).
      exists results, self'. split; [exact H|].
      apply (process_frame_detector self frame results self' Hcfg H).
  - eexists _, _. split; [vm_compute; reflexivity|].
    split; [reflexivity|]. split; [vm_compute; reflexivity | reflexivity].
Qed.

Lemma detector_cadence_witness :
  need_yolo (counted (Synthetic.tracker_after 30 (Synthetic.still_video 1 29)))
    = Ok true /\
  need_yolo (counted (Synthetic.tracker_after 30 (Synthetic.still_video 1 30)))
    = Ok false.
Proof.
  destruct detector_cadence as [Hgen _]. split.
  - destruct (Hgen _ _ _ _ _
                (Synthetic.tracker_after 30 (Synthetic.still_video 1 29))
                (Synthetic.still_frame 30)) as [H _].
    + right. vm_compute. discriminate.
    + exact H.
  - destruct (Hgen _ _ _ _ _
                (Synthetic.tracker_after 30 (Synthetic.still_video 1 30))
                (Synthetic.still_frame 31)) as [H _].
    + right. vm_compute. discriminate.
    + exact H.
Defined.

(** ** video_processor.py: lemmas *)

Lemma count_method_pos (m : string) (results : list Result) :
  (count_method m results >? 0) = has_method m results.
Proof.
  unfold count_method, has_method.
  induction results as [| r rest IH]; [reflexivity|].
  cbn [filter existsb]. destruct (String.eqb (result_method r) m).
  - cbn [List.length orb]. apply Z.gtb_lt. lia.
  - cbn [orb]. exact IH.
Qed.

Lemma count_method_zero (m : string) (results : list Result) :
  (count_method m results =? 0) = negb (has_method m results).
Proof.
  rewrite <- count_method_pos. unfold count_method.
  destruct (List.length _); [reflexivity|].
  symmetry. apply negb_false_iff. apply Z.gtb_lt. lia.
Qed.

Section PipelineFacts.
Context {Frame T D : Type} {cv2 : Cv2 Frame T} {yolo : PersonDetector Frame D}.

Lemma run_frames_nil_inv (frames : list Frame) (self self' : MultiPersonTracker T D) :
  live_ok self ->
  run_frames self frames = Ok ([], self') -> self' = self.
Proof.
  intros Hlive H.
  destruct (run_frames_spec frames self [] self' Hlive H)
    as (_ & _ & _ & _ & _ & Hlen).
  destruct frames; [|discriminate].
  cbn in H. injection H as <-. reflexivity.
Qed.

(** The loop of [process_video] does not raise when the redetection
    interval is not 0; it hands [handed_frames] to the tracker, one after
    the other, and its statistics count them. *)
Lemma frames_loop_spec (total : Z) (writer progress_callback preview_callback : bool)
    (skip_frames : Z) :
  forall (cap : list (Tick Frame)) (fc : Z) (self : VideoProcessor T D)
         (out : Sinks Frame),
    live_ok (multi_tracker self) ->
    redetect_interval (multi_tracker self) <> 0 ->
    exists self' out' res,
      frames_loop cap fc total writer progress_callback preview_callback
        skip_frames self out = Ok (self', out') /\
      run_frames (multi_tracker self)
        (handed_frames cap fc skip_frames (should_stop self))
        = Ok (res, multi_tracker self') /\
      total_frames (stats self')
        = total_frames (stats self) + Z.of_nat (List.length res) /\
      yolo_frames (stats self')
        = yolo_frames (stats self)
          + Z.of_nat (List.length (filter detector_frame res)) /\
      tracker_frames (stats self')
        = tracker_frames (stats self)
          + Z.of_nat (List.length (filter tracker_frame res)) /\
      total_persons (stats self')
        = (if is_empty res then total_persons (stats self)
           else next_id (multi_tracker self') - 1) /\
      is_processing self' = is_processing self.
Proof.
  induction cap as [| tk cap IH]; intros fc self out Hlive Hiv.
  - exists self, out, []. cbn [frames_loop handed_frames].
    destruct (should_stop self); cbn; rewrite !Z.add_0_r; repeat split.
  - cbn [frames_loop handed_frames].
    destruct (should_stop self) eqn:Es.
    { exists self, out, []. cbn. rewrite !Z.add_0_r. repeat split. }
    set (self1 := if tick_stop tk then stop self else self).
    assert (Hmt : multi_tracker self1 = multi_tracker self)
      by (subst self1; destruct (tick_stop tk); reflexivity).
    assert (Hst : stats self1 = stats self)
      by (subst self1; destruct (tick_stop tk); reflexivity).
    assert (Hip : is_processing self1 = is_processing self)
      by (subst self1; destruct (tick_stop tk); reflexivity).
    assert (Hss : should_stop self1 = tick_stop tk).
    { subst self1. destruct (tick_stop tk); [reflexivity | exact Es]. }
    assert (Hskip :
      (if skip_frames >? 0
       then r <- py_mod (fc + 1 - 1) (skip_frames + 1) ;; Ok (negb (r =? 0))
       else Ok false)
      = Ok ((skip_frames >? 0)
            && negb ((fc + 1 - 1) mod (skip_frames + 1) =? 0))).
    { destruct (Z.gtb_spec skip_frames 0) as [Hpos | Hnpos]; [|reflexivity].
      unfold py_mod.
      destruct (Z.eqb_spec (skip_frames + 1) 0) as [E | _]; [lia|].
      reflexivity. }
    rewrite Hskip. cbn [bind].
    destruct ((skip_frames >? 0)
              && negb ((fc + 1 - 1) mod (skip_frames + 1) =? 0)).
    + destruct (IH (fc + 1) self1 out) as (self' & out' & res & H).
      * rewrite Hmt. exact Hlive.
      * rewrite Hmt. exact Hiv.
      * exists self', out', res. rewrite Hmt, Hst, Hip, Hss in H. exact H.
    + destruct (process_frame_total (multi_tracker self) (tick_frame tk)
                  (or_intror Hiv)) as (results & mt & Hp).
      rewrite Hmt, Hp. cbn [bind].
      destruct (process_frame_step _ _ _ _ Hlive Hp)
        as (Hlive1 & _ & _ & _ & Hiv1 & _ & _).
      assert (Hnext :
        forall (self2 : VideoProcessor T D) (out2 : Sinks Frame),
          multi_tracker self2 = mt ->
          should_stop self2 = tick_stop tk ->
          is_processing self2 = is_processing self ->
          total_frames (stats self2) = total_frames (stats self) + 1 ->
          yolo_frames (stats self2)
            = yolo_frames (stats self)
              + (if detector_frame results then 1 else 0) ->
          tracker_frames (stats self2)
            = tracker_frames (stats self)
              + (if tracker_frame results then 1 else 0) ->
          total_persons (stats self2) = next_id mt - 1 ->
          exists self' out' res,
            frames_loop cap (fc + 1) total writer progress_callback
              preview_callback skip_frames self2 out2 = Ok (self', out') /\
            ('(more, s) <-
               run_frames mt
                 (handed_frames cap (fc + 1) skip_frames (tick_stop tk)) ;;
             Ok (results :: more, s)) = Ok (res, multi_tracker self') /\
            total_frames (stats self')
              = total_frames (stats self) + Z.of_nat (List.length res) /\
            yolo_frames (stats self')
              = yolo_frames (stats self)
                + Z.of_nat (List.length (filter detector_frame res)) /\
            tracker_frames (stats self')
              = tracker_frames (stats self)
                + Z.of_nat (List.length (filter tracker_frame res)) /\
            total_persons (stats self')
              = (if is_empty res then total_persons (stats self)
                 else next_id (multi_tracker self') - 1) /\
            is_processing self' = is_processing self).
      { intros self2 out2 H2mt H2ss H2ip H2t H2y H2k H2p.
        destruct (IH (fc + 1) self2 out2) as
          (self' & out' & more & Hl & Hr & Ht & Hy & Hk & Hpn & Hi).
        - rewrite H2mt. exact Hlive1.
        - rewrite H2mt, Hiv1. exact Hiv.
        - exists self', out', (results :: more).
          rewrite H2mt, H2ss in Hr.
          split; [exact Hl|]. rewrite Hr. cbn [bind].
          split; [reflexivity|].
          cbn [List.length filter is_empty].
          split; [rewrite Ht, H2t; lia|].
          split.
          { rewrite Hy, H2y. destruct (detector_frame results);
              cbn [List.length]; lia. }
          split.
          { rewrite Hk, H2k. destruct (tracker_frame results);
              cbn [List.length]; lia. }
          split; [|congruence].
          rewrite Hpn. destruct more as [| m more']; [|reflexivity].
          cbn [is_empty]. rewrite H2p.
          apply (run_frames_nil_inv _ mt (multi_tracker self') Hlive1) in Hr.
          rewrite Hr. reflexivity. }
      rewrite Hst.
      assert (Hy : (if count_method "yolo" results >? 0 then 1 else 0)
                   = (if detector_frame results then 1 else 0)).
      { rewrite count_method_pos. reflexivity. }
      assert (Hk : (if (count_method "tracker" results >? 0)
                       && (count_method "yolo" results =? 0) then 1 else 0)
                   = (if tracker_frame results then 1 else 0)).
      { rewrite count_method_pos, count_method_zero. reflexivity. }
      cbn [run_frames]. rewrite Hp. cbn [bind].
      destruct progress_callback.
      * apply Hnext;
          cbn [multi_tracker should_stop is_processing stats];
          rewrite ?Hss, ?Hip; try reflexivity;
          destruct (Qgtb (tick_elapsed tk) 0);
          cbn [total_frames yolo_frames tracker_frames total_persons];
          rewrite ?Hy, ?Hk; reflexivity.
      * apply Hnext;
          cbn [multi_tracker should_stop is_processing stats
                 total_frames yolo_frames tracker_frames total_persons];
          rewrite ?Hss, ?Hip, ?Hy, ?Hk; reflexivity.
Qed.

Lemma handed_frames_stopped (cap : list (Tick Frame)) (fc skip_frames : Z) :
  handed_frames cap fc skip_frames true = [].
Proof. destruct cap; reflexivity. Qed.

(** Nothing that is read after the stop flag was set is handed on. *)
Lemma handed_frames_until_stop (skip_frames : Z) (cap : list (Tick Frame)) :
  forall fc,
    handed_frames cap fc skip_frames false
    = handed_frames (until_stop cap) fc skip_frames false.
Proof.
  induction cap as [| tk cap IH]; intros fc; [reflexivity|].
  cbn [until_stop]. destruct (tick_stop tk) eqn:Es.
  - cbn [handed_frames]. rewrite Es, !handed_frames_stopped. reflexivity.
  - cbn [handed_frames]. rewrite Es, IH. reflexivity.
Qed.

Lemma handed_frames_no_skip (cap : list (Tick Frame)) :
  forall fc,
    handed_frames cap fc 0 false = map tick_frame (until_stop cap).
Proof.
  induction cap as [| tk cap IH]; intros fc; [reflexivity|].
  cbn [handed_frames until_stop andb Z.gtb Z.compare].
  destruct (tick_stop tk).
  - rewrite handed_frames_stopped. reflexivity.
  - rewrite IH. reflexivity.
Qed.

(** A call of [process_video] on a capture that opens, with a
    redetection interval that is not 0. *)
Lemma process_video_spec (self : VideoProcessor T D) (cap : VideoCapture Frame)
    (output_path progress_callback preview_callback : bool)
    (skip_frames : Z) (stop_early : bool) :
  isOpened cap = true ->
  redetect_interval (multi_tracker self) <> 0 ->
  (output_path = true -> skip_frames + 1 <> 0) ->
  exists self' out res,
    process_video self cap output_path progress_callback preview_callback
      skip_frames stop_early
    = mkOutcome (Ok (stats self', self', out)) true
        (if output_path then Some true else None) /\
    run_frames (reset (multi_tracker self))
      (handed_frames (reads cap) 0 skip_frames stop_early)
      = Ok (res, multi_tracker self') /\
    total_frames (stats self') = Z.of_nat (List.length res) /\
    yolo_frames (stats self')
      = Z.of_nat (List.length (filter detector_frame res)) /\
    tracker_frames (stats self')
      = Z.of_nat (List.length (filter tracker_frame res)) /\
    total_persons (stats self') = next_id (multi_tracker self') - 1 /\
    is_processing self' = false.
Proof.
  intros Hopen Hiv Hskip. unfold process_video. rewrite Hopen. cbn [negb].
  assert (Hw : (if output_path
                then effective_fps <- py_fdiv (CAP_PROP_FPS cap) (skip_frames + 1) ;;
                     Ok true
                else Ok false) = Ok output_path).
  { destruct output_path; [|reflexivity]. unfold py_fdiv.
    destruct (Z.eqb_spec (skip_frames + 1) 0) as [E | _]; [|reflexivity].
    exfalso. apply (Hskip eq_refl). exact E. }
  rewrite Hw.
  set (self0 := mkVideoProcessor (reset (multi_tracker self)) true false
                  (mkStats 0 0 0 0 0%Q)).
  set (self1 := if stop_early then stop self0 else self0).
  assert (Hmt : multi_tracker self1 = reset (multi_tracker self))
    by (subst self1; destruct stop_early; reflexivity).
  assert (Hst : stats self1 = mkStats 0 0 0 0 0%Q)
    by (subst self1; destruct stop_early; reflexivity).
  assert (Hss : should_stop self1 = stop_early)
    by (subst self1; destruct stop_early; reflexivity).
  destruct (frames_loop_spec (CAP_PROP_FRAME_COUNT cap) output_path
              progress_callback preview_callback skip_frames (reads cap) 0
              self1 (mkSinks [] [] []))
    as (self' & out & res & Hl & Hr & Ht & Hy & Hk & Hp & _).
  - rewrite Hmt. apply live_ok_reset.
  - rewrite Hmt. exact Hiv.
  - rewrite Hl.
    exists (mkVideoProcessor (multi_tracker self') false (should_stop self')
              (stats self')), out, res.
    cbn [stats multi_tracker is_processing].
    rewrite Hmt, Hss in Hr. rewrite Hst in Ht, Hy, Hk, Hp.
    cbn [total_frames yolo_frames tracker_frames total_persons] in *.
    split; [reflexivity|]. split; [exact Hr|].
    split; [exact Ht|]. split; [exact Hy|]. split; [exact Hk|].
    split; [|reflexivity].
    rewrite Hp. destruct res as [| r res']; [|reflexivity].
    cbn [is_empty].
    apply (run_frames_nil_inv _ _ _ (live_ok_reset (multi_tracker self))) in Hr.
    rewrite Hr. reflexivity.
Qed.

(** C8. Every processed frame adds one to [total_frames]; it adds one to
    [yolo_frames] exactly when its result has a detector entry, and
    otherwise one to [tracker_frames] exactly when its result has a
    tracker entry; [total_persons] is the last identity the tracker
    issued, identities being issued from 1 upwards. *)
Theorem pipeline_statistics (self : VideoProcessor T D)
    (cap : VideoCapture Frame)
    (output_path progress_callback preview_callback : bool)
    (skip_frames : Z) (stop_early : bool) :
  isOpened cap = true ->
  redetect_interval (multi_tracker self) <> 0 ->
  (output_path = true -> skip_frames + 1 <> 0) ->
  let processed := handed_frames (reads cap) 0 skip_frames stop_early in
  let issued := created_in_run (reset (multi_tracker self)) processed in
  exists stats self' out res,
    returned (process_video self cap output_path progress_callback
                preview_callback skip_frames stop_early)
      = Ok (stats, self', out) /\
    run_frames (reset (multi_tracker self)) processed
      = Ok (res, multi_tracker self') /\
    total_frames stats = Z.of_nat (List.length processed) /\
    yolo_frames stats = Z.of_nat (List.length (filter detector_frame res)) /\
    tracker_frames stats = Z.of_nat (List.length (filter tracker_frame res)) /\
    issued = ids_from 1 (List.length issued) /\
    total_persons stats = Z.of_nat (List.length issued).
Proof.
  intros Hopen Hiv Hskip processed issued.
  destruct (process_video_spec self cap output_path progress_callback
              preview_callback skip_frames stop_early Hopen Hiv Hskip)
    as (self' & out & res & Hpv & Hr & Ht & Hy & Hk & Hp & _).
  destruct (run_frames_spec _ _ _ _ (live_ok_reset (multi_tracker self)) Hr)
    as (_ & Hc & Hn & _ & _ & Hlen).
  exists (stats self'), self', out, res.
  rewrite Hpv. cbn [returned].
  split; [reflexivity|]. split; [exact Hr|].
  split; [rewrite Ht; f_equal; exact Hlen|].
  split; [exact Hy|]. split; [exact Hk|].
  split; [exact Hc|].
  rewrite Hp, Hn. cbn [next_id reset]. subst issued processed. lia.
Qed.

(** C9. The stop flag is tested before each read.  Once a [stop()] has
    landed, nothing more is read or processed: the loop ends, the capture
    and the writer are released, and [process_video] returns the
    statistics of the frames handled so far; it does not raise. *)
Theorem stop_ends_the_run (self : VideoProcessor T D)
    (cap : VideoCapture Frame)
    (output_path progress_callback preview_callback : bool)
    (skip_frames : Z) (stop_early : bool) :
  isOpened cap = true ->
  redetect_interval (multi_tracker self) <> 0 ->
  (output_path = true -> skip_frames + 1 <> 0) ->
  let outcome := process_video self cap output_path progress_callback
                   preview_callback skip_frames stop_early in
  let processed :=
    if stop_early then []
    else handed_frames (until_stop (reads cap)) 0 skip_frames false in
  exists stats self' out,
    returned outcome = Ok (stats, self', out) /\
    cap_released outcome = true /\
    writer_released outcome = (if output_path then Some true else None) /\
    is_processing self' = false /\
    handed_frames (reads cap) 0 skip_frames stop_early = processed /\
    total_frames stats = Z.of_nat (List.length processed) /\
    (skip_frames = 0 -> stop_early = false ->
     total_frames stats = Z.of_nat (List.length (until_stop (reads cap)))).
Proof.
  intros Hopen Hiv Hskip outcome processed.
  destruct (process_video_spec self cap output_path progress_callback
              preview_callback skip_frames stop_early Hopen Hiv Hskip)
    as (self' & out & res & Hpv & Hr & Ht & _ & _ & _ & Hip).
  destruct (run_frames_spec _ _ _ _ (live_ok_reset (multi_tracker self)) Hr)
    as (_ & _ & _ & _ & _ & Hlen).
  assert (Hproc : handed_frames (reads cap) 0 skip_frames stop_early = processed).
  { subst processed. destruct stop_early.
    - apply handed_frames_stopped.
    - apply handed_frames_until_stop. }
  exists (stats self'), self', out. subst outcome. rewrite Hpv.
  cbn [returned cap_released writer_released].
  split; [reflexivity|]. split; [reflexivity|]. split; [reflexivity|].
  split; [exact Hip|]. split; [exact Hproc|].
  split; [rewrite Ht, Hlen, Hproc; reflexivity|].
  intros -> ->. rewrite Ht, Hlen, handed_frames_no_skip, length_map.
  reflexivity.
Qed.

(** C10. From a reset (and a new tracker is as a reset one), the
    identities the tracker creates tracks for are 1, 2, 3, ... in the
    order of creation, [next_id] is one more than their number, and the
    [total_persons] that [process_video] returns, [next_id - 1], is the
    number of tracks created during the call. *)
Theorem identities_are_consecutive :
  (forall (d : D) (ty : TrackerType) (iv : Z) (thr : Q),
     reset (MultiPersonTracker_init (T := T) d ty iv thr)
     = MultiPersonTracker_init d ty iv thr) /\
  (forall (tracker : MultiPersonTracker T D) (frames : list Frame)
          (res : list (list Result)) (tracker' : MultiPersonTracker T D),
     run_frames (reset tracker) frames = Ok (res, tracker') ->
     let created := created_in_run (reset tracker) frames in
     created = map Z.of_nat (seq 1 (List.length created)) /\
     next_id tracker' = 1 + Z.of_nat (List.length created)) /\
  (forall (self : VideoProcessor T D) (cap : VideoCapture Frame)
          (output_path progress_callback preview_callback : bool)
          (skip_frames : Z) (stop_early : bool),
     isOpened cap = true ->
     redetect_interval (multi_tracker self) <> 0 ->
     (output_path = true -> skip_frames + 1 <> 0) ->
     exists stats self' out,
       returned (process_video self cap output_path progress_callback
                   preview_callback skip_frames stop_early)
         = Ok (stats, self', out) /\
       total_persons stats = next_id (multi_tracker self') - 1 /\
       total_persons stats
         = Z.of_nat
             (List.length
                (created_in_run (reset (multi_tracker self))
                   (handed_frames (reads cap) 0 skip_frames stop_early)))).
Proof.
  split; [reflexivity|]. split.
  - intros tracker frames res tracker' Hr created.
    destruct (run_frames_spec _ _ _ _ (live_ok_reset tracker) Hr)
      as (_ & Hc & Hn & _).
    cbn [next_id reset] in Hc, Hn. fold created in Hc, Hn.
    split; [|exact Hn].
    rewrite <- (ids_from_seq (List.length created) 1). exact Hc.
  - intros self cap output_path progress_callback preview_callback
      skip_frames stop_early Hopen Hiv Hskip.
    destruct (process_video_spec self cap output_path progress_callback
                preview_callback skip_frames stop_early Hopen Hiv Hskip)
      as (self' & out & res & Hpv & Hr & _ & _ & _ & Hp & _).
    destruct (run_frames_spec _ _ _ _ (live_ok_reset (multi_tracker self)) Hr)
      as (_ & _ & Hn & _).
    exists (stats self'), self', out. rewrite Hpv. cbn [returned].
    split; [reflexivity|]. split; [exact Hp|].
    rewrite Hp, Hn. cbn [next_id reset]. lia.
Qed.

End PipelineFacts.

(** ** video_processor.py: the claims on the synthetic video *)

Module PipelineExamples.
Import Synthetic.

(** Twenty frames, nobody stops the run. *)
Lemma pipeline_statistics_witness :
  exists stats self' out,
    returned (process_video (fresh_processor 30) (still_capture 20 0)
                false false false 0 false) = Ok (stats, self', out) /\
    total_frames stats = 20 /\
    yolo_frames stats = 1 /\
    tracker_frames stats = 19 /\
    total_persons stats = 1.
Proof.
  destruct (pipeline_statistics (fresh_processor 30) (still_capture 20 0)
              false false false 0 false)
    as (stats & self' & out & res & H & Hr & Ht & Hy & Hk & _ & Hp).
  - reflexivity.
  - vm_compute. discriminate.
  - discriminate.
  - exists stats, self', out. split; [exact H|].
    vm_compute in Hr. injection Hr as <- _.
    split; [exact Ht|]. split; [exact Hy|]. split; [exact Hk | exact Hp].
Defined.

(** Twenty frames; [stop()] is called while the fifth is handled. *)
Lemma stop_ends_the_run_witness :
  exists stats self' out,
    process_video (fresh_processor 30) (still_capture 20 5)
      true true true 0 false
    = mkOutcome (Ok (stats, self', out)) true (Some true) /\
    total_frames stats = 5 /\
    List.length (written out) = 5%nat.
Proof.
  destruct (stop_ends_the_run (fresh_processor 30) (still_capture 20 5)
              true true true 0 false)
    as (stats & self' & out & H & Hc & Hw & _ & _ & Ht & _).
  - reflexivity.
  - vm_compute. discriminate.
  - discriminate.
  - exists stats, self', out.
    assert (E : process_video (fresh_processor 30) (still_capture 20 5)
                  true true true 0 false
                = mkOutcome (Ok (stats, self', out)) true (Some true)).
    { destruct (process_video _ _ _ _ _ _ _) as [r c w].
      cbn [returned cap_released writer_released] in H, Hc, Hw.
      rewrite H, Hc, Hw. reflexivity. }
    split; [exact E|]. split; [exact Ht|].
    vm_compute in H. injection H as _ _ <-. reflexivity.
Defined.

Lemma identities_are_consecutive_witness :
  created_in_run (reset (fresh_tracker 30)) (still_video 1 40) = [1] /\
  exists stats self' out,
    returned (process_video (fresh_processor 30) (still_capture 20 0)
                false false false 0 false) = Ok (stats, self', out) /\
    total_persons stats = 1.
Proof.
  destruct (@identities_are_consecutive SynFrame StillTracker LoggingDetector
              _ _) as (_ & Hrun & Hpipe).
  split.
  - destruct (Hrun (fresh_tracker 30) (still_video 1 40)
                (fst (match run_frames (reset (fresh_tracker 30))
                              (still_video 1 40) with
                      | Ok rs => rs
                      | Raise _ => ([], fresh_tracker 30)
                      end))
                (tracker_after 30 (still_video 1 40))) as [Hc _].
    + vm_compute. reflexivity.
    + vm_compute. reflexivity.
  - destruct (Hpipe (fresh_processor 30) (still_capture 20 0)
                false false false 0 false)
      as (stats & self' & out & H & _ & Hp).
    + reflexivity.
    + vm_compute. discriminate.
    + discriminate.
    + exists stats, self', out. split; [exact H | exact Hp].
Defined.

End PipelineExamples.

(** ** TrackedPerson: more on updates *)

Section UpdateFacts.
Context {Frame T D : Type} {cv2 : Cv2 Frame T} {yolo : PersonDetector Frame D}.

Lemma update_with_tracker_won (p : TrackedPerson T) (frame : Frame) :
  fst (update_with_tracker p frame) = true ->
  let p' := snd (update_with_tracker p frame) in
  person_id p' = person_id p /\
  frames_since_detection p' = frames_since_detection p + 1 /\
  lost_frames p' = lost_frames p /\
  is_active p' = is_active p /\
  confidence p' = decayed (frames_since_detection p').
Proof.
  destruct (update_with_tracker_cases p frame)
    as [(x & y & w & h & t & E) | (b & t & E)].
  - rewrite (update_with_tracker_ok _ _ _ _ _ _ _ E). intros _. cbn.
    repeat split.
  - rewrite (update_with_tracker_fail _ _ _ _ E). discriminate.
Qed.

Lemma update_with_tracker_missed (p : TrackedPerson T) (frame : Frame) :
  fst (update_with_tracker p frame) = false ->
  let p' := snd (update_with_tracker p frame) in
  person_id p' = person_id p /\
  bbox p' = bbox p /\
  frames_since_detection p' = frames_since_detection p /\
  lost_frames p' = lost_frames p + 1 /\
  is_active p' = is_active p && (lost_frames p + 1 <=? 10) /\
  confidence p' = confidence p.
Proof.
  destruct (update_with_tracker_cases p frame)
    as [(x & y & w & h & t & E) | (b & t & E)].
  - rewrite (update_with_tracker_ok _ _ _ _ _ _ _ E). discriminate.
  - rewrite (update_with_tracker_fail _ _ _ _ E). intros _. cbn.
    repeat split.
    destruct (Z.gtb_spec (lost_frames p + 1) 10) as [H | H];
      destruct (Z.leb_spec (lost_frames p + 1) 10) as [H' | H'];
      try lia; destruct (is_active p); reflexivity.
Qed.

(** X1. Over any sequence of updates, successful or not,
    [frames_since_detection] counts the successes and [lost_frames] the
    failures, whether or not successes come in between; the track is
    inactive afterwards exactly if it was inactive before or there was a
    failure and the failures took [lost_frames] above 10; the confidence
    is the one of the last success, [max(0.3, 1.0 - n * 0.02)] computed
    in float arithmetic from the counter [n] it left. *)
Theorem losses_accumulate (frames : list Frame) :
  forall p : TrackedPerson T,
    let p' := fst (tracked_over p frames) in
    let won := fst (snd (tracked_over p frames)) in
    let lost := snd (snd (tracked_over p frames)) in
    (won + lost = List.length frames)%nat /\
    frames_since_detection p' = frames_since_detection p + Z.of_nat won /\
    lost_frames p' = lost_frames p + Z.of_nat lost /\
    is_active p' =
      (if Nat.eqb lost 0 then is_active p
       else is_active p && (lost_frames p + Z.of_nat lost <=? 10)) /\
    confidence p' =
      (if Nat.eqb won 0 then confidence p
       else decayed (frames_since_detection p')).
Proof.
  induction frames as [| frame rest IH]; intros p.
  - cbn. rewrite !Z.add_0_r. repeat split.
  - cbn [tracked_over].
    destruct (update_with_tracker p frame) as [ok p1] eqn:E.
    specialize (IH p1).
    destruct (tracked_over p1 rest) as [p2 [won lost]].
    cbn [fst snd] in IH. destruct IH as (Hlen & Hw & Hl & Ha & Hc).
    destruct ok.
    + destruct (update_with_tracker_won p frame) as (_ & H1 & H2 & H3 & H4);
        [rewrite E; reflexivity|].
      rewrite E in H1, H2, H3, H4. cbn [snd] in H1, H2, H3, H4.
      cbn [fst snd Nat.eqb List.length].
      split; [lia|]. split; [lia|]. split; [lia|].
      split; [rewrite Ha, H2, H3; reflexivity|].
      rewrite Hc. destruct won as [| won']; cbn [Nat.eqb]; [|reflexivity].
      rewrite H4, Hw. cbn. rewrite Z.add_0_r. reflexivity.
    + destruct (update_with_tracker_missed p frame)
        as (_ & _ & H1 & H2 & H3 & H4); [rewrite E; reflexivity|].
      rewrite E in H1, H2, H3, H4. cbn [snd] in H1, H2, H3, H4.
      cbn [fst snd Nat.eqb List.length].
      split; [lia|]. split; [lia|]. split; [lia|].
      split.
      * rewrite Ha, H3, H2. destruct lost as [| lost'].
        -- cbn [Nat.eqb Z.of_nat Pos.of_succ_nat]. reflexivity.
        -- cbn [Nat.eqb].
           destruct (is_active p); cbn [andb]; [|reflexivity].
           destruct (Z.leb_spec (lost_frames p + 1) 10);
             destruct (Z.leb_spec (lost_frames p + 1 + Z.of_nat (S lost')) 10);
             destruct (Z.leb_spec (lost_frames p + Z.of_nat (S (S lost'))) 10);
             try reflexivity; lia.
      * rewrite Hc, H4. destruct (Nat.eqb won 0); reflexivity.
Qed.

End UpdateFacts.

(** ** MultiPersonTracker: what a frame does to the tracks *)

Section TrackInvariants.
Context {Frame T D : Type} {cv2 : Cv2 Frame T} {yolo : PersonDetector Frame D}.

Lemma dict_update_Forall (P : Z * TrackedPerson T -> Prop) (k : Z)
    (f : TrackedPerson T -> TrackedPerson T) (d : dict (TrackedPerson T)) :
  (forall kp, P kp -> P (fst kp, f (snd kp))) ->
  Forall P d -> Forall P (dict_update k f d).
Proof.
  intros Hf. induction 1 as [| [k' v] rest Hv Hrest IH]; [constructor|].
  cbn [dict_update]. destruct (k =? k'); constructor; auto.
  apply (Hf (k', v) Hv).
Qed.

Lemma match_loop_Forall (P : Z * TrackedPerson T -> Prop) (frame : Frame)
    (ty : TrackerType) (thr : Q) :
  (forall kp b, P kp -> P (fst kp, update_with_detection (snd kp) b frame ty)) ->
  forall (dets : list (Z * Detection)) (st st' : Assoc),
    Forall P (a_persons st) ->
    match_loop dets frame ty thr st = Ok st' ->
    Forall P (a_persons st').
Proof.
  intros Hdet. induction dets as [| [i det] rest IH]; intros st st' HP H.
  - cbn in H. injection H as <-. exact HP.
  - cbn [match_loop] in H.
    destruct (best_track_loop _ _ _ _ _ _) as [[q o] | e]; cbn [bind] in H;
      [|discriminate].
    destruct o as [k |]; [|apply (IH st st' HP H)].
    apply (IH _ st') in H; [exact H|]. cbn [a_persons].
    apply dict_update_Forall; [|exact HP].
    intros kp Hkp. apply Hdet. exact Hkp.
Qed.

(** The parts of a frame's outcome: the entries of the association and of
    the creation loop, then those of a pass over the dictionary [ps]; the
    live set is what the cleanup keeps of the pass. *)
Lemma process_frame_decompose (self : MultiPersonTracker T D) (frame : Frame)
    (results : list Result) (self' : MultiPersonTracker T D) :
  live_ok self ->
  process_frame self frame = Ok (results, self') ->
  exists (confirmed : list Result) (ps : dict (TrackedPerson T))
         (guard : Z -> TrackedPerson T -> bool),
    results = confirmed ++ flat_map (reported guard frame) ps /\
    tracked_persons self'
      = filter active_entry (map (advanced guard frame) ps) /\
    Forall (fun r => result_method r = "yolo"%string) confirmed /\
    NoDup (keys ps) /\
    (need_yolo (counted self) = Ok false ->
     confirmed = [] /\ ps = tracked_persons self) /\
    (forall P : Z * TrackedPerson T -> Prop,
       (forall kp b,
          P kp ->
          P (fst kp, update_with_detection (snd kp) b frame (tracker_type self))) ->
       (forall k b, P (k, TrackedPerson_init k b frame (tracker_type self))) ->
       Forall P (tracked_persons self) -> Forall P ps).
Proof.
  intros Hlive H. rewrite process_frame_unfold in H.
  assert (Htrack :
    forall (s0 : MultiPersonTracker T D) r s,
      tracked_persons s0 = tracked_persons self ->
      _process_with_trackers s0 frame = (r, s) ->
      r = [] ++ flat_map (reported (fun _ p => is_active p) frame)
                  (tracked_persons self) /\
      tracked_persons (_cleanup_inactive s)
        = filter active_entry
            (map (advanced (fun _ p => is_active p) frame)
               (tracked_persons self))).
  { intros s0 r s Hs0 Hy. rewrite _process_with_trackers_spec in Hy.
    injection Hy as <- <-. rewrite Hs0. split; [reflexivity|].
    rewrite _cleanup_inactive_filter; [reflexivity|].
    cbn [tracked_persons with_persons]. rewrite keys_map_advanced.
    apply Hlive. }
  destruct (need_yolo (counted self)) as [b | e] eqn:Hn;
    cbn [bind] in H; [|discriminate].
  destruct b.
  - destruct (_process_with_yolo (counted self) frame) as [[r s] | e] eqn:Hy;
      cbn [bind] in H; [|discriminate].
    injection H as <- <-.
    destruct (detect (detector self) frame) as [dets d] eqn:Hd.
    destruct (is_empty dets) eqn:He.
    + unfold _process_with_yolo in Hy. cbn [detector counted] in Hy.
      rewrite Hd, He in Hy. injection Hy as Hy.
      destruct (Htrack (with_detector (counted self) d) r s eq_refl Hy)
        as [Hr Hs].
      exists [], (tracked_persons self), (fun _ p => is_active p).
      split; [exact Hr|]. split; [exact Hs|]. split; [constructor|].
      split; [apply Hlive|]. split; [discriminate|].
      intros P _ _ HP. exact HP.
    + destruct (_process_with_yolo_spec (counted self) frame dets d Hd He
                  (live_ok_keys_lt self Hlive)) as (st & Hst & Hinv & Heq).
      cbv zeta in Heq. rewrite Heq in Hy. injection Hy as <- <-. clear Heq.
      cbn [tracker_type next_id counted] in *.
      set (news := enumerate_from (next_id self)
                     (unmatched_dets (enumerate dets)
                        (a_matched_det_indices st))).
      set (ps := a_persons st ++ map (new_track frame (tracker_type self)) news).
      destruct Hinv as (Hshape & _ & Hres & _).
      destruct Hlive as (Hnd & Hact & Hk & Hnx).
      assert (Hkeys : keys ps = keys (tracked_persons self)
                                ++ ids_from (next_id self) (List.length news)).
      { subst ps. unfold keys at 1. rewrite map_app.
        fold (keys (a_persons st)).
        fold (keys (map (new_track frame (tracker_type self)) news)).
        rewrite keys_new_tracks, (shape_keys _ _ Hshape).
        subst news. rewrite enumerate_from_keys, enumerate_from_length.
        reflexivity. }
      assert (Hnd' : NoDup (keys ps)).
      { rewrite Hkeys. apply NoDup_app; [exact Hnd | apply ids_from_NoDup|].
        intros k Hin Hin'. rewrite Forall_forall in Hk. specialize (Hk _ Hin).
        apply ids_from_In in Hin'. lia. }
      exists (a_results st ++ map new_result news), ps,
        (fun (k : Z) (_ : TrackedPerson T) =>
           negb (set_mem k (a_matched_track_ids st))).
      split; [reflexivity|]. split.
      { rewrite _cleanup_inactive_filter; [reflexivity|].
        cbn [tracked_persons]. rewrite keys_map_advanced. exact Hnd'. }
      split.
      { apply Forall_app. split.
        - eapply Forall_impl; [|exact Hres]. intros r [Hr _]. exact Hr.
        - apply Forall_forall. intros r Hr. apply in_map_iff in Hr.
          destruct Hr as (e & <- & _). reflexivity. }
      split; [exact Hnd'|]. split; [discriminate|].
      intros P Hdet Hinit HP. subst ps. apply Forall_app. split.
      * unfold associate in Hst.
        cbn [tracked_persons with_detector tracker_type iou_threshold counted]
          in Hst.
        destruct (negb (is_empty (tracked_persons self))).
        -- apply (match_loop_Forall P frame (tracker_type self)
                    (iou_threshold self) Hdet (enumerate dets)
                    (mkAssoc (tracked_persons self) [] [] []) st HP Hst).
        -- injection Hst as <-. exact HP.
      * apply Forall_forall. intros kp Hin. apply in_map_iff in Hin.
        destruct Hin as (e & <- & _). apply Hinit.
  - cbn [bind] in H.
    destruct (_process_with_trackers (counted self) frame) as [r s] eqn:Hy.
    injection H as <- <-.
    destruct (Htrack (counted self) r s eq_refl Hy) as [Hr Hs].
    exists [], (tracked_persons self), (fun _ p => is_active p).
    split; [exact Hr|]. split; [exact Hs|]. split; [constructor|].
    split; [apply Hlive|]. split; [intros _; split; reflexivity|].
    intros P _ _ HP. exact HP.
Qed.

End TrackInvariants.

Section TrackWellFormed.
Context {Frame T D : Type} {cv2 : Cv2 Frame T} {yolo : PersonDetector Frame D}.

Lemma track_kept_init (k : Z) (b : Box) (frame : Frame) (ty : TrackerType) :
  track_kept (k, TrackedPerson_init k b frame ty).
Proof.
  destruct (TrackedPerson_init_fields k b frame ty)
    as (Hi & _ & Hc & Hn & Hl & _).
  unfold track_kept. cbn [fst snd]. rewrite Hi, Hc, Hn, Hl.
  repeat split; try lia; try reflexivity.
Qed.

Lemma track_kept_detection (kp : Z * TrackedPerson T) (b : Box)
    (frame : Frame) (ty : TrackerType) :
  track_kept kp ->
  track_kept (fst kp, update_with_detection (snd kp) b frame ty).
Proof.
  intros (Hi & _).
  destruct (update_with_detection_fields (snd kp) b frame ty)
    as (Hi' & _ & Hc & Hn & Hl & _).
  unfold track_kept. cbn [fst snd]. rewrite Hi', Hc, Hn, Hl.
  repeat split; try lia; try exact Hi; try reflexivity.
Qed.

Lemma track_kept_update (kp : Z * TrackedPerson T) (frame : Frame) :
  track_kept kp ->
  track_kept (fst kp, snd (update_with_tracker (snd kp) frame)).
Proof.
  intros (Hi & Hn & Hl & Ha & Hc). unfold track_kept. cbn [fst snd].
  destruct (fst (update_with_tracker (snd kp) frame)) eqn:E.
  - destruct (update_with_tracker_won (snd kp) frame E)
      as (H1 & H2 & H3 & H4 & H5).
    rewrite H1, H3, H4, H5, H2.
    destruct (Z.eqb_spec (frames_since_detection (snd kp) + 1) 0); [lia|].
    repeat split; try lia; try assumption; try reflexivity.
  - destruct (update_with_tracker_missed (snd kp) frame E)
      as (H1 & _ & H2 & H3 & H4 & H5).
    rewrite H1, H2, H3, H4, H5.
    split; [exact Hi|]. split; [exact Hn|]. split; [lia|].
    split; [|exact Hc].
    intros Hact. apply andb_true_iff in Hact. destruct Hact as [_ Hle].
    apply Z.leb_le in Hle. exact Hle.
Qed.

Lemma track_ok_kept (kp : Z * TrackedPerson T) : track_ok kp -> track_kept kp.
Proof.
  intros (Hi & Hn & Hl & Hc). unfold track_kept.
  repeat split; try lia; assumption.
Qed.

Lemma track_kept_ok (kp : Z * TrackedPerson T) :
  track_kept kp -> is_active (snd kp) = true -> track_ok kp.
Proof.
  intros (Hi & Hn & Hl & Ha & Hc) Hact. unfold track_ok.
  specialize (Ha Hact). repeat split; try lia; assumption.
Qed.

Lemma track_ok_confidence (kp : Z * TrackedPerson T) :
  track_ok kp ->
  (Float.lit (3 # 10) <= confidence (snd kp))%Q /\ (confidence (snd kp) <= 1)%Q.
Proof.
  intros (_ & Hn & _ & Hc). rewrite Hc.
  destruct (frames_since_detection (snd kp) =? 0).
  { split; [apply Qle_bool_imp_le; vm_compute; reflexivity | apply Qle_refl]. }
  destruct (decayed_bounds (frames_since_detection (snd kp))) as (H1 & H2 & _).
  split; [exact H1 | apply H2; exact Hn].
Qed.

(** One frame keeps the tracks of the live set well formed, and every
    tracker entry of its result has a decayed confidence. *)
Lemma process_frame_tracks (self : MultiPersonTracker T D) (frame : Frame)
    (results : list Result) (self' : MultiPersonTracker T D) :
  live_ok self ->
  Forall track_ok (tracked_persons self) ->
  process_frame self frame = Ok (results, self') ->
  Forall track_ok (tracked_persons self') /\
  Forall (fun r => result_method r = "tracker"%string ->
                   (Float.lit (3 # 10) <= result_conf r)%Q /\
                   (result_conf r <= Float.lit (98 # 100))%Q) results.
Proof.
  intros Hlive Hok H.
  destruct (process_frame_decompose self frame results self' Hlive H)
    as (confirmed & ps & guard & -> & -> & Hyolo & _ & _ & HP).
  assert (Hps : Forall track_kept ps).
  { apply HP.
    - intros kp b. apply track_kept_detection.
    - intros k b. apply track_kept_init.
    - eapply Forall_impl; [|exact Hok]. apply track_ok_kept. }
  rewrite Forall_forall in Hps. split.
  - apply Forall_forall. intros kp Hin. apply filter_In in Hin.
    destruct Hin as [Hin Hact]. apply in_map_iff in Hin.
    destruct Hin as ([k p] & <- & Hin).
    apply track_kept_ok; [|exact Hact].
    unfold advanced. cbn [fst snd]. destruct (guard k p).
    + apply (track_kept_update (k, p) frame (Hps _ Hin)).
    + apply (Hps _ Hin).
  - apply Forall_app. split.
    + eapply Forall_impl; [|exact Hyolo]. intros r Hr Ht. congruence.
    + apply Forall_forall. intros r Hr _. apply in_flat_map in Hr.
      destruct Hr as ([k p] & Hin & Hr). unfold reported in Hr.
      cbn [fst snd] in Hr. destruct (guard k p); [|destruct Hr].
      destruct (fst (update_with_tracker p frame)) eqn:E; [|destruct Hr].
      destruct Hr as [<- | []]. cbn [result_conf].
      destruct (update_with_tracker_won p frame E) as (_ & Hn & _ & _ & ->).
      rewrite Hn. destruct (Hps _ Hin) as (_ & Hfsd & _). cbn [snd] in Hfsd.
      destruct (decayed_bounds (frames_since_detection p + 1)) as (H1 & _ & H3).
      split; [exact H1 | apply H3; lia].
Qed.

Lemma run_frames_tracks (frames : list Frame) :
  forall (self : MultiPersonTracker T D) (res : list (list Result))
         (self' : MultiPersonTracker T D),
    live_ok self ->
    Forall track_ok (tracked_persons self) ->
    run_frames self frames = Ok (res, self') ->
    Forall track_ok (tracked_persons self') /\
    Forall (Forall (fun r => result_method r = "tracker"%string ->
                             (Float.lit (3 # 10) <= result_conf r)%Q /\
                             (result_conf r <= Float.lit (98 # 100))%Q)) res.
Proof.
  induction frames as [| frame rest IH]; intros self res self' Hlive Hok H.
  - cbn in H. injection H as <- <-. split; [exact Hok | constructor].
  - destruct (run_frames_cons _ _ _ _ _ H) as (results & s & more & Hp & Hr & ->).
    destruct (process_frame_step self frame results s Hlive Hp) as (Hlive1 & _).
    destruct (process_frame_tracks self frame results s Hlive Hok Hp)
      as (Hok1 & Hres).
    destruct (IH s more self' Hlive1 Hok1 Hr) as (Hok2 & Hmore).
    split; [exact Hok2 | constructor; assumption].
Qed.

(** X2. In any run from a reset, every track of the live set is filed
    under its own identity, is active, has [lost_frames] between 0 and 10
    and a confidence between the floats 0.3 and 1.0 that is 1.0 right
    after a detection and what [max(0.3, 1.0 - frames_since_detection *
    0.02)] evaluates to in float arithmetic otherwise. *)
Theorem live_tracks_are_well_formed (tracker : MultiPersonTracker T D)
    (frames : list Frame) (res : list (list Result))
    (tracker' : MultiPersonTracker T D) :
  run_frames (reset tracker) frames = Ok (res, tracker') ->
  Forall (fun kp =>
            track_ok kp /\
            is_active (snd kp) = true /\
            (Float.lit (3 # 10) <= confidence (snd kp))%Q /\
            (confidence (snd kp) <= 1)%Q)
    (tracked_persons tracker').
Proof.
  intros H.
  destruct (run_frames_tracks frames (reset tracker) res tracker'
              (live_ok_reset tracker) (Forall_nil _) H) as (Hok & _).
  destruct (run_frames_spec frames (reset tracker) res tracker'
              (live_ok_reset tracker) H) as ((_ & Hact & _) & _).
  rewrite Forall_forall in *. intros kp Hin.
  split; [apply Hok; exact Hin|]. split; [apply Hact; exact Hin|].
  apply track_ok_confidence. apply Hok. exact Hin.
Qed.

(** X3. In any run from a reset, every entry with tracker provenance has
    a confidence between the floats 0.3 and 0.98: a tracked box is never
    reported with the confidence 1.0 of a detection. *)
Theorem tracker_entries_have_decayed_confidence
    (tracker : MultiPersonTracker T D) (frames : list Frame)
    (res : list (list Result)) (tracker' : MultiPersonTracker T D) :
  run_frames (reset tracker) frames = Ok (res, tracker') ->
  forall results r,
    In results res -> In r results ->
    result_method r = "tracker"%string ->
    (Float.lit (3 # 10) <= result_conf r)%Q /\ (result_conf r <= Float.lit (98 # 100))%Q.
Proof.
  intros H results r Hres Hr Hm.
  destruct (run_frames_tracks frames (reset tracker) res tracker'
              (live_ok_reset tracker) (Forall_nil _) H) as (_ & Hall).
  rewrite Forall_forall in Hall. specialize (Hall _ Hres).
  rewrite Forall_forall in Hall. apply (Hall _ Hr Hm).
Qed.

Lemma reported_ids_NoDup (guard : Z -> TrackedPerson T -> bool)
    (frame : Frame) (ps : dict (TrackedPerson T)) :
  NoDup (keys ps) ->
  NoDup (map result_id (flat_map (reported guard frame) ps)) /\
  incl (map result_id (flat_map (reported guard frame) ps)) (keys ps).
Proof.
  unfold keys. induction ps as [| [k p] rest IH]; intros Hnd.
  - split; [constructor | intros x []].
  - cbn [map fst] in Hnd. inversion Hnd as [| ? ? Hnot Hnd']; subst.
    destruct (IH Hnd') as [IHn IHi].
    cbn [flat_map]. rewrite map_app. unfold reported at 1 3. cbn [fst snd].
    destruct (guard k p);
      [destruct (fst (update_with_tracker p frame))|]; cbn [map app result_id].
    + split.
      * constructor; [|exact IHn]. intros Hin. apply Hnot. apply IHi. exact Hin.
      * intros x [<- | Hx]; [left; reflexivity | right; apply IHi; exact Hx].
    + split; [exact IHn | intros x Hx; right; apply IHi; exact Hx].
    + split; [exact IHn | intros x Hx; right; apply IHi; exact Hx].
Qed.

(** X4. A frame that takes the tracker-only pass reports tracker entries
    only, at most one for each track, all for tracks that were in the live
    set before; it creates no track, issues no identity and leaves the
    detector alone. *)
Theorem tracker_only_frame (self : MultiPersonTracker T D) (frame : Frame)
    (results : list Result) (self' : MultiPersonTracker T D) :
  live_ok self ->
  need_yolo (counted self) = Ok false ->
  process_frame self frame = Ok (results, self') ->
  Forall (fun r => result_method r = "tracker"%string) results /\
  NoDup (map result_id results) /\
  incl (map result_id results) (keys (tracked_persons self)) /\
  incl (keys (tracked_persons self')) (keys (tracked_persons self)) /\
  next_id self' = next_id self /\
  detector self' = detector self.
Proof.
  intros Hlive Hn H.
  destruct (process_frame_decompose self frame results self' Hlive H)
    as (confirmed & ps & guard & Hr & Hs & _ & Hnd & Hpath & _).
  destruct (Hpath Hn) as [-> ->]. cbn [app] in Hr.
  destruct (reported_ids_NoDup guard frame (tracked_persons self) Hnd)
    as [Hnd' Hincl].
  split.
  { rewrite Hr. apply Forall_forall. intros r Hin. apply in_flat_map in Hin.
    destruct Hin as ([k p] & _ & Hin). unfold reported in Hin.
    destruct (guard _ _); [|destruct Hin].
    destruct (fst _); [|destruct Hin].
    destruct Hin as [<- | []]. reflexivity. }
  split; [rewrite Hr; exact Hnd'|]. split; [rewrite Hr; exact Hincl|].
  split.
  { rewrite Hs. intros k Hk. apply filter_keys_incl in Hk.
    rewrite keys_map_advanced in Hk. exact Hk. }
  rewrite process_frame_unfold, Hn in H. cbn [bind] in H.
  rewrite _process_with_trackers_spec in H. injection H as _ <-.
  split; reflexivity.
Qed.

End TrackWellFormed.

(** ** MultiPersonTracker: more on the association *)

Section BestTrack.
Context {Frame T D : Type} {cv2 : Cv2 Frame T} {yolo : PersonDetector Frame D}.

Lemma best_track_loop_best (items : dict (TrackedPerson T))
    (matched : list Z) (box : Box) (thr : Q) :
  forall (bi : Q) (bo : option Z) (q : Q) (o : option Z),
    best_track_loop items matched box thr bi bo = Ok (q, o) ->
    (bi <= q)%Q /\
    ((o = bo /\ q = bi) \/
     (exists k p,
        o = Some k /\ In (k, p) items /\ ~ In k matched /\
        calc_iou box (bbox p) = Ok q /\ (thr < q)%Q /\ (bi < q)%Q)) /\
    (forall k' p',
       In (k', p') items -> ~ In k' matched ->
       exists q', calc_iou box (bbox p') = Ok q' /\
                  ((q' <= q)%Q \/ (q' <= thr)%Q)).
Proof.
  induction items as [| [k p] rest IH]; intros bi bo q o H.
  - cbn in H. injection H as <- <-.
    split; [lra|]. split; [left; split; reflexivity|]. intros k' p' [].
  - cbn [best_track_loop] in H. destruct (set_mem k matched) eqn:Em.
    + apply set_mem_In in Em.
      destruct (IH _ _ _ _ H) as (Hle & Hwho & Hall).
      split; [exact Hle|]. split.
      * destruct Hwho as [Hsame | (k0 & p0 & Ho & Hin & Hrest)];
          [left; exact Hsame|].
        right. exists k0, p0. split; [exact Ho|].
        split; [right; exact Hin | exact Hrest].
      * intros k' p' [E | Hin] Hm.
        -- injection E as <- <-. contradiction.
        -- apply (Hall k' p' Hin Hm).
    + apply set_mem_false in Em.
      destruct (calc_iou box (bbox p)) as [v | e] eqn:Ev;
        [|rewrite calc_iou_value in Ev; discriminate].
      cbn [bind] in H.
      destruct (Qgtb v bi) eqn:E1; [destruct (Qgtb v thr) eqn:E2|];
        cbn [andb] in H.
      * apply Qgtb_lt in E1. apply Qgtb_lt in E2.
        destruct (IH _ _ _ _ H) as (Hle & Hwho & Hall).
        split; [lra|]. split.
        -- right.
           destruct Hwho as [[-> ->] | (k0 & p0 & Ho & Hin & Hm & Hq & Ht & Hb)].
           ++ exists k, p. split; [reflexivity|]. split; [left; reflexivity|].
              split; [exact Em|]. split; [exact Ev|]. split; assumption.
           ++ exists k0, p0. split; [exact Ho|]. split; [right; exact Hin|].
              split; [exact Hm|]. split; [exact Hq|]. split; [exact Ht | lra].
        -- intros k' p' [E | Hin] Hm.
           ++ injection E as <- <-. exists v. split; [exact Ev | left; exact Hle].
           ++ apply (Hall k' p' Hin Hm).
      * apply Qgtb_lt in E1. apply Qgtb_le in E2.
        destruct (IH _ _ _ _ H) as (Hle & Hwho & Hall).
        split; [exact Hle|]. split.
        -- destruct Hwho as [Hsame | (k0 & p0 & Ho & Hin & Hrest)];
             [left; exact Hsame|].
           right. exists k0, p0. split; [exact Ho|].
           split; [right; exact Hin | exact Hrest].
        -- intros k' p' [E | Hin] Hm.
           ++ injection E as <- <-. exists v. split; [exact Ev | right; exact E2].
           ++ apply (Hall k' p' Hin Hm).
      * apply Qgtb_le in E1.
        destruct (IH _ _ _ _ H) as (Hle & Hwho & Hall).
        split; [exact Hle|]. split.
        -- destruct Hwho as [Hsame | (k0 & p0 & Ho & Hin & Hrest)];
             [left; exact Hsame|].
           right. exists k0, p0. split; [exact Ho|].
           split; [right; exact Hin | exact Hrest].
        -- intros k' p' [E | Hin] Hm.
           ++ injection E as <- <-. exists v. split; [exact Ev | left; lra].
           ++ apply (Hall k' p' Hin Hm).
Qed.

(** X5. The track the association picks for a detection is an unmatched
    track whose IoU with the detection is above the threshold, above 0,
    and at least that of every other unmatched track; when it picks none,
    no unmatched track has an IoU above both the threshold and 0.  So a
    track that does not overlap the detection is never matched, however
    low the threshold. *)
Theorem best_track_is_best (items : dict (TrackedPerson T))
    (matched : list Z) (box : Box) (thr : Q) (q : Q) (o : option Z) :
  best_track_loop items matched box thr 0 None = Ok (q, o) ->
  match o with
  | Some k =>
      exists p,
        In (k, p) items /\ ~ In k matched /\
        calc_iou box (bbox p) = Ok q /\ (thr < q)%Q /\ (0 < q)%Q /\
        forall k' p',
          In (k', p') items -> ~ In k' matched ->
          exists q', calc_iou box (bbox p') = Ok q' /\ (q' <= q)%Q
  | None =>
      forall k' p',
        In (k', p') items -> ~ In k' matched ->
        exists q', calc_iou box (bbox p') = Ok q' /\
                   ~ ((thr < q')%Q /\ (0 < q')%Q)
  end.
Proof.
  intros H.
  destruct (best_track_loop_best items matched box thr _ _ _ _ H)
    as (_ & Hwho & Hall).
  destruct Hwho as [[-> ->] | (k & p & -> & Hin & Hm & Hq & Ht & Hb)].
  - intros k' p' Hin Hm. destruct (Hall k' p' Hin Hm) as (q' & Hq' & Hle).
    exists q'. split; [exact Hq'|]. intros [H1 H2]. destruct Hle; lra.
  - exists p. repeat split; try assumption.
    intros k' p' Hin' Hm'. destruct (Hall k' p' Hin' Hm') as (q' & Hq' & Hle).
    exists q'. split; [exact Hq'|]. destruct Hle; lra.
Qed.

End BestTrack.

Section Counting.
Context {Frame T D : Type} {cv2 : Cv2 Frame T} {yolo : PersonDetector Frame D}.

Lemma set_add_fresh (k : Z) (s : list Z) : ~ In k s -> set_add k s = k :: s.
Proof.
  intros H. unfold set_add. apply set_mem_false in H. rewrite H. reflexivity.
Qed.

Lemma unmatched_dets_app (a b : list (Z * Detection)) (md : list Z) :
  unmatched_dets (a ++ b) md = unmatched_dets a md ++ unmatched_dets b md.
Proof. unfold unmatched_dets. apply filter_app. Qed.

Lemma unmatched_dets_fresh (done : list (Z * Detection)) (i : Z) (md : list Z) :
  ~ In i (map fst done) ->
  unmatched_dets done (i :: md) = unmatched_dets done md.
Proof.
  intros Hi. unfold unmatched_dets. apply filter_ext_in. intros e He.
  unfold set_mem. cbn [existsb].
  destruct (Z.eqb_spec (fst e) i) as [E | _]; [|reflexivity].
  exfalso. apply Hi. rewrite <- E. apply in_map. exact He.
Qed.

(** The association matches every track and every detection at most
    once, and appends one entry for each match. *)
Lemma match_loop_count (frame : Frame) (ty : TrackerType) (thr : Q) :
  forall (todo done : list (Z * Detection)) (st st' : Assoc),
    NoDup (map fst (done ++ todo)) ->
    incl (a_matched_det_indices st) (map fst done) ->
    NoDup (a_matched_track_ids st) ->
    map result_id (a_results st) = rev (a_matched_track_ids st) ->
    (List.length (unmatched_dets done (a_matched_det_indices st))
     + List.length (a_results st) = List.length done)%nat ->
    match_loop todo frame ty thr st = Ok st' ->
    NoDup (a_matched_track_ids st') /\
    map result_id (a_results st') = rev (a_matched_track_ids st') /\
    (List.length (unmatched_dets (done ++ todo) (a_matched_det_indices st'))
     + List.length (a_results st') = List.length (done ++ todo))%nat.
Proof.
  induction todo as [| [i det] rest IH];
    intros done st st' Hnd Hmd Hmt Hids Hcount H.
  - cbn in H. injection H as <-. rewrite app_nil_r. repeat split; assumption.
  - cbn [match_loop] in H.
    destruct (best_track_loop_spec (a_persons st) (a_matched_track_ids st)
                (det_box det) thr 0%Q None) as (q & o & Hb & Ho).
    rewrite Hb in H. cbn [bind] in H.
    assert (Hi : ~ In i (map fst done)).
    { rewrite map_app in Hnd. cbn [map fst] in Hnd.
      apply NoDup_remove_2 in Hnd. intros Hin. apply Hnd.
      apply in_or_app. left. exact Hin. }
    assert (Himd : ~ In i (a_matched_det_indices st)).
    { intros Hin. apply Hi. apply Hmd. exact Hin. }
    replace (done ++ (i, det) :: rest) with ((done ++ [(i, det)]) ++ rest) in *
      by (rewrite <- app_assoc; reflexivity).
    destruct Ho as [-> | (k & -> & _ & Hk)].
    + apply (IH (done ++ [(i, det)]) st st'); try assumption.
      * intros x Hx. rewrite map_app. apply in_or_app. left. apply Hmd. exact Hx.
      * rewrite unmatched_dets_app, !length_app. cbn [unmatched_dets filter fst].
        apply set_mem_false in Himd. rewrite Himd. cbn [negb List.length]. lia.
    + apply (IH (done ++ [(i, det)]) _ st' Hnd) in H; [exact H | | | |];
        cbn [a_matched_det_indices a_matched_track_ids a_results].
      * rewrite (set_add_fresh i _ Himd). intros x [<- | Hx]; rewrite map_app;
          apply in_or_app; [right; left; reflexivity | left; apply Hmd; exact Hx].
      * rewrite (set_add_fresh k _ Hk). constructor; assumption.
      * rewrite (set_add_fresh k _ Hk), map_app, Hids. reflexivity.
      * rewrite (set_add_fresh i _ Himd), unmatched_dets_app, !length_app.
        rewrite (unmatched_dets_fresh done i _ Hi).
        cbn [unmatched_dets filter fst set_mem existsb].
        rewrite Z.eqb_refl. cbn [orb negb List.length]. lia.
Qed.

Lemma associate_count (self : MultiPersonTracker T D) (frame : Frame)
    (dets : list Detection) (st : Assoc) :
  associate self frame dets = Ok st ->
  NoDup (a_matched_track_ids st) /\
  map result_id (a_results st) = rev (a_matched_track_ids st) /\
  (List.length (unmatched_dets (enumerate dets) (a_matched_det_indices st))
   + List.length (a_results st) = List.length dets)%nat.
Proof.
  unfold associate. intros H.
  assert (Hlen : List.length (enumerate dets) = List.length dets)
    by apply enumerate_from_length.
  destruct (negb (is_empty (tracked_persons self))).
  - rewrite <- Hlen.
    apply (match_loop_count frame (tracker_type self) (iou_threshold self)
             (enumerate dets) []
             (mkAssoc (tracked_persons self) [] [] []) st).
    + cbn [app]. unfold enumerate. rewrite enumerate_from_keys.
      apply ids_from_NoDup.
    + intros x [].
    + constructor.
    + reflexivity.
    + reflexivity.
    + exact H.
  - injection H as <-. cbn [a_matched_track_ids a_results a_matched_det_indices].
    split; [constructor|]. split; [reflexivity|].
    rewrite <- Hlen. clear Hlen. unfold unmatched_dets.
    rewrite (filter_ext _ (fun _ => true)); [|reflexivity].
    cbn [List.length]. rewrite Nat.add_0_r. f_equal.
    induction (enumerate dets) as [| e l IHl]; [reflexivity|].
    cbn [filter]. f_equal. exact IHl.
Qed.

End Counting.

Section DetectorFrames.
Context {Frame T D : Type} {cv2 : Cv2 Frame T} {yolo : PersonDetector Frame D}.

Lemma filter_all {A : Type} (f : A -> bool) (l : list A) :
  (forall x, In x l -> f x = true) -> filter f l = l.
Proof.
  induction l as [| a l IH]; intros H; [reflexivity|].
  cbn [filter]. rewrite (H a (or_introl eq_refl)). f_equal.
  apply IH. intros x Hx. apply H. right. exact Hx.
Qed.

Lemma filter_none {A : Type} (f : A -> bool) (l : list A) :
  (forall x, In x l -> f x = false) -> filter f l = [].
Proof.
  induction l as [| a l IH]; intros H; [reflexivity|].
  cbn [filter]. rewrite (H a (or_introl eq_refl)).
  apply IH. intros x Hx. apply H. right. exact Hx.
Qed.

Lemma reported_not_yolo (guard : Z -> TrackedPerson T -> bool) (frame : Frame)
    (ps : dict (TrackedPerson T)) :
  filter is_yolo (flat_map (reported guard frame) ps) = [].
Proof.
  apply filter_none. intros r Hr. apply in_flat_map in Hr.
  destruct Hr as ([k p] & _ & Hr). unfold reported in Hr.
  destruct (guard _ _); [|destruct Hr].
  destruct (fst _); [|destruct Hr].
  destruct Hr as [<- | []]. reflexivity.
Qed.

Lemma new_results_yolo (news : list (Z * (Z * Detection))) :
  filter is_yolo (map new_result news) = map new_result news.
Proof.
  apply filter_all. intros r Hr. apply in_map_iff in Hr.
  destruct Hr as (e & <- & _). reflexivity.
Qed.

(** X6. On a frame that goes through the detector, the result has exactly
    one detector entry for each detection, no two of them under the same
    identity: a track is confirmed by at most one detection, and the
    detections that confirm no track get one new identity each. *)
Theorem one_entry_per_detection (self : MultiPersonTracker T D)
    (frame : Frame) (dets : list Detection) (d : D)
    (results : list Result) (self' : MultiPersonTracker T D) :
  live_ok self ->
  need_yolo (counted self) = Ok true ->
  detect (detector self) frame = (dets, d) ->
  process_frame self frame = Ok (results, self') ->
  let entries := filter is_yolo results in
  List.length entries = List.length dets /\
  NoDup (map result_id entries) /\
  Z.of_nat (List.length (filter (fun r => result_id r <? next_id self) entries))
  + (next_id self' - next_id self) = Z.of_nat (List.length dets).
Proof.
  intros Hlive Hn Hd H entries. subst entries.
  rewrite process_frame_unfold, Hn in H. cbn [bind] in H.
  destruct (_process_with_yolo (counted self) frame) as [[r s] | e] eqn:Hy;
    cbn [bind] in H; [|discriminate].
  injection H as <- <-.
  destruct (is_empty dets) eqn:He.
  - destruct dets; [|discriminate].
    unfold _process_with_yolo in Hy. cbn [detector counted] in Hy.
    rewrite Hd in Hy. cbn [is_empty] in Hy. injection Hy as Hy.
    rewrite _process_with_trackers_spec in Hy. injection Hy as <- <-.
    rewrite reported_not_yolo. cbn.
    split; [reflexivity|]. split; [constructor | lia].
  - destruct (_process_with_yolo_spec (counted self) frame dets d Hd He
                (live_ok_keys_lt self Hlive)) as (st & Hst & Hinv & Heq).
    cbv zeta in Heq. rewrite Heq in Hy. injection Hy as <- <-. clear Heq.
    destruct (associate_count _ _ _ _ Hst) as (Hndm & Hids & Hcount).
    destruct Hinv as (_ & Hmatched & Hres & _).
    cbn [tracked_persons next_id counted with_detector] in *.
    set (news := enumerate_from (next_id self)
                   (unmatched_dets (enumerate dets) (a_matched_det_indices st)))
      in *.
    assert (Hlen : List.length news
                   = List.length (unmatched_dets (enumerate dets)
                                    (a_matched_det_indices st)))
      by apply enumerate_from_length.
    assert (Hnews : map result_id (map new_result news)
                    = ids_from (next_id self) (List.length news)).
    { rewrite map_map. subst news. rewrite enumerate_from_length.
      rewrite <- (enumerate_from_keys _ (next_id self)).
      apply map_ext. intros e. reflexivity. }
    assert (Hold : forall x, In x (map result_id (a_results st)) ->
                             x < next_id self).
    { intros x Hx. rewrite Hids in Hx. apply in_rev in Hx.
      apply Hmatched in Hx. destruct Hlive as (_ & _ & Hk & _).
      rewrite Forall_forall in Hk. specialize (Hk _ Hx). lia. }
    match goal with
    | |- context [filter is_yolo ?r] =>
        assert (Hentries : filter is_yolo r
                           = a_results st ++ map new_result news)
    end.
    { rewrite !filter_app, reported_not_yolo, app_nil_r, new_results_yolo.
      rewrite (filter_all is_yolo (a_results st)); [reflexivity|].
      intros x Hx. rewrite Forall_forall in Hres.
      destruct (Hres x Hx) as [Hm _]. unfold is_yolo. rewrite Hm.
      reflexivity. }
    rewrite Hentries.
    split; [rewrite length_app, length_map; lia|]. split.
    + rewrite map_app, Hnews. apply NoDup_app.
      * rewrite Hids. apply NoDup_rev. exact Hndm.
      * apply ids_from_NoDup.
      * intros x Hx Hx'. apply Hold in Hx. apply ids_from_In in Hx'. lia.
    + rewrite filter_app.
      rewrite (filter_all _ (a_results st)).
      2:{ intros x Hx. apply Z.ltb_lt. apply Hold. apply in_map. exact Hx. }
      rewrite (filter_none _ (map new_result news)).
      2:{ intros x Hx. apply Z.ltb_ge.
          apply (in_map result_id) in Hx. rewrite Hnews in Hx.
          apply ids_from_In in Hx. lia. }
      rewrite app_nil_r.
      unfold _cleanup_inactive, with_persons. cbn [next_id]. lia.
Qed.

Lemma new_results_combine (dets : list Detection) :
  forall a b,
    map new_result (enumerate_from a (enumerate_from b dets))
    = map (fun e => (fst e, det_box (snd e), det_conf (snd e), "yolo"%string))
        (combine (ids_from a (List.length dets)) dets).
Proof.
  induction dets as [| det rest IH]; intros a b; [reflexivity|].
  cbn [enumerate_from map List.length ids_from combine]. rewrite IH.
  reflexivity.
Qed.

Lemma combine_news (dets : list Detection) :
  forall a b i det,
    In (i, det) (combine (ids_from a (List.length dets)) dets) ->
    exists idx, In (i, (idx, det)) (enumerate_from a (enumerate_from b dets)).
Proof.
  induction dets as [| det0 rest IH]; intros a b i det Hin; [destruct Hin|].
  cbn [List.length ids_from combine enumerate_from] in *.
  destruct Hin as [E | Hin].
  - injection E as <- <-. exists b. left. reflexivity.
  - destruct (IH _ (b + 1) _ _ Hin) as [idx H]. exists idx. right. exact H.
Qed.

(** [process_frame] on an empty live set. *)
Lemma first_frame (self : MultiPersonTracker T D) (frame : Frame)
    (dets : list Detection) (d : D) :
  tracked_persons self = [] ->
  frame_count self = 0 \/ redetect_interval self <> 0 ->
  detect (detector self) frame = (dets, d) ->
  let news := enumerate_from (next_id self) (enumerate dets) in
  let tracks := map (new_track frame (tracker_type self)) news in
  exists self',
    process_frame self frame
    = Ok (map new_result news
          ++ flat_map (reported (fun _ _ => true) frame) tracks, self') /\
    tracked_persons self' = map (advanced (fun _ _ => true) frame) tracks /\
    next_id self' = next_id self + Z.of_nat (List.length dets).
Proof.
  intros Hempty Hcfg Hd news tracks.
  assert (Hn : need_yolo (counted self) = Ok true).
  { rewrite (need_yolo_due self Hcfg). unfold redetection_due.
    rewrite Hempty. cbn [is_empty]. rewrite orb_true_r. reflexivity. }
  rewrite process_frame_unfold, Hn. cbn [bind].
  destruct (is_empty dets) eqn:He.
  - destruct dets; [|discriminate].
    unfold _process_with_yolo. cbn [detector counted]. rewrite Hd.
    cbn [is_empty]. rewrite _process_with_trackers_spec.
    cbn [tracked_persons with_detector counted]. rewrite Hempty. cbn [bind].
    eexists. split; [reflexivity|].
    unfold _cleanup_inactive, with_persons. cbn. rewrite Z.add_0_r.
    split; reflexivity.
  - destruct (_process_with_yolo_spec (counted self) frame dets d Hd He)
      as (st & Hst & _ & Heq).
    { cbn [tracked_persons counted]. rewrite Hempty. constructor. }
    unfold associate in Hst. cbn [tracked_persons with_detector counted] in Hst.
    rewrite Hempty in Hst. cbn [is_empty negb] in Hst. injection Hst as <-.
    cbv zeta in Heq.
    cbn [a_persons a_matched_track_ids a_matched_det_indices a_results
           next_id tracker_type counted app] in Heq.
    assert (Hu : unmatched_dets (enumerate dets) [] = enumerate dets).
    { unfold unmatched_dets. apply filter_all. reflexivity. }
    rewrite Hu in Heq. cbn [app] in Heq.
    fold news in Heq. fold tracks in Heq.
    rewrite Heq. cbn [bind].
    eexists. split; [reflexivity|].
    assert (Hkeys : keys tracks = ids_from (next_id self) (List.length news)).
    { subst tracks. rewrite keys_new_tracks. subst news.
      rewrite enumerate_from_length. apply enumerate_from_keys. }
    rewrite _cleanup_inactive_filter.
    2:{ cbn [tracked_persons]. rewrite keys_map_advanced, Hkeys.
        apply ids_from_NoDup. }
    cbn [tracked_persons with_persons next_id]. split.
    + apply filter_all. intros kp Hin. apply in_map_iff in Hin.
      destruct Hin as (kp0 & <- & Hin). subst tracks.
      apply in_map_iff in Hin. destruct Hin as (e & <- & _).
      unfold active_entry, advanced, new_track. cbn [fst snd negb].
      destruct (TrackedPerson_init_fields (fst e) (det_box (snd (snd e)))
                  frame (tracker_type self)) as (_ & _ & _ & _ & Hl & Ha).
      apply update_with_tracker_young; [exact Ha | rewrite Hl; lia].
    + subst news. unfold enumerate. rewrite !enumerate_from_length.
      reflexivity.
Qed.


Lemma reported_tracker (guard : Z -> TrackedPerson T -> bool) (frame : Frame)
    (ps : dict (TrackedPerson T)) (r : Result) :
  In r (flat_map (reported guard frame) ps) ->
  result_method r = "tracker"%string.
Proof.
  intros Hr. apply in_flat_map in Hr.
  destruct Hr as ([k p] & _ & Hr). unfold reported in Hr.
  destruct (guard _ _); [|destruct Hr].
  destruct (fst _); [|destruct Hr].
  destruct Hr as [<- | []]. reflexivity.
Qed.

(** X8. A track is advanced by its tracker in the very frame that creates
    it, whatever else the live set holds: when a frame's result has a
    detector entry under an identity issued in that frame and the first
    update of the new track succeeds, the result lists the identity a
    second time, with tracker provenance. *)
Theorem new_track_is_reported_twice (self : MultiPersonTracker T D)
    (frame : Frame) (results : list Result) (self' : MultiPersonTracker T D)
    (i : Z) (box : Box) (conf : Q) :
  live_ok self ->
  process_frame self frame = Ok (results, self') ->
  In (i, box, conf, "yolo"%string) results ->
  next_id self <= i ->
  fst (update_with_tracker
         (TrackedPerson_init i box frame (tracker_type self)) frame) = true ->
  exists box' conf', In (i, box', conf', "tracker"%string) results.
Proof.
  intros Hlive H Hin Hnew Hok.
  rewrite process_frame_unfold in H.
  destruct (need_yolo (counted self)) as [[] | e] eqn:Hn; cbn [bind] in H;
    [| |discriminate].
  2:{ rewrite _process_with_trackers_spec in H. injection H as <- _.
      apply reported_tracker in Hin. discriminate. }
  destruct (_process_with_yolo (counted self) frame) as [[r s] | e] eqn:Hy;
    cbn [bind] in H; [|discriminate].
  injection H as <- _.
  destruct (detect (detector (counted self)) frame) as [dets d] eqn:Hd.
  destruct (is_empty dets) eqn:He.
  - destruct dets; [|discriminate].
    unfold _process_with_yolo in Hy. rewrite Hd in Hy.
    cbn [is_empty] in Hy. injection Hy as Hy.
    rewrite _process_with_trackers_spec in Hy. injection Hy as <- _.
    apply reported_tracker in Hin. discriminate.
  - destruct (_process_with_yolo_spec (counted self) frame dets d Hd He
                (live_ok_keys_lt self Hlive)) as (st & _ & Hinv & Heq).
    cbv zeta in Heq. rewrite Heq in Hy. injection Hy as <- _. clear Heq.
    destruct Hinv as (_ & Hmatched & Hres & _).
    cbn [tracked_persons next_id tracker_type counted] in *.
    assert (Hfresh : ~ In i (a_matched_track_ids st)).
    { intros Hm. apply Hmatched in Hm. destruct Hlive as (_ & _ & Hk & _).
      rewrite Forall_forall in Hk. specialize (Hk _ Hm). lia. }
    apply in_app_or in Hin. destruct Hin as [Hin | Hin];
      [|apply reported_tracker in Hin; discriminate].
    apply in_app_or in Hin. destruct Hin as [Hin | Hin].
    { rewrite Forall_forall in Hres. destruct (Hres _ Hin) as [_ Hm].
      contradiction. }
    apply in_map_iff in Hin. destruct Hin as (e & Ee & Hin).
    unfold new_result in Ee. injection Ee as Ei Eb Ec.
    eexists _, _. apply in_or_app. right. apply in_flat_map.
    exists (new_track frame (tracker_type self) e). split.
    + apply in_or_app. right. apply in_map. exact Hin.
    + unfold reported, new_track. cbn [fst snd]. rewrite Ei, Eb.
      replace (set_mem i (a_matched_track_ids st)) with false
        by (symmetry; apply set_mem_false; exact Hfresh).
      cbn [negb]. rewrite Hok. left. reflexivity.
Qed.

End DetectorFrames.

(** ** video_processor.py: more on process_video *)

Section PipelineMore.
Context {Frame T D : Type} {cv2 : Cv2 Frame T} {yolo : PersonDetector Frame D}.

Lemma filter_disjoint_length {A : Type} (f g : A -> bool) (l : list A) :
  (forall x, f x = true -> g x = false) ->
  (List.length (filter f l) + List.length (filter g l) <= List.length l)%nat.
Proof.
  intros Hfg. induction l as [| a l IH]; [cbn; lia|].
  cbn [filter]. destruct (f a) eqn:Ef.
  - rewrite (Hfg a Ef). cbn [List.length]. lia.
  - destruct (g a); cbn [List.length]; lia.
Qed.

(** X9. The statistics [process_video] returns are consistent: no frame
    counts both as a detector frame and as a tracker frame, so
    [yolo_frames + tracker_frames <= total_frames], and no counter is
    negative. *)
Theorem statistics_are_consistent (self : VideoProcessor T D)
    (cap : VideoCapture Frame)
    (output_path progress_callback preview_callback : bool)
    (skip_frames : Z) (stop_early : bool) :
  isOpened cap = true ->
  redetect_interval (multi_tracker self) <> 0 ->
  (output_path = true -> skip_frames + 1 <> 0) ->
  exists stats self' out,
    returned (process_video self cap output_path progress_callback
                preview_callback skip_frames stop_early)
      = Ok (stats, self', out) /\
    0 <= yolo_frames stats /\
    0 <= tracker_frames stats /\
    yolo_frames stats + tracker_frames stats <= total_frames stats /\
    total_frames stats <= Z.of_nat (List.length (reads cap)) /\
    0 <= total_persons stats.
Proof.
  intros Hopen Hiv Hskip.
  destruct (process_video_spec self cap output_path progress_callback
              preview_callback skip_frames stop_early Hopen Hiv Hskip)
    as (self' & out & res & Hpv & Hr & Ht & Hy & Hk & Hp & _).
  destruct (run_frames_spec _ _ _ _ (live_ok_reset (multi_tracker self)) Hr)
    as ((_ & _ & _ & Hnx) & _ & _ & _ & _ & Hlen).
  exists (stats self'), self', out. rewrite Hpv. cbn [returned].
  split; [reflexivity|]. rewrite Hy, Hk, Ht, Hp.
  pose proof (filter_disjoint_length detector_frame tracker_frame res) as Hd.
  assert (Hhand : forall (c : list (Tick Frame)) fc st,
             (List.length (handed_frames c fc skip_frames st)
              <= List.length c)%nat).
  { induction c as [| tk c IHc]; intros fc st.
    - destruct st; cbn; lia.
    - cbn [handed_frames]. destruct st; [cbn; lia|].
      destruct (_ && _); cbn [List.length];
        specialize (IHc (fc + 1) (tick_stop tk)); lia. }
  specialize (Hhand (reads cap) 0 stop_early).
  repeat split; try lia.
  apply Nat2Z.inj_le in Hd; [|].
  - rewrite Nat2Z.inj_add in Hd. exact Hd.
  - intros x Hx. unfold detector_frame in Hx. unfold tracker_frame.
    rewrite Hx. apply andb_false_r.
Qed.


Lemma frames_loop_skip (skip_frames fc : Z) :
  (if skip_frames >? 0
   then r <- py_mod (fc + 1 - 1) (skip_frames + 1) ;; Ok (negb (r =? 0))
   else Ok false)
  = Ok ((skip_frames >? 0)
        && negb ((fc + 1 - 1) mod (skip_frames + 1) =? 0)).
Proof.
  destruct (Z.gtb_spec skip_frames 0) as [Hpos | Hnpos]; [|reflexivity].
  unfold py_mod.
  destruct (Z.eqb_spec (skip_frames + 1) 0) as [E | _]; [lia|].
  reflexivity.
Qed.




Lemma div_step (a m : Z) :
  0 <= a -> 0 < m ->
  (a + 1 + m - 1) / m - (a + m - 1) / m = if a mod m =? 0 then 1 else 0.
Proof.
  intros Ha Hm.
  pose proof (Z.div_mod a m ltac:(lia)) as Hdm.
  pose proof (Z.mod_pos_bound a m Hm) as Hr.
  destruct (Z.eqb_spec (a mod m) 0) as [E | E].
  - assert (H1 : (a + 1 + m - 1) / m = a / m + 1).
    { symmetry. apply (Z.div_unique (a + 1 + m - 1) m (a / m + 1) 0); lia. }
    assert (H2 : (a + m - 1) / m = a / m).
    { symmetry. apply (Z.div_unique (a + m - 1) m (a / m) (m - 1)); lia. }
    lia.
  - assert (H1 : (a + 1 + m - 1) / m = a / m + 1).
    { symmetry.
      apply (Z.div_unique (a + 1 + m - 1) m (a / m + 1) (a mod m)); lia. }
    assert (H2 : (a + m - 1) / m = a / m + 1).
    { symmetry.
      apply (Z.div_unique (a + m - 1) m (a / m + 1) (a mod m - 1)); lia. }
    lia.
Qed.

Lemma multiples_count {A : Type} (m : Z) (l : list A) :
  0 < m ->
  forall a, 0 <= a ->
    Z.of_nat (List.length (filter (fun it => fst it mod m =? 0)
                             (enumerate_from a l)))
    = (a + Z.of_nat (List.length l) + m - 1) / m - (a + m - 1) / m.
Proof.
  intros Hm. induction l as [| x l IH]; intros a Ha.
  - cbn. rewrite Z.add_0_r. lia.
  - cbn [enumerate_from filter fst List.length].
    pose proof (div_step a m Ha Hm) as Hstep.
    specialize (IH (a + 1) ltac:(lia)).
    replace (a + Z.of_nat (S (List.length l)) + m - 1)
      with (a + 1 + Z.of_nat (List.length l) + m - 1) by lia.
    destruct (a mod m =? 0); cbn [List.length]; lia.
Qed.

Lemma kept_multiple (skip_frames position : Z) :
  kept skip_frames position
  = (position mod (Z.max skip_frames 0 + 1) =? 0).
Proof.
  unfold kept. destruct (Z.gtb_spec skip_frames 0) as [H | H].
  - rewrite Z.max_l by lia. cbn [andb]. apply negb_involutive.
  - rewrite Z.max_r by lia. cbn. rewrite Z.mod_1_r. reflexivity.
Qed.

Lemma handed_frames_positions (skip_frames : Z) (cap : list (Tick Frame)) :
  Forall (fun tk => tick_stop tk = false) cap ->
  forall fc,
    handed_frames cap fc skip_frames false
    = map (fun it => tick_frame (snd it))
        (filter (fun it => fst it mod (Z.max skip_frames 0 + 1) =? 0)
           (enumerate_from fc cap)).
Proof.
  induction 1 as [| tk cap Hs _ IH]; intros fc; [reflexivity|].
  cbn [handed_frames enumerate_from filter fst]. rewrite Hs, IH.
  rewrite <- (kept_multiple skip_frames fc). unfold kept.
  replace (fc + 1 - 1) with fc by lia.
  destruct ((skip_frames >? 0) && negb (fc mod (skip_frames + 1) =? 0));
    reflexivity.
Qed.

(** X11. Frame skipping.  When nobody stops the run, the frames handed to
    the tracker are those at the positions 0, k+1, 2(k+1), ... of the
    stream, for [k = skip_frames] (none is skipped when [skip_frames] is 0
    or negative), and [total_frames] is their number,
    [ceil(n / (k+1))]. *)
Theorem every_kth_frame_is_processed (self : VideoProcessor T D)
    (cap : VideoCapture Frame)
    (output_path progress_callback preview_callback : bool)
    (skip_frames : Z) :
  isOpened cap = true ->
  redetect_interval (multi_tracker self) <> 0 ->
  (output_path = true -> skip_frames + 1 <> 0) ->
  Forall (fun tk => tick_stop tk = false) (reads cap) ->
  let step := Z.max skip_frames 0 + 1 in
  let chosen :=
    map (fun it => tick_frame (snd it))
      (filter (fun it => fst it mod step =? 0) (enumerate (reads cap))) in
  exists stats self' out res,
    returned (process_video self cap output_path progress_callback
                preview_callback skip_frames false) = Ok (stats, self', out) /\
    run_frames (reset (multi_tracker self)) chosen
      = Ok (res, multi_tracker self') /\
    total_frames stats = Z.of_nat (List.length chosen) /\
    total_frames stats
      = (Z.of_nat (List.length (reads cap)) + step - 1) / step.
Proof.
  intros Hopen Hiv Hskip Hstop step chosen.
  destruct (process_video_spec self cap output_path progress_callback
              preview_callback skip_frames false Hopen Hiv Hskip)
    as (self' & out & res & Hpv & Hr & Ht & _).
  destruct (run_frames_spec _ _ _ _ (live_ok_reset (multi_tracker self)) Hr)
    as (_ & _ & _ & _ & _ & Hlen).
  rewrite (handed_frames_positions skip_frames (reads cap) Hstop 0) in Hr, Hlen.
  fold (enumerate (reads cap)) in Hr, Hlen. fold step in Hr, Hlen.
  fold chosen in Hr, Hlen.
  exists (stats self'), self', out, res. rewrite Hpv. cbn [returned].
  split; [reflexivity|]. split; [exact Hr|].
  split; [rewrite Ht, Hlen; reflexivity|].
  rewrite Ht, Hlen. subst chosen. rewrite length_map.
  unfold enumerate. rewrite (multiples_count step (reads cap)) by (subst step; lia).
  rewrite Z.add_0_l.
  assert (Hz : (0 + step - 1) / step = 0).
  { apply Z.div_small. subst step. lia. }
  rewrite Hz. lia.
Qed.

(** What the loop of [process_video] delivers to the writer and to the
    two callbacks. *)
Lemma frames_loop_sinks (total : Z)
    (writer progress_callback preview_callback : bool) (skip_frames : Z) :
  forall (cap : list (Tick Frame)) (fc : Z) (self : VideoProcessor T D)
         (out : Sinks Frame),
    live_ok (multi_tracker self) ->
    redetect_interval (multi_tracker self) <> 0 ->
    let handed := handed_frames cap fc skip_frames (should_stop self) in
    exists self' out' res,
      frames_loop cap fc total writer progress_callback preview_callback
        skip_frames self out = Ok (self', out') /\
      run_frames (multi_tracker self) handed = Ok (res, multi_tracker self') /\
      map drawn_results (written out')
        = map drawn_results (written out) ++ (if writer then res else []) /\
      map drawn_on (written out')
        = map drawn_on (written out) ++ (if writer then handed else []) /\
      map drawn_results (previewed out')
        = map drawn_results (previewed out)
          ++ (if preview_callback then res else []) /\
      map (fun e => total_frames (snd e)) (progress out')
        = map (fun e => total_frames (snd e)) (progress out)
          ++ (if progress_callback
              then ids_from (total_frames (stats self) + 1) (List.length res)
              else []).
Proof.
  induction cap as [| tk cap IH]; intros fc self out Hlive Hiv handed.
  - exists self, out, []. subst handed. cbn [frames_loop handed_frames].
    destruct (should_stop self), writer, preview_callback, progress_callback;
      cbn; rewrite ?app_nil_r; repeat split.
  - subst handed. cbn [frames_loop handed_frames].
    destruct (should_stop self) eqn:Es.
    { exists self, out, [].
      destruct writer, preview_callback, progress_callback;
        cbn; rewrite ?app_nil_r; repeat split. }
    set (self1 := if tick_stop tk then stop self else self).
    assert (Hmt : multi_tracker self1 = multi_tracker self)
      by (subst self1; destruct (tick_stop tk); reflexivity).
    assert (Hst : stats self1 = stats self)
      by (subst self1; destruct (tick_stop tk); reflexivity).
    assert (Hss : should_stop self1 = tick_stop tk).
    { subst self1. destruct (tick_stop tk); [reflexivity | exact Es]. }
    rewrite frames_loop_skip. cbn [bind].
    destruct ((skip_frames >? 0)
              && negb ((fc + 1 - 1) mod (skip_frames + 1) =? 0)).
    + destruct (IH (fc + 1) self1 out) as (self' & out' & res & H).
      * rewrite Hmt. exact Hlive.
      * rewrite Hmt. exact Hiv.
      * exists self', out', res. rewrite Hmt, Hst, Hss in H. exact H.
    + destruct (process_frame_total (multi_tracker self) (tick_frame tk)
                  (or_intror Hiv)) as (results & mt & Hp).
      rewrite Hmt, Hp. cbn [bind].
      destruct (process_frame_step _ _ _ _ Hlive Hp)
        as (Hlive1 & _ & _ & _ & Hiv1 & _ & _).
      cbn [run_frames]. rewrite Hp. cbn [bind].
      set (rest := handed_frames cap (fc + 1) skip_frames (tick_stop tk)).
      assert (Hnext :
        forall (self2 : VideoProcessor T D) (out2 : Sinks Frame),
          multi_tracker self2 = mt ->
          should_stop self2 = tick_stop tk ->
          total_frames (stats self2) = total_frames (stats self) + 1 ->
          map drawn_results (written out2)
            = map drawn_results (written out)
              ++ (if writer then [results] else []) ->
          map drawn_on (written out2)
            = map drawn_on (written out)
              ++ (if writer then [tick_frame tk] else []) ->
          map drawn_results (previewed out2)
            = map drawn_results (previewed out)
              ++ (if preview_callback then [results] else []) ->
          map (fun e => total_frames (snd e)) (progress out2)
            = map (fun e => total_frames (snd e)) (progress out)
              ++ (if progress_callback
                  then [total_frames (stats self) + 1] else []) ->
          exists self' out' res,
            frames_loop cap (fc + 1) total writer progress_callback
              preview_callback skip_frames self2 out2 = Ok (self', out') /\
            ('(more, s) <- run_frames mt rest ;; Ok (results :: more, s))
              = Ok (res, multi_tracker self') /\
            map drawn_results (written out')
              = map drawn_results (written out)
                ++ (if writer then res else []) /\
            map drawn_on (written out')
              = map drawn_on (written out)
                ++ (if writer then tick_frame tk :: rest else []) /\
            map drawn_results (previewed out')
              = map drawn_results (previewed out)
                ++ (if preview_callback then res else []) /\
            map (fun e => total_frames (snd e)) (progress out')
              = map (fun e => total_frames (snd e)) (progress out)
                ++ (if progress_callback
                    then ids_from (total_frames (stats self) + 1)
                           (List.length res)
                    else [])).
      { intros self2 out2 H2mt H2ss H2t Hw1 Hw2 Hv Hpr.
        destruct (IH (fc + 1) self2 out2) as
          (self' & out' & more & Hl & Hr & Hw1' & Hw2' & Hv' & Hpr').
        - rewrite H2mt. exact Hlive1.
        - rewrite H2mt, Hiv1. exact Hiv.
        - exists self', out', (results :: more).
          rewrite H2mt, H2ss in Hr. fold rest in Hr.
          rewrite H2ss in Hw2'. fold rest in Hw2'.
          split; [exact Hl|]. rewrite Hr. cbn [bind].
          split; [reflexivity|].
          rewrite Hw1', Hw2', Hv', Hpr', Hw1, Hw2, Hv, Hpr, H2t.
          rewrite <- !app_assoc. cbn [List.length ids_from].
          destruct writer, preview_callback, progress_callback;
            cbn [app]; repeat split. }
      destruct writer, preview_callback, progress_callback;
        apply Hnext;
        cbn [multi_tracker should_stop stats written previewed progress
               total_frames map snd];
        rewrite ?Hss, ?Hst, ?map_app, ?app_nil_r; cbn [map snd];
        try reflexivity;
        destruct (Qgtb (tick_elapsed tk) 0); reflexivity.
Qed.

(** X12. The writer, when there is one, receives exactly one annotated
    frame for each frame handed to the tracker, in order, drawn on that
    frame with that frame's result; the preview callback likewise; the
    progress callback is called once per processed frame with statistics
    whose [total_frames] is 1, 2, 3, ... *)
Theorem sinks_get_every_processed_frame (self : VideoProcessor T D)
    (cap : VideoCapture Frame)
    (output_path progress_callback preview_callback : bool)
    (skip_frames : Z) (stop_early : bool) :
  isOpened cap = true ->
  redetect_interval (multi_tracker self) <> 0 ->
  (output_path = true -> skip_frames + 1 <> 0) ->
  let handed := handed_frames (reads cap) 0 skip_frames stop_early in
  exists stats self' out res,
    returned (process_video self cap output_path progress_callback
                preview_callback skip_frames stop_early)
      = Ok (stats, self', out) /\
    run_frames (reset (multi_tracker self)) handed
      = Ok (res, multi_tracker self') /\
    map drawn_results (written out) = (if output_path then res else []) /\
    map drawn_on (written out) = (if output_path then handed else []) /\
    map drawn_results (previewed out)
      = (if preview_callback then res else []) /\
    map (fun e => total_frames (snd e)) (progress out)
      = (if progress_callback then ids_from 1 (List.length res) else []).
Proof.
  intros Hopen Hiv Hskip handed. unfold process_video. rewrite Hopen.
  cbn [negb].
  assert (Hw : (if output_path
                then effective_fps <-
                       py_fdiv (CAP_PROP_FPS cap) (skip_frames + 1) ;;
                     Ok true
                else Ok false) = Ok output_path).
  { destruct output_path; [|reflexivity]. unfold py_fdiv.
    destruct (Z.eqb_spec (skip_frames + 1) 0) as [E | _]; [|reflexivity].
    exfalso. apply (Hskip eq_refl). exact E. }
  rewrite Hw.
  set (self0 := mkVideoProcessor (reset (multi_tracker self)) true false
                  (mkStats 0 0 0 0 0%Q)).
  set (self1 := if stop_early then stop self0 else self0).
  assert (Hmt : multi_tracker self1 = reset (multi_tracker self))
    by (subst self1; destruct stop_early; reflexivity).
  assert (Hst : stats self1 = mkStats 0 0 0 0 0%Q)
    by (subst self1; destruct stop_early; reflexivity).
  assert (Hss : should_stop self1 = stop_early)
    by (subst self1; destruct stop_early; reflexivity).
  destruct (frames_loop_sinks (CAP_PROP_FRAME_COUNT cap) output_path
              progress_callback preview_callback skip_frames (reads cap) 0
              self1 (mkSinks [] [] []))
    as (self' & out & res & Hl & Hr & Hw1 & Hw2 & Hv & Hp).
  - rewrite Hmt. apply live_ok_reset.
  - rewrite Hmt. exact Hiv.
  - rewrite Hl. cbn [returned].
    rewrite Hmt, Hss in Hr. rewrite Hss in Hw2. rewrite Hst in Hp.
    cbn [written previewed progress map app total_frames Z.add] in *.
    fold handed in Hr, Hw2.
    eexists _, _, out, res. split; [reflexivity|].
    cbn [multi_tracker]. repeat split; assumption.
Qed.

End PipelineMore.

(** ** yolo_detector.py: detect_largest_person *)

Lemma max_by_area_spec (l : list Detection) :
  forall best : Detection,
  exists pre post,
    best :: l = pre ++ max_by_area best l :: post /\
    Forall (fun x => det_area x < det_area (max_by_area best l)) pre /\
    Forall (fun x => det_area x <= det_area (max_by_area best l)) post.
Proof.
  induction l as [| d rest IH]; intros best.
  - exists [], []. cbn. repeat split; constructor.
  - cbn [max_by_area]. destruct (Z.gtb_spec (det_area d) (det_area best)) as [H | H].
    + destruct (IH d) as (pre & post & E & Hpre & Hpost).
      exists (best :: pre), post. rewrite E. split; [reflexivity|].
      split; [|exact Hpost]. constructor; [|exact Hpre].
      destruct pre as [| x pre'].
      * cbn [app] in E. injection E as E _. rewrite <- E. lia.
      * cbn [app] in E. injection E as E _. subst x.
        inversion Hpre; subst. lia.
    + destruct (IH best) as (pre & post & E & Hpre & Hpost).
      destruct pre as [| x pre'].
      * cbn [app] in E. injection E as E1 E2.
        exists [], (d :: post). cbn [app].
        split; [congruence|]. split; [constructor|].
        constructor; [rewrite <- E1; lia | exact Hpost].
      * cbn [app] in E. injection E as E1 E2. subst x.
        exists (best :: d :: pre'), post. cbn [app].
        split; [congruence|]. split; [|exact Hpost].
        inversion Hpre; subst.
        constructor; [assumption|]. constructor; [lia | assumption].
Qed.

(** X13. [detect_largest_person] returns nothing exactly when the
    detector finds nobody; otherwise it returns a detection of the list
    whose area no other detection exceeds, the first of these in the
    detector's order. *)
Theorem largest_person_is_largest {Frame D : Type}
    {yolo : PersonDetector Frame D} (self : D) (image : Frame) :
  snd (detect_largest_person self image) = snd (detect self image) /\
  match fst (detect_largest_person self image) with
  | None => fst (detect self image) = []
  | Some m =>
      exists pre post,
        fst (detect self image) = pre ++ m :: post /\
        Forall (fun x => det_area x < det_area m) pre /\
        Forall (fun x => det_area x <= det_area m) post
  end.
Proof.
  unfold detect_largest_person.
  destruct (detect self image) as [[| first rest] d]; cbn [fst snd].
  - split; reflexivity.
  - split; [reflexivity|]. apply max_by_area_spec.
Qed.

(** ** tracker.py: LightweightTracker and HybridTracker *)

Section Legacy.
Context {Frame T D : Type} {cv2 : Cv2 Frame T} {yolo : PersonDetector Frame D}.

(** X14. [LightweightTracker.init] succeeds exactly when the box has a
    positive width and height and the capability accepts it; then the
    tracker holds the box with a fresh counter and full confidence.  A
    box without extent is refused before any tracker is made, and a
    refused [init] never changes what [get_bbox] returns. *)
Theorem lightweight_init (s : LightweightTracker.self T) (frame : Frame)
    (x1 y1 x2 y2 : Z) :
  let r := LightweightTracker.init s frame (x1, y1, x2, y2) in
  (fst r = true <->
   0 < x2 - x1 /\ 0 < y2 - y1 /\
   fst (tracker_init (create_tracker (LightweightTracker.tracker_type s))
          frame (x1, y1, x2 - x1, y2 - y1)) = true) /\
  (fst r = true ->
   LightweightTracker.get_bbox (snd r) = Some (x1, y1, x2, y2) /\
   LightweightTracker.frames_since_init (snd r) = 0 /\
   LightweightTracker.confidence (snd r) = 1%Q) /\
  (fst r = false ->
   LightweightTracker.get_bbox (snd r) = LightweightTracker.get_bbox s /\
   LightweightTracker.frames_since_init (snd r)
     = LightweightTracker.frames_since_init s /\
   LightweightTracker.confidence (snd r) = LightweightTracker.confidence s) /\
  (x2 - x1 <= 0 \/ y2 - y1 <= 0 -> r = (false, s)).
Proof.
  intros r. subst r. unfold LightweightTracker.init.
  destruct (Z.leb_spec (x2 - x1) 0) as [Hw | Hw];
    [|destruct (Z.leb_spec (y2 - y1) 0) as [Hh | Hh]]; cbn [orb].
  - cbn [fst snd]. repeat split; try discriminate; try reflexivity.
    intros (H & _). lia.
  - cbn [fst snd]. repeat split; try discriminate; try reflexivity.
    intros (_ & H & _). lia.
  - unfold LightweightTracker._create_tracker.
    destruct (tracker_init _ frame _) as [[] t]; cbn [fst snd].
    + repeat split; try discriminate; try reflexivity; try assumption;
        intros [H | H]; lia.
    + repeat split; try discriminate; try reflexivity;
        try (intros (_ & _ & H); discriminate);
        intros [H | H]; lia.
Qed.

Lemma lightweight_update_off (s : LightweightTracker.self T) (frame : Frame) :
  LightweightTracker.is_initialized s = false ->
  LightweightTracker.update s frame = ((false, None, 0%Q), s).
Proof.
  intros H. unfold LightweightTracker.update. rewrite H. reflexivity.
Qed.

(** X15. A [LightweightTracker] does not recover by itself.  The
    methods keep a tracker object in every initialised state; on such a
    state, once an [update] has failed (and as long as [init] is not
    called) [get_bbox]
    returns nothing, [should_redetect] holds for every interval, and
    every further [update] returns [(False, None, 0.0)] without calling
    the capability or changing the object. *)
Theorem lightweight_failure_is_final (s : LightweightTracker.self T)
    (frame : Frame) (frames : list Frame) (redetect_interval : Z) :
  (LightweightTracker.is_initialized s = true ->
   LightweightTracker.tracker s <> None) ->
  fst (fst (fst (LightweightTracker.update s frame))) = false ->
  let s' := snd (LightweightTracker.update s frame) in
  fst (LightweightTracker.update s frame) = (false, None, 0%Q) /\
  LightweightTracker.get_bbox s' = None /\
  LightweightTracker.should_redetect s' redetect_interval = true /\
  LightweightTracker.updates s' frames
    = (map (fun _ => (false, None, 0%Q)) frames, s').
Proof.
  intros Hwf Hfail s'.
  assert (Hoff : LightweightTracker.is_initialized s' = false
                 /\ fst (LightweightTracker.update s frame) = (false, None, 0%Q)).
  { subst s'. unfold LightweightTracker.update in *.
    destruct (LightweightTracker.is_initialized s) eqn:Ei;
      [destruct (LightweightTracker.tracker s) as [t |]|];
      cbn [fst snd] in *.
    - destruct (tracker_update t frame) as [[[] b] t'].
      + destruct b as [[[x y] w] h]. cbn in Hfail. discriminate.
      + split; reflexivity.
    - exfalso. apply (Hwf eq_refl). reflexivity.
    - split; [exact Ei | reflexivity]. }
  destruct Hoff as [Hoff Hret].
  split; [exact Hret|]. split.
  { unfold LightweightTracker.get_bbox. rewrite Hoff. reflexivity. }
  split.
  { unfold LightweightTracker.should_redetect. rewrite Hoff. reflexivity. }
  clearbody s'. induction frames as [| f rest IH]; [reflexivity|].
  cbn [LightweightTracker.updates map].
  rewrite (lightweight_update_off s' f Hoff), IH. reflexivity.
Qed.

Lemma lightweight_updates_won (frames : list Frame) :
  forall (s s' : LightweightTracker.self T) rs,
    LightweightTracker.is_initialized s = true ->
    LightweightTracker.updates s frames = (rs, s') ->
    Forall (fun r => fst (fst r) = true) rs ->
    LightweightTracker.is_initialized s' = true /\
    LightweightTracker.frames_since_init s'
      = LightweightTracker.frames_since_init s
        + Z.of_nat (List.length frames) /\
    (frames <> [] ->
     LightweightTracker.confidence s'
       = decayed (LightweightTracker.frames_since_init s')) /\
    (frames = [] -> s' = s).
Proof.
  induction frames as [| f rest IH]; intros s s' rs Hi H Hall.
  - cbn in H. injection H as <- <-. cbn. rewrite Z.add_0_r.
    repeat split; try assumption. congruence.
  - cbn [LightweightTracker.updates] in H.
    destruct (LightweightTracker.update s f) as [r s1] eqn:Eu.
    destruct (LightweightTracker.updates s1 rest) as [rs1 s2] eqn:Er.
    injection H as <- <-. inversion Hall as [| ? ? Hr Hrest]; subst.
    unfold LightweightTracker.update in Eu. rewrite Hi in Eu.
    destruct (LightweightTracker.tracker s) as [t |];
      [|injection Eu as <- _; discriminate].
    destruct (tracker_update t f) as [[[] b] t'];
      [|injection Eu as <- _; discriminate].
    destruct b as [[[x y] w] h]. injection Eu as _ <-.
    pose proof (fun Hi' => IH _ _ _ Hi' Er Hrest) as Hnext.
    cbn [LightweightTracker.is_initialized
           LightweightTracker.frames_since_init LightweightTracker.confidence]
      in Hnext.
    destruct (Hnext eq_refl) as (H1 & H2 & H3 & H4).
    split; [exact H1|]. split; [rewrite H2; cbn [List.length]; lia|].
    split; [|discriminate].
    intros _. destruct rest as [| f' rest'].
    + rewrite (H4 eq_refl). reflexivity.
    + apply H3. discriminate.
Qed.

(** X16. After a successful [init] and [n] successful updates the
    confidence is what [max(0.3, 1.0 - n * 0.02)] evaluates to in float
    arithmetic, and [should_redetect] holds exactly when [n] has reached
    the interval or 26: whatever the interval, a redetection is due after
    26 tracked frames. *)
Theorem lightweight_redetect_after_26 (s : LightweightTracker.self T)
    (frame : Frame) (box : Box) (frames : list Frame)
    (s0 s' : LightweightTracker.self T)
    (rs : list (bool * option Box * Q)) (redetect_interval : Z) :
  LightweightTracker.init s frame box = (true, s0) ->
  LightweightTracker.updates s0 frames = (rs, s') ->
  Forall (fun r => fst (fst r) = true) rs ->
  let n := Z.of_nat (List.length frames) in
  LightweightTracker.frames_since_init s' = n /\
  (LightweightTracker.confidence s'
   == py_max (Float.lit (3 # 10))
        (Float.sub 1 (Float.mul (Float.of_int n) (Float.lit (2 # 100)))))%Q /\
  LightweightTracker.should_redetect s' redetect_interval
    = (redetect_interval <=? n) || (26 <=? n).
Proof.
  intros Hinit Hup Hall n.
  assert (H0 : LightweightTracker.is_initialized s0 = true
               /\ LightweightTracker.frames_since_init s0 = 0
               /\ LightweightTracker.confidence s0 = 1%Q).
  { unfold LightweightTracker.init in Hinit.
    destruct box as [[[x1 y1] x2] y2].
    destruct ((x2 - x1 <=? 0) || (y2 - y1 <=? 0)); [discriminate|].
    destruct (tracker_init _ frame _) as [[] t]; [|discriminate].
    injection Hinit as <-. repeat split. }
  destruct H0 as (Hi0 & Hn0 & Hc0).
  destruct (lightweight_updates_won frames s0 s' rs Hi0 Hup Hall)
    as (Hi & Hn & Hc & Hsame).
  rewrite Hn0, Z.add_0_l in Hn. fold n in Hn.
  assert (Hconf : (LightweightTracker.confidence s' == decayed n)%Q
                  /\ Qltb (LightweightTracker.confidence s') (1 # 2)
                     = (26 <=? n)).
  { destruct frames as [| f rest].
    - rewrite (Hsame eq_refl), Hc0. split; vm_compute; reflexivity.
    - rewrite (Hc ltac:(discriminate)), Hn. split.
      + reflexivity.
      + apply decayed_below_half. unfold n. lia. }
  destruct Hconf as [Hq Hhalf].
  split; [exact Hn|]. split; [exact Hq|].
  unfold LightweightTracker.should_redetect.
  rewrite Hi, Hhalf, Hn. cbn [negb].
  destruct (26 <=? n); [rewrite orb_true_r; reflexivity|].
  rewrite orb_false_r. rewrite Z.geb_leb.
  destruct (redetect_interval <=? n); reflexivity.
Qed.

(** X17. On an empty live set [HybridTracker.process_frame] reports the
    first detection of the detector, with method "yolo" and the
    detection's confidence, and reports [(None, "none", 0.0)] when the
    detector finds nobody. *)
Theorem hybrid_reports_first_detection (h : HybridTracker.self T D)
    (frame : Frame) (dets : list Detection) (d : D) :
  tracked_persons (HybridTracker.multi_tracker h) = [] ->
  frame_count (HybridTracker.multi_tracker h) = 0
  \/ redetect_interval (HybridTracker.multi_tracker h) <> 0 ->
  detect (detector (HybridTracker.multi_tracker h)) frame = (dets, d) ->
  exists h',
    HybridTracker.process_frame h frame
    = Ok (match dets with
          | [] => (None, "none"%string, 0%Q)
          | det :: _ => (Some (det_box det), "yolo"%string, det_conf det)
          end, h').
Proof.
  intros Hempty Hcfg Hd.
  destruct (first_frame (HybridTracker.multi_tracker h) frame dets d
              Hempty Hcfg Hd) as (mt & Hp & _).
  unfold HybridTracker.process_frame. rewrite Hp. cbn [bind].
  destruct dets as [| det rest]; cbn; eexists; reflexivity.
Qed.

End Legacy.

(** ** Boxes without extent *)

Lemma inter_area_degenerate (a b : Box) :
  ~ valid_box a \/ ~ valid_box b -> inter_area a b = 0.
Proof.
  destruct a as [[[ax1 ay1] ax2] ay2], b as [[[bx1 by1] bx2] by2].
  unfold valid_box, inter_area. intros H.
  assert (Hc : Z.min ax2 bx2 - Z.max ax1 bx1 <= 0
               \/ Z.min ay2 by2 - Z.max ay1 by1 <= 0) by lia.
  destruct Hc as [Hc | Hc].
  - rewrite (Z.max_l 0 (Z.min ax2 bx2 - Z.max ax1 bx1)) by lia. lia.
  - rewrite (Z.max_l 0 (Z.min ay2 by2 - Z.max ay1 by1)) by lia. lia.
Qed.

Lemma calc_iou_degenerate (a b : Box) :
  ~ valid_box a \/ ~ valid_box b ->
  exists q, calc_iou a b = Ok q /\ (q == 0)%Q.
Proof.
  intros H. rewrite calc_iou_value. eexists. split; [reflexivity|].
  destruct (union_area a b =? 0); [reflexivity|].
  rewrite (inter_area_degenerate a b H). unfold Qdiv. apply Qmult_0_l.
Qed.

Lemma valid_box_dec (a : Box) : valid_box a \/ ~ valid_box a.
Proof.
  destruct a as [[[x1 y1] x2] y2]. unfold valid_box. lia.
Qed.

Section Degenerate.
Context {Frame T D : Type} {cv2 : Cv2 Frame T} {yolo : PersonDetector Frame D}.

Lemma best_track_loop_degenerate (box : Box) (matched : list Z) (thr : Q)
    (items : dict (TrackedPerson T)) :
  ~ valid_box box ->
  forall (bi : Q) (bo : option Z),
    (0 <= bi)%Q ->
    best_track_loop items matched box thr bi bo = Ok (bi, bo).
Proof.
  intros Hbox. induction items as [| [k p] rest IH]; intros bi bo Hbi;
    [reflexivity|].
  cbn [best_track_loop]. destruct (set_mem k matched); [apply IH; exact Hbi|].
  destruct (calc_iou_degenerate box (bbox p) (or_introl Hbox))
    as (q & -> & Hq).
  cbn [bind]. destruct (Qgtb q bi) eqn:E.
  - apply Qgtb_lt in E. rewrite Hq in E. lra.
  - cbn [andb]. apply IH. exact Hbi.
Qed.

Lemma match_loop_degenerate (frame : Frame) (ty : TrackerType) (thr : Q)
    (st : Assoc) (dets : list (Z * Detection)) :
  Forall (fun e => ~ valid_box (det_box (snd e))) dets ->
  match_loop dets frame ty thr st = Ok st.
Proof.
  induction dets as [| [i det] rest IH]; intros H; [reflexivity|].
  inversion H as [| ? ? Hdet Hrest]; subst. cbn [snd] in Hdet.
  cbn [match_loop].
  rewrite (best_track_loop_degenerate (det_box det) _ thr _ Hdet 0%Q None)
    by lra.
  cbn [bind]. apply IH. exact Hrest.
Qed.

(** X18. The association only ever pairs boxes that have an extent: when
    it picks a track for a detection, the box of the detection and the
    box of the track both have a positive width and height.  A track
    whose box has collapsed is never confirmed by a detection. *)
Theorem matched_boxes_have_extent (items : dict (TrackedPerson T))
    (matched : list Z) (box : Box) (thr : Q) (q : Q) (k : Z) :
  best_track_loop items matched box thr 0 None = Ok (q, Some k) ->
  valid_box box /\
  exists p,
    In (k, p) items /\ valid_box (bbox p) /\
    calc_iou box (bbox p) = Ok q /\ (0 < q)%Q.
Proof.
  intros H.
  destruct (best_track_loop_best items matched box thr 0%Q None q (Some k) H)
    as (_ & [[E _] | (k0 & p & E & Hin & _ & Hq & _ & Hpos)] & _);
    [discriminate|].
  injection E as <-.
  assert (Hv : valid_box box /\ valid_box (bbox p)).
  { destruct (valid_box_dec box) as [Hb | Hb],
             (valid_box_dec (bbox p)) as [Hp | Hp];
      try (split; assumption); exfalso.
    - destruct (calc_iou_degenerate box (bbox p) (or_intror Hp))
        as (q' & Hq' & Hz).
      rewrite Hq in Hq'. injection Hq' as <-. rewrite Hz in Hpos. lra.
    - destruct (calc_iou_degenerate box (bbox p) (or_introl Hb))
        as (q' & Hq' & Hz).
      rewrite Hq in Hq'. injection Hq' as <-. rewrite Hz in Hpos. lra.
    - destruct (calc_iou_degenerate box (bbox p) (or_introl Hb))
        as (q' & Hq' & Hz).
      rewrite Hq in Hq'. injection Hq' as <-. rewrite Hz in Hpos. lra. }
  destruct Hv as [Hb Hp]. split; [exact Hb|].
  exists p. split; [exact Hin|]. split; [exact Hp|].
  split; [exact Hq | exact Hpos].
Qed.

(** On a frame that goes through the detector and on which no detection
    has a positive width and height, every detection gets a new identity,
    whatever the live set holds, when [init] answers. *)
Lemma degenerate_detections_answered (self : MultiPersonTracker T D)
    (frame : Frame) (dets : list Detection) (d : D) :
  live_ok self ->
  need_yolo (counted self) = Ok true ->
  detect (detector self) frame = (dets, d) ->
  Forall (fun det => ~ valid_box (det_box det)) dets ->
  exists results self',
    process_frame self frame = Ok (results, self') /\
    filter is_yolo results
    = map (fun e => (fst e, det_box (snd e), det_conf (snd e), "yolo"%string))
        (combine (ids_from (next_id self) (List.length dets)) dets) /\
    next_id self' = next_id self + Z.of_nat (List.length dets).
Proof.
  intros Hlive Hn Hd Hdeg.
  rewrite process_frame_unfold, Hn. cbn [bind].
  destruct (is_empty dets) eqn:He.
  - destruct dets; [|discriminate].
    unfold _process_with_yolo. cbn [detector counted]. rewrite Hd.
    cbn [is_empty]. rewrite _process_with_trackers_spec. cbn [bind].
    eexists _, _. split; [reflexivity|].
    rewrite reported_not_yolo. split; [reflexivity|].
    unfold _cleanup_inactive, with_persons. cbn. lia.
  - destruct (_process_with_yolo_spec (counted self) frame dets d Hd He
                (live_ok_keys_lt self Hlive)) as (st & Hst & _ & Heq).
    assert (Est : st = mkAssoc (tracked_persons self) [] [] []).
    { unfold associate in Hst.
      cbn [tracked_persons with_detector counted tracker_type iou_threshold]
        in Hst.
      destruct (negb (is_empty (tracked_persons self))).
      - rewrite match_loop_degenerate in Hst; [congruence|].
        clear -Hdeg. unfold enumerate. generalize 0.
        induction dets as [| det rest IH]; intros i; [constructor|].
        inversion Hdeg; subst. constructor; [assumption | apply IH; assumption].
      - congruence. }
    subst st. cbv zeta in Heq.
    cbn [a_persons a_matched_track_ids a_matched_det_indices a_results
           next_id tracker_type counted app] in Heq.
    assert (Hu : unmatched_dets (enumerate dets) [] = enumerate dets).
    { unfold unmatched_dets. apply filter_all. reflexivity. }
    rewrite Hu in Heq. rewrite Heq. cbn [bind].
    eexists _, _. split; [reflexivity|]. split.
    + rewrite filter_app, reported_not_yolo, app_nil_r, new_results_yolo.
      apply new_results_combine.
    + unfold _cleanup_inactive, with_persons. cbn [next_id].
      unfold enumerate. rewrite !enumerate_from_length. reflexivity.
Qed.

End Degenerate.

Section Reuse.
Context {Frame T D : Type} {cv2 : Cv2 Frame T} {yolo : PersonDetector Frame D}.

(** X20. [process_video] starts from scratch: what it returns and what
    the sinks receive depend on the detector, the tracker type, the
    interval and the threshold of the processor only, not on the tracks,
    identities, counters and statistics left by an earlier run, and not
    on a [stop()] issued before the call, which is forgotten. *)
Theorem earlier_state_is_forgotten (self other : VideoProcessor T D)
    (cap : VideoCapture Frame)
    (output_path progress_callback preview_callback : bool)
    (skip_frames : Z) (stop_early : bool) :
  detector (multi_tracker other) = detector (multi_tracker self) ->
  tracker_type (multi_tracker other) = tracker_type (multi_tracker self) ->
  redetect_interval (multi_tracker other)
    = redetect_interval (multi_tracker self) ->
  iou_threshold (multi_tracker other) = iou_threshold (multi_tracker self) ->
  process_video other cap output_path progress_callback preview_callback
    skip_frames stop_early
  = process_video self cap output_path progress_callback preview_callback
      skip_frames stop_early
  /\ process_video (stop self) cap output_path progress_callback
       preview_callback skip_frames stop_early
     = process_video self cap output_path progress_callback preview_callback
         skip_frames stop_early.
Proof.
  intros Hd Hty Hiv Hthr. unfold process_video, reset.
  cbn [stop multi_tracker]. rewrite Hd, Hty, Hiv, Hthr.
  split; reflexivity.
Qed.

End Reuse.

(** ** When [init] raises: lemmas *)

Section RaisingFacts.
Context {Frame T D : Type} {cv2 : Cv2 Frame T} {yolo : PersonDetector Frame D}.
Variable raises : Frame -> CvBox -> bool.

Lemma Raising_TrackedPerson_init_ok (i : Z) (b : Box) (frame : Frame)
    (ty : TrackerType) :
  raises frame (cv_seed b) = false ->
  Raising.TrackedPerson_init raises i b frame ty
  = Ok (TrackedPerson_init i b frame ty).
Proof.
  intros H. unfold Raising.TrackedPerson_init, TrackedPerson_init, Raising.init.
  destruct b as [[[x1 y1] x2] y2]. cbn [cv_seed] in H. rewrite H.
  cbn [bind]. destruct (tracker_init _ _ _). reflexivity.
Qed.

Lemma Raising_TrackedPerson_init_raises (i : Z) (b : Box) (frame : Frame)
    (ty : TrackerType) :
  raises frame (cv_seed b) = true ->
  Raising.TrackedPerson_init raises i b frame ty = Raise cv2_error.
Proof.
  intros H. unfold Raising.TrackedPerson_init, Raising.init.
  destruct b as [[[x1 y1] x2] y2]. cbn [cv_seed] in H. rewrite H.
  reflexivity.
Qed.

Lemma Raising_update_with_detection_ok (p : TrackedPerson T) (b : Box)
    (frame : Frame) (ty : TrackerType) :
  raises frame (cv_seed b) = false ->
  Raising.update_with_detection raises p b frame ty
  = Ok (update_with_detection p b frame ty).
Proof.
  intros H.
  unfold Raising.update_with_detection, update_with_detection, Raising.init.
  destruct b as [[[x1 y1] x2] y2]. cbn [cv_seed] in H. rewrite H.
  cbn [bind]. destruct (tracker_init _ _ _). reflexivity.
Qed.

Lemma Raising_update_with_detection_raises (p : TrackedPerson T) (b : Box)
    (frame : Frame) (ty : TrackerType) :
  raises frame (cv_seed b) = true ->
  Raising.update_with_detection raises p b frame ty = Raise cv2_error.
Proof.
  intros H. unfold Raising.update_with_detection, Raising.init.
  destruct b as [[[x1 y1] x2] y2]. cbn [cv_seed] in H. rewrite H.
  reflexivity.
Qed.

Lemma Raising_dict_update_ok (k : Z)
    (f : TrackedPerson T -> result (TrackedPerson T))
    (g : TrackedPerson T -> TrackedPerson T) (d : dict (TrackedPerson T)) :
  (forall p, f p = Ok (g p)) ->
  Raising.dict_update k f d = Ok (dict_update k g d).
Proof.
  intros H. induction d as [| [k' v] rest IH]; [reflexivity|].
  cbn [Raising.dict_update dict_update]. destruct (k =? k').
  - rewrite H. reflexivity.
  - rewrite IH. reflexivity.
Qed.

Lemma Raising_dict_update_raises (k : Z)
    (f : TrackedPerson T -> result (TrackedPerson T)) (e : exn)
    (d : dict (TrackedPerson T)) :
  (forall p, f p = Raise e) -> In k (keys d) ->
  Raising.dict_update k f d = Raise e.
Proof.
  intros H. induction d as [| [k' v] rest IH]; intros Hin; [destruct Hin|].
  cbn [Raising.dict_update]. destruct (Z.eqb_spec k k') as [E | E].
  - rewrite H. reflexivity.
  - destruct Hin as [E' | Hin]; [cbn in E'; congruence|].
    rewrite (IH Hin). reflexivity.
Qed.

(** The association either raises [cv2.error] or ends as it does when
    [init] answers, having matched no detection on whose seed [init]
    raises. *)
Lemma Raising_match_loop_cases (frame : Frame) (ty : TrackerType) (thr : Q) :
  forall (dets : list (Z * Detection)) (st : Assoc),
    Raising.match_loop raises dets frame ty thr st = Raise cv2_error \/
    (Raising.match_loop raises dets frame ty thr st
     = match_loop dets frame ty thr st /\
     exists st',
       match_loop dets frame ty thr st = Ok st' /\
       forall i,
         In i (a_matched_det_indices st') ->
         In i (a_matched_det_indices st) \/
         exists det, In (i, det) dets /\
                     raises frame (cv_seed (det_box det)) = false).
Proof.
  induction dets as [| [i det] rest IH]; intros st.
  - right. split; [reflexivity|]. exists st. split; [reflexivity|].
    intros j Hj. left. exact Hj.
  - cbn [Raising.match_loop match_loop].
    destruct (best_track_loop_spec (a_persons st) (a_matched_track_ids st)
                (det_box det) thr 0%Q None) as (q & o & -> & Ho).
    cbn [bind]. destruct o as [k |].
    + destruct Ho as [Ho | (k' & Ek & Hk & _)]; [discriminate|].
      injection Ek as <-.
      destruct (raises frame (cv_seed (det_box det))) eqn:Er.
      * left.
        rewrite (Raising_dict_update_raises k _ cv2_error); [reflexivity | |].
        -- intros p. apply Raising_update_with_detection_raises. exact Er.
        -- exact Hk.
      * rewrite (Raising_dict_update_ok k _
                   (fun p => update_with_detection p (det_box det) frame ty)).
        2:{ intros p. apply Raising_update_with_detection_ok. exact Er. }
        cbn [bind].
        match goal with
        | |- context [match_loop rest frame ty thr ?s] =>
            destruct (IH s) as [Hr | (Heq & st' & Hst & Hm)]
        end.
        -- left. exact Hr.
        -- right. split; [exact Heq|]. exists st'. split; [exact Hst|].
           intros j Hj. destruct (Hm j Hj) as [Hin | (det' & Hin & Hf)].
           ++ cbn [a_matched_det_indices] in Hin.
              apply set_add_In in Hin. destruct Hin as [-> | Hin].
              ** right. exists det. split; [left; reflexivity | exact Er].
              ** left. exact Hin.
           ++ right. exists det'. split; [right; exact Hin | exact Hf].
    + destruct (IH st) as [Hr | (Heq & st' & Hst & Hm)].
      * left. exact Hr.
      * right. split; [exact Heq|]. exists st'. split; [exact Hst|].
        intros j Hj. destruct (Hm j Hj) as [Hin | (det' & Hin & Hf)].
        -- left. exact Hin.
        -- right. exists det'. split; [right; exact Hin | exact Hf].
Qed.

Lemma Raising_create_loop_ok (frame : Frame) (ty : TrackerType)
    (matched : list Z) :
  forall (dets : list (Z * Detection)) (persons : dict (TrackedPerson T))
         (next : Z) (results : list Result),
    (forall i det, In (i, det) dets -> ~ In i matched ->
       raises frame (cv_seed (det_box det)) = false) ->
    Raising.create_loop raises dets frame ty matched persons next results
    = Ok (create_loop dets frame ty matched persons next results).
Proof.
  induction dets as [| [i det] rest IH]; intros persons next results H;
    [reflexivity|].
  cbn [Raising.create_loop create_loop].
  destruct (set_mem i matched) eqn:Em; cbn [negb].
  - apply IH. intros j d' Hin. apply H. right. exact Hin.
  - rewrite Raising_TrackedPerson_init_ok.
    + cbn [bind]. apply IH. intros j d' Hin. apply H. right. exact Hin.
    + apply (H i det); [left; reflexivity|]. apply set_mem_false. exact Em.
Qed.

Lemma Raising_create_loop_raises (frame : Frame) (ty : TrackerType)
    (matched : list Z) :
  forall (dets : list (Z * Detection)) (persons : dict (TrackedPerson T))
         (next : Z) (results : list Result),
    (exists i det, In (i, det) dets /\ ~ In i matched /\
       raises frame (cv_seed (det_box det)) = true) ->
    Raising.create_loop raises dets frame ty matched persons next results
    = Raise cv2_error.
Proof.
  induction dets as [| [i det] rest IH]; intros persons next results
    (j & d' & Hin & Hm & Hr); [destruct Hin|].
  cbn [Raising.create_loop].
  destruct (set_mem i matched) eqn:Em; cbn [negb].
  - apply IH. exists j, d'. destruct Hin as [E | Hin].
    + injection E as -> ->. apply set_mem_In in Em. contradiction.
    + split; [exact Hin|]. split; assumption.
  - destruct (raises frame (cv_seed (det_box det))) eqn:Er.
    + rewrite Raising_TrackedPerson_init_raises by exact Er. reflexivity.
    + rewrite Raising_TrackedPerson_init_ok by exact Er. cbn [bind].
      apply IH. exists j, d'. destruct Hin as [E | Hin].
      * injection E as -> ->. congruence.
      * split; [exact Hin|]. split; assumption.
Qed.

(** On a detector frame, [init] is called on the seed of every
    detection: if it raises on one of them, the frame raises. *)
Lemma Raising_process_with_yolo_raises (self : MultiPersonTracker T D)
    (frame : Frame) (dets : list Detection) (d : D) (det : Detection) :
  detect (detector self) frame = (dets, d) ->
  In det dets ->
  raises frame (cv_seed (det_box det)) = true ->
  Raising._process_with_yolo raises self frame = Raise cv2_error.
Proof.
  intros Hd Hin Hr. unfold Raising._process_with_yolo. rewrite Hd.
  destruct dets as [| d0 rest] eqn:Edets; [destruct Hin|].
  rewrite <- Edets in *. assert (He : is_empty dets = false) by (subst; reflexivity).
  rewrite He.
  destruct (proj1 (enumerate_from_In dets 0 det) Hin) as [i Hi].
  fold (enumerate dets) in Hi.
  assert (Hnd : NoDup (map fst (enumerate dets))).
  { unfold enumerate. rewrite enumerate_from_keys. apply ids_from_NoDup. }
  assert (Hcreate : forall st : @Assoc T,
             (forall j, In j (a_matched_det_indices st) ->
                exists det', In (j, det') (enumerate dets) /\
                             raises frame (cv_seed (det_box det')) = false) ->
             forall persons next results,
               Raising.create_loop raises (enumerate dets) frame
                 (tracker_type (with_detector self d))
                 (a_matched_det_indices st) persons next results
               = Raise cv2_error).
  { intros st Hm persons next results. apply Raising_create_loop_raises.
    exists i, det. split; [exact Hi|]. split; [|exact Hr].
    intros Hmi. destruct (Hm i Hmi) as (det' & Hin' & Hf).
    rewrite (NoDup_fst_functional _ i det det' Hnd Hi Hin') in Hr.
    congruence. }
  destruct (negb (is_empty (tracked_persons (with_detector self d)))).
  - match goal with
    | |- context [Raising.match_loop raises ?ds frame ?ty ?thr ?s] =>
        destruct (Raising_match_loop_cases frame ty thr ds s)
          as [Hraise | (Heq & st' & Hst & Hm)]
    end.
    + rewrite Hraise. reflexivity.
    + rewrite Heq, Hst. cbn [bind]. rewrite Hcreate; [reflexivity|].
      intros j Hj. destruct (Hm j Hj) as [[] | H]. exact H.
  - cbn [bind]. rewrite Hcreate; [reflexivity|]. intros j [].
Qed.

(** On a frame where [init] raises on the seed of no detection, the
    methods are the ones for an [init] that answers. *)
Lemma Raising_process_with_yolo_ok (self : MultiPersonTracker T D)
    (frame : Frame) :
  (forall det, In det (fst (detect (detector self) frame)) ->
     raises frame (cv_seed (det_box det)) = false) ->
  Raising._process_with_yolo raises self frame = _process_with_yolo self frame.
Proof.
  intros H. unfold Raising._process_with_yolo, _process_with_yolo.
  destruct (detect (detector self) frame) as [dets d]. cbn [fst] in H.
  destruct (is_empty dets); [reflexivity|].
  assert (Hall : forall i det, In (i, det) (enumerate dets) ->
                   raises frame (cv_seed (det_box det)) = false).
  { intros i det Hin. apply H.
    apply (enumerate_from_In dets 0 det). exists i. exact Hin. }
  assert (Hm : forall st : @Assoc T,
             Raising.match_loop raises (enumerate dets) frame
               (tracker_type (with_detector self d))
               (iou_threshold (with_detector self d)) st
             = match_loop (enumerate dets) frame
                 (tracker_type (with_detector self d))
                 (iou_threshold (with_detector self d)) st).
  { intros st.
    destruct (Raising_match_loop_cases frame
                (tracker_type (with_detector self d))
                (iou_threshold (with_detector self d)) (enumerate dets) st)
      as [Hraise | (Heq & _)]; [|exact Heq].
    exfalso. revert st Hraise. generalize (enumerate dets) Hall.
    induction l as [| [i det] rest IH]; intros Hl st Hraise;
      [discriminate|].
    cbn [Raising.match_loop] in Hraise.
    destruct (best_track_loop_spec (a_persons st) (a_matched_track_ids st)
                (det_box det) (iou_threshold (with_detector self d)) 0%Q None)
      as (q & o & Hb & _).
    rewrite Hb in Hraise. cbn [bind] in Hraise. destruct o as [k |].
    - rewrite (Raising_dict_update_ok k _
                 (fun p => update_with_detection p (det_box det) frame
                             (tracker_type (with_detector self d))))
        in Hraise.
      + cbn [bind] in Hraise. eapply IH; [|exact Hraise].
        intros j d' Hin. apply (Hl j). right. exact Hin.
      + intros p. apply Raising_update_with_detection_ok.
        apply (Hl i). left. reflexivity.
    - eapply IH; [|exact Hraise].
      intros j d' Hin. apply (Hl j). right. exact Hin. }
  destruct (negb (is_empty (tracked_persons (with_detector self d)))).
  - rewrite Hm. destruct (match_loop _ _ _ _ _) as [st |]; [|reflexivity].
    cbn [bind]. rewrite Raising_create_loop_ok.
    + cbn [bind]. destruct (create_loop _ _ _ _ _ _ _) as [[ps nx] rs].
      reflexivity.
    + intros i det Hin _. apply (Hall i det Hin).
  - cbn [bind]. rewrite Raising_create_loop_ok.
    + cbn [bind]. destruct (create_loop _ _ _ _ _ _ _) as [[ps nx] rs].
      reflexivity.
    + intros i det Hin _. apply (Hall i det Hin).
Qed.

Lemma Raising_process_frame_ok (self : MultiPersonTracker T D)
    (frame : Frame) :
  (forall det, In det (fst (detect (detector self) frame)) ->
     raises frame (cv_seed (det_box det)) = false) ->
  Raising.process_frame raises self frame = process_frame self frame.
Proof.
  intros H. unfold Raising.process_frame, process_frame.
  destruct (need_yolo _) as [[] | e]; try reflexivity.
  cbn [bind]. rewrite Raising_process_with_yolo_ok; [reflexivity|].
  exact H.
Qed.

Lemma Raising_process_frame_raises (self : MultiPersonTracker T D)
    (frame : Frame) (dets : list Detection) (d : D) (det : Detection) :
  need_yolo (counted self) = Ok true ->
  detect (detector self) frame = (dets, d) ->
  In det dets ->
  raises frame (cv_seed (det_box det)) = true ->
  Raising.process_frame raises self frame = Raise cv2_error.
Proof.
  intros Hn Hd Hin Hr. unfold Raising.process_frame.
  fold (counted self). rewrite Hn. cbn [bind].
  rewrite (Raising_process_with_yolo_raises (counted self) frame dets d det
             Hd Hin Hr).
  reflexivity.
Qed.

End RaisingFacts.

Section RaisingClaims.
Context {Frame T D : Type} {cv2 : Cv2 Frame T} {yolo : PersonDetector Frame D}.

(** C2.  There is no [TrackInitError], and a detection whose seed region
    the capability rejects is never dropped.  When [init] raises on the
    seed of one detection of a frame that goes through the detector, as
    OpenCV does on a region without extent, [process_frame] raises
    [cv2.error]: nothing catches it, and the run is aborted.  When [init]
    answers on every seed, its answer is discarded: every detection is
    registered as a track, also one whose seed was answered with
    [False]. *)
Theorem rejected_seed_is_not_dropped (raises : Frame -> CvBox -> bool)
    (self : MultiPersonTracker T D) (frame : Frame) (dets : list Detection)
    (d : D) :
  live_ok self ->
  need_yolo (counted self) = Ok true ->
  detect (detector self) frame = (dets, d) ->
  ((exists det, In det dets /\ raises frame (cv_seed (det_box det)) = true) ->
   Raising.process_frame raises self frame = Raise cv2_error) /\
  ((forall det, In det dets ->
      raises frame (cv_seed (det_box det)) = false) ->
   exists results self',
     Raising.process_frame raises self frame = Ok (results, self') /\
     forall det, In det dets ->
       exists k p,
         In (k, det_box det, det_conf det, "yolo"%string) results /\
         In (k, p) (tracked_persons self') /\
         is_active p = true).
Proof.
  intros Hlive Hn Hd. split.
  - intros (det & Hin & Hr).
    apply (Raising_process_frame_raises raises self frame dets d det Hn Hd
             Hin Hr).
  - intros Hall. rewrite Raising_process_frame_ok.
    + apply (every_detection_is_registered self frame dets d Hlive Hn Hd).
    + rewrite Hd. exact Hall.
Qed.

Lemma Raising_match_loop_degenerate (raises : Frame -> CvBox -> bool)
    (frame : Frame) (ty : TrackerType) (thr : Q)
    (st : @Assoc T) (dets : list (Z * Detection)) :
  Forall (fun e => ~ valid_box (det_box (snd e))) dets ->
  Raising.match_loop raises dets frame ty thr st = Ok st.
Proof.
  induction dets as [| [i det] rest IH]; intros H; [reflexivity|].
  inversion H as [| ? ? Hdet Hrest]; subst. cbn [snd] in Hdet.
  cbn [Raising.match_loop].
  rewrite (best_track_loop_degenerate (det_box det) _ thr _ Hdet 0%Q None)
    by lra.
  cbn [bind]. apply IH. exact Hrest.
Qed.

Lemma enumerate_Forall {A : Type} (P : A -> Prop) (l : list A) :
  Forall P l -> forall i, Forall (fun e => P (snd e)) (enumerate_from i l).
Proof.
  induction 1 as [| a rest Ha _ IH]; intros i; [constructor|].
  cbn [enumerate_from]. constructor; [exact Ha | apply IH].
Qed.

(** X19. Detections without extent are never recognised.  The
    association matches none of them to a track, whatever the live set
    holds, so [init] is called on the seed of each one in the creation
    loop: the frame raises [cv2.error] when [init] raises on one of these
    seeds, and otherwise every detection gets a new identity, also when a
    track was made for the same box before. *)
Theorem detections_without_extent_get_new_ids
    (raises : Frame -> CvBox -> bool) (self : MultiPersonTracker T D)
    (frame : Frame) (dets : list Detection) (d : D) :
  live_ok self ->
  need_yolo (counted self) = Ok true ->
  detect (detector self) frame = (dets, d) ->
  Forall (fun det => ~ valid_box (det_box det)) dets ->
  (forall st : @Assoc T,
     Raising.match_loop raises (enumerate dets) frame (tracker_type self)
       (iou_threshold self) st = Ok st) /\
  ((exists det, In det dets /\ raises frame (cv_seed (det_box det)) = true) ->
   Raising.process_frame raises self frame = Raise cv2_error) /\
  ((forall det, In det dets ->
      raises frame (cv_seed (det_box det)) = false) ->
   exists results self',
     Raising.process_frame raises self frame = Ok (results, self') /\
     filter is_yolo results
     = map (fun e => (fst e, det_box (snd e), det_conf (snd e), "yolo"%string))
         (combine (ids_from (next_id self) (List.length dets)) dets) /\
     next_id self' = next_id self + Z.of_nat (List.length dets)).
Proof.
  intros Hlive Hn Hd Hdeg. split; [|split].
  - intros st. apply Raising_match_loop_degenerate.
    apply (enumerate_Forall (fun det => ~ valid_box (det_box det)) dets Hdeg).
  - intros (det & Hin & Hr).
    apply (Raising_process_frame_raises raises self frame dets d det Hn Hd
             Hin Hr).
  - intros Hall. rewrite Raising_process_frame_ok.
    + apply (degenerate_detections_answered self frame dets d Hlive Hn
               Hd Hdeg).
    + rewrite Hd. exact Hall.
Qed.

End RaisingClaims.

(** ** Examples for the statements above *)

Module MoreExamples.
Import Synthetic MoreSynthetic.

(** Five frames of the still video. *)
Lemma live_tracks_are_well_formed_witness :
  Forall (fun kp =>
            track_ok kp /\
            is_active (snd kp) = true /\
            (Float.lit (3 # 10) <= confidence (snd kp))%Q /\
            (confidence (snd kp) <= 1)%Q)
    (tracked_persons (tracker_after 30 (still_video 1 5))).
Proof.
  eapply (live_tracks_are_well_formed (fresh_tracker 30) (still_video 1 5)).
  vm_compute. reflexivity.
Defined.

Lemma tracker_entries_have_decayed_confidence_witness :
  exists res tracker',
    run_frames (reset (fresh_tracker 30)) (still_video 1 5)
      = Ok (res, tracker') /\
    forall results r,
      In results res -> In r results ->
      result_method r = "tracker"%string ->
      (Float.lit (3 # 10) <= result_conf r)%Q /\ (result_conf r <= Float.lit (98 # 100))%Q.
Proof.
  eexists _, _. split; [vm_compute; reflexivity|].
  eapply (tracker_entries_have_decayed_confidence (fresh_tracker 30)
            (still_video 1 5)).
  vm_compute. reflexivity.
Defined.

(** The tracker holds track 1; frame 2 is no detector frame. *)
Lemma tracker_only_frame_witness :
  exists results self',
    process_frame (tracker_after 30 [still_frame 1]) (still_frame 2)
      = Ok (results, self') /\
    Forall (fun r => result_method r = "tracker"%string) results /\
    next_id self' = 2 /\
    detector self' = [1].
Proof.
  eexists _, _. split; [vm_compute; reflexivity|].
  destruct (tracker_only_frame (tracker_after 30 [still_frame 1])
              (still_frame 2) _ _
              (TrackerExamples.live_ok_tracker_after 30 [still_frame 1])
              ltac:(vm_compute; reflexivity)
              ltac:(vm_compute; reflexivity))
    as (Hm & _ & _ & _ & Hn & Hd).
  split; [exact Hm|]. split; [exact Hn | exact Hd].
Defined.

(** The detection of [other] is matched to track 2, the only track that
    overlaps it. *)
Lemma best_track_is_best_witness :
  exists p,
    In (2, p) (tracked_persons (tracker_after 30 [crowd_frame 1])) /\
    calc_iou (det_box other) (bbox p) = Ok (2100 # 2100) /\
    forall k' p',
      In (k', p') (tracked_persons (tracker_after 30 [crowd_frame 1])) ->
      exists q', calc_iou (det_box other) (bbox p') = Ok q' /\
                 (q' <= 2100 # 2100)%Q.
Proof.
  destruct (best_track_is_best
              (tracked_persons (tracker_after 30 [crowd_frame 1])) []
              (det_box other) (3 # 10) (2100 # 2100) (Some 2))
    as (p & Hin & _ & Hq & _ & _ & Hbest).
  - vm_compute. reflexivity.
  - exists p. split; [exact Hin|]. split; [exact Hq|].
    intros k' p' Hin'. apply (Hbest k' p' Hin'). intros [].
Defined.

(** Frame 2 is a redetection frame; its one detection confirms track 1. *)
Lemma one_entry_per_detection_witness :
  exists results self',
    process_frame (tracker_after 2 [still_frame 1]) (still_frame 2)
      = Ok (results, self') /\
    List.length (filter is_yolo results) = 1%nat /\
    NoDup (map result_id (filter is_yolo results)).
Proof.
  eexists _, _. split; [vm_compute; reflexivity|].
  destruct (one_entry_per_detection (tracker_after 2 [still_frame 1])
              (still_frame 2) [subject] [1; 2] _ _
              (TrackerExamples.live_ok_tracker_after 2 [still_frame 1])
              ltac:(vm_compute; reflexivity)
              ltac:(vm_compute; reflexivity)
              ltac:(vm_compute; reflexivity))
    as (Hlen & Hnodup & _).
  split; [exact Hlen | exact Hnodup].
Defined.


(** Track 1 is live; frame 2 is a redetection frame that shows a second
    person, who becomes track 2 and is reported twice. *)
Lemma new_track_is_reported_twice_witness :
  keys (tracked_persons (tracker_after 2 [still_frame 1])) = [1] /\
  exists results self',
    process_frame (tracker_after 2 [still_frame 1]) (crowd_frame 2)
      = Ok (results, self') /\
    In (2, det_box other, det_conf other, "yolo"%string) results /\
    exists box conf, In (2, box, conf, "tracker"%string) results.
Proof.
  split; [reflexivity|].
  eexists _, _. split; [vm_compute; reflexivity|].
  split; [vm_compute; right; left; reflexivity|].
  eapply (new_track_is_reported_twice (tracker_after 2 [still_frame 1])
            (crowd_frame 2) _ _ 2 (det_box other) (det_conf other)).
  - apply TrackerExamples.live_ok_tracker_after.
  - vm_compute. reflexivity.
  - vm_compute. right. left. reflexivity.
  - vm_compute. discriminate.
  - vm_compute. reflexivity.
Defined.

Lemma statistics_are_consistent_witness :
  exists stats self' out,
    returned (process_video (fresh_processor 30) (still_capture 20 0)
                false false false 0 false) = Ok (stats, self', out) /\
    yolo_frames stats + tracker_frames stats <= total_frames stats.
Proof.
  destruct (statistics_are_consistent (fresh_processor 30)
              (still_capture 20 0) false false false 0 false)
    as (stats & self' & out & H & _ & _ & Hsum & _).
  - reflexivity.
  - vm_compute. discriminate.
  - discriminate.
  - exists stats, self', out. split; [exact H | exact Hsum].
Defined.


(** Ten frames with [skip_frames = 2]: frames 1, 4, 7 and 10. *)
Lemma every_kth_frame_is_processed_witness :
  exists stats self' out res,
    returned (process_video (fresh_processor 30) (still_capture 10 0)
                false false false 2 false) = Ok (stats, self', out) /\
    run_frames (reset (fresh_tracker 30))
      [still_frame 1; still_frame 4; still_frame 7; still_frame 10]
      = Ok (res, multi_tracker self') /\
    total_frames stats = 4.
Proof.
  destruct (every_kth_frame_is_processed (fresh_processor 30)
              (still_capture 10 0) false false false 2)
    as (stats & self' & out & res & H & Hr & _ & Ht).
  - reflexivity.
  - vm_compute. discriminate.
  - discriminate.
  - vm_compute. repeat constructor.
  - exists stats, self', out, res. split; [exact H|].
    split; [exact Hr | exact Ht].
Defined.

(** Five frames, with a writer and both callbacks. *)
Lemma sinks_get_every_processed_frame_witness :
  exists stats self' out,
    returned (process_video (fresh_processor 30) (still_capture 5 0)
                true true true 0 false) = Ok (stats, self', out) /\
    map drawn_on (written out) = still_video 1 5 /\
    map (fun e => total_frames (snd e)) (progress out) = [1; 2; 3; 4; 5].
Proof.
  destruct (sinks_get_every_processed_frame (fresh_processor 30)
              (still_capture 5 0) true true true 0 false)
    as (stats & self' & out & res & H & Hr & _ & Hw & _ & Hp).
  - reflexivity.
  - vm_compute. discriminate.
  - discriminate.
  - exists stats, self', out. split; [exact H|].
    split; [exact Hw|].
    vm_compute in Hr. injection Hr as <- _. exact Hp.
Defined.

(** [subject]'s box is accepted, a box without width is refused. *)
Lemma lightweight_init_witness :
  LightweightTracker.get_bbox lightweight_started = Some (10, 10, 50, 50) /\
  LightweightTracker.init lightweight_new (still_frame 1) (5, 5, 5, 20)
    = (false, lightweight_new).
Proof.
  split.
  - apply (lightweight_init lightweight_new (still_frame 1) 10 10 50 50).
    reflexivity.
  - apply (lightweight_init lightweight_new (still_frame 1) 5 5 5 20).
    left. vm_compute. discriminate.
Defined.

(** The subject is lost in frame 2 and back in frames 3 to 5. *)
Lemma lightweight_failure_is_final_witness :
  LightweightTracker.get_bbox
    (snd (LightweightTracker.update lightweight_started (blank_frame 2)))
    = None /\
  fst (LightweightTracker.updates
         (snd (LightweightTracker.update lightweight_started (blank_frame 2)))
         (still_video 3 3))
    = [(false, None, 0%Q); (false, None, 0%Q); (false, None, 0%Q)].
Proof.
  destruct (lightweight_failure_is_final lightweight_started (blank_frame 2)
              (still_video 3 3) 30) as (_ & Hb & _ & Hu).
  - intros _. vm_compute. discriminate.
  - reflexivity.
  - split; [exact Hb|]. rewrite Hu. reflexivity.
Defined.

(** Twenty-six tracked frames: a redetection is due with the default
    interval of 30, and with an interval of 1000. *)
Lemma lightweight_redetect_after_26_witness :
  exists rs s',
    LightweightTracker.updates lightweight_started (still_video 2 26)
      = (rs, s') /\
    LightweightTracker.frames_since_init s' = 26 /\
    LightweightTracker.should_redetect s' 1000 = true.
Proof.
  exists (fst (LightweightTracker.updates lightweight_started
                 (still_video 2 26))),
         (snd (LightweightTracker.updates lightweight_started
                 (still_video 2 26))).
  split; [vm_compute; reflexivity|].
  destruct (lightweight_redetect_after_26 lightweight_new (still_frame 1)
              (10, 10, 50, 50) (still_video 2 26) lightweight_started
              (snd (LightweightTracker.updates lightweight_started
                      (still_video 2 26)))
              (fst (LightweightTracker.updates lightweight_started
                      (still_video 2 26)))
              1000) as (Hn & _ & Hr).
  - vm_compute. reflexivity.
  - vm_compute. reflexivity.
  - vm_compute. repeat constructor.
  - split; [exact Hn | exact Hr].
Defined.

Lemma hybrid_reports_first_detection_witness :
  exists h',
    HybridTracker.process_frame hybrid_new (still_frame 1)
    = Ok ((Some (10, 10, 50, 50), "yolo"%string, 9 # 10), h').
Proof.
  apply (hybrid_reports_first_detection hybrid_new (still_frame 1)
           [subject] [1]).
  - reflexivity.
  - left. reflexivity.
  - reflexivity.
Defined.

(** The detection of [other] is matched to track 2: both boxes have an
    extent. *)
Lemma matched_boxes_have_extent_witness :
  valid_box (det_box other) /\
  exists p,
    In (2, p) (tracked_persons (tracker_after 30 [crowd_frame 1])) /\
    valid_box (bbox p).
Proof.
  destruct (matched_boxes_have_extent
              (tracked_persons (tracker_after 30 [crowd_frame 1])) []
              (det_box other) (3 # 10) (2100 # 2100) 2)
    as (Hb & p & Hin & Hp & _).
  - vm_compute. reflexivity.
  - split; [exact Hb|]. exists p. split; [exact Hin | exact Hp].
Defined.

(** Track 1 is live and frame 2, a redetection frame, shows a detection
    without width: with an [init] that raises on such a seed the frame
    raises.  With an [init] that answers, frames 1 and 2 show the same
    detection without width, and on frame 2 it becomes track 2. *)
Lemma detections_without_extent_get_new_ids_witness :
  Raising.process_frame no_extent_raises (tracker_after 2 [still_frame 1])
    (thin_frame 2) = Raise cv2_error /\
  keys (tracked_persons (tracker_after 2 [thin_frame 1])) = [1] /\
  exists results self',
    Raising.process_frame (fun _ _ => false) (tracker_after 2 [thin_frame 1])
      (thin_frame 2) = Ok (results, self') /\
    filter is_yolo results = [(2, (5, 5, 5, 20), 9 # 10, "yolo"%string)] /\
    next_id self' = 3.
Proof.
  assert (Hthin : Forall (fun det => ~ valid_box (det_box det)) [thin]).
  { constructor; [|constructor]. intros [H _]. vm_compute in H.
    discriminate. }
  split; [|split; [reflexivity|]].
  - destruct (detections_without_extent_get_new_ids no_extent_raises
                (tracker_after 2 [still_frame 1]) (thin_frame 2) [thin]
                [1; 2]) as (_ & Hraise & _).
    + apply TrackerExamples.live_ok_tracker_after.
    + vm_compute. reflexivity.
    + reflexivity.
    + exact Hthin.
    + apply Hraise. exists thin. split; [left; reflexivity | reflexivity].
  - destruct (detections_without_extent_get_new_ids (fun _ _ => false)
                (tracker_after 2 [thin_frame 1]) (thin_frame 2) [thin]
                [1; 2]) as (_ & _ & Hnew).
    + apply TrackerExamples.live_ok_tracker_after.
    + vm_compute. reflexivity.
    + reflexivity.
    + exact Hthin.
    + destruct Hnew as (results & self' & Hp & Hy & Hn);
        [intros det _; reflexivity|].
      exists results, self'. split; [exact Hp|].
      split; [exact Hy | exact Hn].
Defined.

(** A processor that holds a track, statistics and a raised stop flag
    behaves as a new one. *)
Lemma earlier_state_is_forgotten_witness :
  process_video used_processor (still_capture 5 0) true true true 0 false
  = process_video (fresh_processor 30) (still_capture 5 0) true true true 0
      false.
Proof.
  destruct (earlier_state_is_forgotten (fresh_processor 30) used_processor
              (still_capture 5 0) true true true 0 false) as [H _].
  - reflexivity.
  - reflexivity.
  - reflexivity.
  - reflexivity.
  - exact H.
Defined.

(** Frame 1 shows one detection without width.  With an [init] that
    raises on a seed without extent, [process_frame] raises; with the
    tracker double, whose [init] answers [False] on this seed, the
    detection is registered as track 1. *)
Lemma rejected_seed_is_not_dropped_witness :
  Raising.process_frame no_extent_raises (fresh_tracker 30) (thin_frame 1)
    = Raise cv2_error /\
  fst (tracker_init (create_tracker CSRT) (thin_frame 1) (cv_seed (det_box thin)))
    = false /\
  exists results self' k p,
    Raising.process_frame (fun _ _ => false) (fresh_tracker 30) (thin_frame 1)
      = Ok (results, self') /\
    In (k, det_box thin, det_conf thin, "yolo"%string) results /\
    In (k, p) (tracked_persons self') /\
    is_active p = true.
Proof.
  split; [|split; [reflexivity|]].
  - destruct (rejected_seed_is_not_dropped no_extent_raises (fresh_tracker 30)
                (thin_frame 1) [thin] [1]) as (Hraise & _).
    + apply live_ok_init.
    + vm_compute. reflexivity.
    + reflexivity.
    + apply Hraise. exists thin. split; [left; reflexivity | reflexivity].
  - destruct (rejected_seed_is_not_dropped (fun _ _ => false)
                (fresh_tracker 30) (thin_frame 1) [thin] [1])
      as (_ & Hreg).
    + apply live_ok_init.
    + vm_compute. reflexivity.
    + reflexivity.
    + destruct Hreg as (results & self' & Hp & Hall);
        [intros det _; reflexivity|].
      destruct (Hall thin (or_introl eq_refl)) as (k & p & H1 & H2 & H3).
      exists results, self', k, p.
      split; [exact Hp|]. split; [exact H1|]. split; [exact H2 | exact H3].
Defined.

End MoreExamples.
